(** * DockerRuntime: container lifecycle of openhands/runtime/impl/docker/docker_runtime.py

    A shallow embedding of the attach-or-create state machine, the port
    allocator, the network-mode resolver, the liveness retry loop and the
    process-wide docker client, followed by the properties established
    about them.

    The container engine, the operating system and the HTTP endpoint inside
    the container are external: their answers are given by an [environment]
    of replies indexed by call number, and every call of the program to
    them advances the matching counter of the [state]. *)

From Stdlib Require Import String Ascii ZArith List Lia Bool Arith.
From Stdlib Require Import DecimalString DecimalZ DecimalPos.
Import ListNotations.
Open Scope string_scope.
Open Scope Z_scope.

(* ===================================================================== *)
(** ** Python strings *)

(** [str(n)] for an [int]. *)
Definition py_str_int (z : Z) : string := NilZero.string_of_int (Z.to_int z).

(** [int(s)]: [None] stands for [ValueError].  Only plain decimal
    numerals with an optional leading minus are accepted; the blanks, the
    plus sign and the underscores Python also accepts are not. *)
Definition py_int (s : string) : option Z :=
  option_map Z.of_int (NilZero.int_of_string s).

(** [s.startswith(p)]. *)
Definition startswith (s p : string) : bool := String.prefix p s.

(** [sub in s] on strings. *)
Fixpoint contains (sub s : string) : bool :=
  if String.prefix sub s then true
  else match s with
       | EmptyString => false
       | String _ s' => contains sub s'
       end.

(** [s.split(sep)] for a non-empty [sep]: leftmost, non-overlapping
    occurrences.  [skip] counts the characters of a separator that are
    still to be dropped, [cur] holds the current piece in reverse. *)
Fixpoint split_aux (sep : string) (skip : nat) (cur : list ascii) (s : string)
  : list string :=
  match s with
  | EmptyString => [string_of_list_ascii (rev cur)]
  | String c s' =>
      match skip with
      | S k => split_aux sep k cur s'
      | O =>
          if String.prefix sep s
          then string_of_list_ascii (rev cur)
                 :: split_aux sep (String.length sep - 1) [] s'
          else split_aux sep 0 (c :: cur) s'
      end
  end.

Definition py_split (s sep : string) : list string := split_aux sep 0 [] s.

(** [l[i]] for [i >= 0] and [l[-1]]; [None] stands for [IndexError]. *)
Definition py_index (l : list string) (i : nat) : option string := nth_error l i.
Definition py_last (l : list string) : option string := nth_error (rev l) 0.

(** [x or default] on an optional string: [None] and [''] are falsy. *)
Definition py_or (x : option string) (default : string) : string :=
  match x with
  | Some (String c s) => String c s
  | _ => default
  end.

(** [sep.join(l)]. *)
Fixpoint join (sep : string) (l : list string) : string :=
  match l with
  | [] => ""
  | [x] => x
  | x :: rest => x ++ sep ++ join sep rest
  end.

(* ===================================================================== *)
(** ** Python dictionaries with string keys

    Insertion-ordered, one entry per key: the order is what
    [environment.items()] and [exposed_ports.keys()] iterate over. *)

Definition dict (V : Type) := list (string * V).

Fixpoint dict_get {V} (k : string) (d : dict V) : option V :=
  match d with
  | [] => None
  | (k', v) :: d' => if String.eqb k k' then Some v else dict_get k d'
  end.

(** [d[k] = v]: an existing key keeps its place, a new one goes last. *)
Fixpoint dict_set {V} (k : string) (v : V) (d : dict V) : dict V :=
  match d with
  | [] => [(k, v)]
  | (k', v') :: d' =>
      if String.eqb k k' then (k', v) :: d' else (k', v') :: dict_set k v d'
  end.

(** [d.update(other)]. *)
Definition dict_update {V} (d other : dict V) : dict V :=
  fold_left (fun acc kv => dict_set (fst kv) (snd kv) acc) other d.

Definition dict_keys {V} (d : dict V) : list string := map fst d.

(** A well-formed dictionary has no repeated key. *)
Definition dict_wf {V} (d : dict V) : Prop := NoDup (dict_keys d).

(** [s.lower()] on ASCII letters. *)
Definition lower_ascii (c : ascii) : ascii :=
  let n := nat_of_ascii c in
  if (Nat.leb 65 n && Nat.leb n 90)%bool then ascii_of_nat (n + 32) else c.

Fixpoint py_lower (s : string) : string :=
  match s with
  | EmptyString => EmptyString
  | String c s' => String (lower_ascii c) (py_lower s')
  end.

Definition nl : string := String (ascii_of_nat 10) EmptyString.

(* ===================================================================== *)
(** ** Exceptions

    The exception classes the file raises, catches or tests with
    [isinstance].  [NotFound] is [docker.errors.NotFound], a subclass of
    [docker.errors.APIError]; the four [httpx] classes and the builtin
    [ConnectionError] are the ones of the retry predicate;
    [AgentRuntimeDisconnectedError] and [AgentRuntimeNotFoundError] come
    from [openhands.core.exceptions] and derive from [Exception] through
    [AgentRuntimeError] only, so neither is an instance of a docker, httpx
    or connection class. *)
Inductive exn : Type :=
| NotFound (msg : string)
| APIError (msg : string)
| ConnectTimeout
| NetworkError
| RemoteProtocolError
| HTTPStatusError
| ConnectionError
| AgentRuntimeDisconnectedError (msg : string)
| AgentRuntimeNotFoundError (msg : string)
| UnboundLocalError (name : string)
| ValueError (msg : string)
| RuntimeError (msg : string)
| RetryError (last_attempt : exn)
| OtherException (msg : string).

(** [str(e)]. *)
Fixpoint exn_str (e : exn) : string :=
  match e with
  | NotFound m | APIError m | AgentRuntimeDisconnectedError m
  | AgentRuntimeNotFoundError m | ValueError m | RuntimeError m
  | OtherException m => m
  | UnboundLocalError x =>
      "cannot access local variable '" ++ x
        ++ "' where it is not associated with a value"
  | RetryError c => "RetryError[" ++ exn_str c ++ "]"
  | ConnectTimeout | NetworkError | RemoteProtocolError | HTTPStatusError
  | ConnectionError => ""
  end.

(** [isinstance(e, docker.errors.NotFound)]. *)
Definition is_NotFound (e : exn) : bool :=
  match e with NotFound _ => true | _ => false end.

(** [isinstance(e, docker.errors.APIError)]. *)
Definition is_APIError (e : exn) : bool :=
  match e with NotFound _ | APIError _ => true | _ => false end.

(** [isinstance(e, httpx.ConnectTimeout)]. *)
Definition is_ConnectTimeout (e : exn) : bool :=
  match e with ConnectTimeout => true | _ => false end.

(** Lines 42-57. *)
Fixpoint _is_retryable_wait_until_alive_error (exception : exn) : bool :=
  match exception with
  | RetryError cause => _is_retryable_wait_until_alive_error cause
  | ConnectionError | NetworkError | RemoteProtocolError | HTTPStatusError
  | ConnectTimeout | NotFound _ => true
  | _ => false
  end.

(* ===================================================================== *)
(** ** Constants (lines 34-39) *)

Definition CONTAINER_NAME_PREFIX : string := "openhands-runtime-".
Definition EXECUTION_SERVER_PORT_RANGE : Z * Z := (30000, 39999).
Definition VSCODE_PORT_RANGE : Z * Z := (40000, 49999).
Definition APP_PORT_RANGE_1 : Z * Z := (50000, 54999).
Definition APP_PORT_RANGE_2 : Z * Z := (55000, 59999).

(* ===================================================================== *)
(** ** Data *)

(** One host binding of a published port, as the engine reports it. *)
Record binding := { HostIp : string; HostPort : string }.

(** Answers of a collaborator: a value or a raised exception. *)
Inductive reply (A : Type) : Type :=
| Returns (a : A)
| Throws (e : exn).
Arguments Returns {A} a.
Arguments Throws {A} e.

(** A container as the engine shows it: what [containers.get],
    [containers.list] and [containers.run] hand back. *)
Record Container := {
  c_name : string;
  c_status : string;
  c_env : list string;                      (* attrs['Config']['Env'] *)
  c_exposed_ports : option (list string);   (* attrs['Config'].get('ExposedPorts') *)
  c_ports : dict (option (list binding));   (* container.ports *)
  c_ip_address : string;                    (* NetworkSettings, IPAddress *)
  c_gateway : string;                       (* NetworkSettings, Gateway *)
  c_logs : reply string;                    (* logs(tail=50).decode(..) *)
  c_network_mode : string;
  c_extra_hosts : dict string
}.

(** The keyword arguments of [containers.run] (lines 419-438) that the
    properties below speak of. *)
Record run_spec := {
  r_image : option string;
  r_network_mode : string;
  r_ports : option (dict (list binding));
  r_name : string;
  r_environment : dict string;
  r_extra_hosts : dict string;
  r_gpu : bool
}.

(** The configuration read by the runtime, with the constructor arguments
    and the module-level flags it consults. *)
Record config := {
  sid : string;
  attach_to_existing : bool;
  use_host_network : bool;
  vscode_enabled : bool;
  runtime_startup_env_vars : dict string;
  platform : option string;
  debug : bool;
  DEBUG : bool;
  DEBUG_RUNTIME : bool;
  runtime_binding_address : option string;
  local_runtime_url : string;
  base_container_image : option string;
  keep_runtime_alive : bool;
  rm_all_containers : bool;
  enable_gpu : bool;
  os_name_nt : bool
}.

(** The behaviour of everything outside the program, by call number. *)
Record environment := {
  get_reply : nat -> string -> reply Container;   (* containers.get(name) *)
  list_reply : nat -> list Container;             (* containers.list() *)
  version_reply : nat -> reply (list string);     (* version(): component names *)
  drawn_port : nat -> Z -> Z -> Z;                (* find_available_tcp_port(lo, hi) *)
  run_reply : nat -> reply (string * string);     (* containers.run: IP, gateway *)
  ping_reply : nat -> option exn;                 (* exec_run('ping ...') *)
  alive_reply : nat -> option exn;                (* check_if_alive() *)
  stop_reply : nat -> bool;                       (* deadline passed or exit asked *)
  build_reply : nat -> reply string               (* build_runtime_image *)
}.

(** What an observer sees, in order. *)
Inductive event : Type :=
| EvStatus (msg : string)
| EvLog (level : string)
| EvSleep (seconds : Z)
| EvGet (name : string)
| EvStart (name : string)
| EvList
| EvVersion
| EvDraw (lo hi : Z)
| EvBuildImage
| EvRun (spec : run_spec)
| EvStopAll (prefix : string)
| EvSuperClose
| EvLogStreamerClose
| EvProbe (ok : bool)
| EvSetupInitialEnv.

(** Call counters, one per kind of collaborator call. *)
Record calls := {
  n_get : nat; n_list : nat; n_version : nat; n_draw : nat; n_run : nat;
  n_ping : nat; n_alive : nat; n_stop : nat; n_build : nat
}.

(** The mutable fields of a [DockerRuntime] instance. *)
Record runtime := {
  _host_port : Z;
  _container_port : Z;
  _vscode_port : Z;
  _app_ports : list Z;
  api_url : string;
  container : option Container;
  runtime_container_image : option string;
  log_streamer : bool;
  _runtime_initialized : bool
}.

Record state := { self : runtime; made : calls }.

(** Lines 94-97, 121, 124-126 and 131 of [__init__]. *)
Definition new_runtime (cfg : config) (image : option string) : runtime :=
  {| _host_port := -1; _container_port := -1; _vscode_port := -1;
     _app_ports := [];
     api_url := local_runtime_url cfg ++ ":" ++ py_str_int (-1);
     container := None; runtime_container_image := image;
     log_streamer := false; _runtime_initialized := false |}.

Definition no_calls : calls :=
  {| n_get := 0; n_list := 0; n_version := 0; n_draw := 0; n_run := 0;
     n_ping := 0; n_alive := 0; n_stop := 0; n_build := 0 |}.

(** Field updates. *)
Definition set_host_port (v : Z) (r : runtime) : runtime :=
  {| _host_port := v; _container_port := _container_port r;
     _vscode_port := _vscode_port r; _app_ports := _app_ports r;
     api_url := api_url r; container := container r;
     runtime_container_image := runtime_container_image r;
     log_streamer := log_streamer r;
     _runtime_initialized := _runtime_initialized r |}.
Definition set_container_port (v : Z) (r : runtime) : runtime :=
  {| _host_port := _host_port r; _container_port := v;
     _vscode_port := _vscode_port r; _app_ports := _app_ports r;
     api_url := api_url r; container := container r;
     runtime_container_image := runtime_container_image r;
     log_streamer := log_streamer r;
     _runtime_initialized := _runtime_initialized r |}.
Definition set_vscode_port (v : Z) (r : runtime) : runtime :=
  {| _host_port := _host_port r; _container_port := _container_port r;
     _vscode_port := v; _app_ports := _app_ports r;
     api_url := api_url r; container := container r;
     runtime_container_image := runtime_container_image r;
     log_streamer := log_streamer r;
     _runtime_initialized := _runtime_initialized r |}.
Definition set_app_ports (v : list Z) (r : runtime) : runtime :=
  {| _host_port := _host_port r; _container_port := _container_port r;
     _vscode_port := _vscode_port r; _app_ports := v;
     api_url := api_url r; container := container r;
     runtime_container_image := runtime_container_image r;
     log_streamer := log_streamer r;
     _runtime_initialized := _runtime_initialized r |}.
Definition set_api_url (v : string) (r : runtime) : runtime :=
  {| _host_port := _host_port r; _container_port := _container_port r;
     _vscode_port := _vscode_port r; _app_ports := _app_ports r;
     api_url := v; container := container r;
     runtime_container_image := runtime_container_image r;
     log_streamer := log_streamer r;
     _runtime_initialized := _runtime_initialized r |}.
Definition set_container (v : option Container) (r : runtime) : runtime :=
  {| _host_port := _host_port r; _container_port := _container_port r;
     _vscode_port := _vscode_port r; _app_ports := _app_ports r;
     api_url := api_url r; container := v;
     runtime_container_image := runtime_container_image r;
     log_streamer := log_streamer r;
     _runtime_initialized := _runtime_initialized r |}.
Definition set_runtime_container_image (v : option string) (r : runtime)
  : runtime :=
  {| _host_port := _host_port r; _container_port := _container_port r;
     _vscode_port := _vscode_port r; _app_ports := _app_ports r;
     api_url := api_url r; container := container r;
     runtime_container_image := v;
     log_streamer := log_streamer r;
     _runtime_initialized := _runtime_initialized r |}.
Definition set_log_streamer (v : bool) (r : runtime) : runtime :=
  {| _host_port := _host_port r; _container_port := _container_port r;
     _vscode_port := _vscode_port r; _app_ports := _app_ports r;
     api_url := api_url r; container := container r;
     runtime_container_image := runtime_container_image r;
     log_streamer := v;
     _runtime_initialized := _runtime_initialized r |}.
Definition set_runtime_initialized (v : bool) (r : runtime) : runtime :=
  {| _host_port := _host_port r; _container_port := _container_port r;
     _vscode_port := _vscode_port r; _app_ports := _app_ports r;
     api_url := api_url r; container := container r;
     runtime_container_image := runtime_container_image r;
     log_streamer := log_streamer r;
     _runtime_initialized := v |}.

Definition bump_get (c : calls) : calls :=
  {| n_get := S (n_get c); n_list := n_list c; n_version := n_version c;
     n_draw := n_draw c; n_run := n_run c; n_ping := n_ping c;
     n_alive := n_alive c; n_stop := n_stop c; n_build := n_build c |}.
Definition bump_list (c : calls) : calls :=
  {| n_get := n_get c; n_list := S (n_list c); n_version := n_version c;
     n_draw := n_draw c; n_run := n_run c; n_ping := n_ping c;
     n_alive := n_alive c; n_stop := n_stop c; n_build := n_build c |}.
Definition bump_version (c : calls) : calls :=
  {| n_get := n_get c; n_list := n_list c; n_version := S (n_version c);
     n_draw := n_draw c; n_run := n_run c; n_ping := n_ping c;
     n_alive := n_alive c; n_stop := n_stop c; n_build := n_build c |}.
Definition bump_draw (c : calls) : calls :=
  {| n_get := n_get c; n_list := n_list c; n_version := n_version c;
     n_draw := S (n_draw c); n_run := n_run c; n_ping := n_ping c;
     n_alive := n_alive c; n_stop := n_stop c; n_build := n_build c |}.
Definition bump_run (c : calls) : calls :=
  {| n_get := n_get c; n_list := n_list c; n_version := n_version c;
     n_draw := n_draw c; n_run := S (n_run c); n_ping := n_ping c;
     n_alive := n_alive c; n_stop := n_stop c; n_build := n_build c |}.
Definition bump_ping (c : calls) : calls :=
  {| n_get := n_get c; n_list := n_list c; n_version := n_version c;
     n_draw := n_draw c; n_run := n_run c; n_ping := S (n_ping c);
     n_alive := n_alive c; n_stop := n_stop c; n_build := n_build c |}.
Definition bump_alive (c : calls) : calls :=
  {| n_get := n_get c; n_list := n_list c; n_version := n_version c;
     n_draw := n_draw c; n_run := n_run c; n_ping := n_ping c;
     n_alive := S (n_alive c); n_stop := n_stop c; n_build := n_build c |}.
Definition bump_stop (c : calls) : calls :=
  {| n_get := n_get c; n_list := n_list c; n_version := n_version c;
     n_draw := n_draw c; n_run := n_run c; n_ping := n_ping c;
     n_alive := n_alive c; n_stop := S (n_stop c); n_build := n_build c |}.
Definition bump_build (c : calls) : calls :=
  {| n_get := n_get c; n_list := n_list c; n_version := n_version c;
     n_draw := n_draw c; n_run := n_run c; n_ping := n_ping c;
     n_alive := n_alive c; n_stop := n_stop c; n_build := S (n_build c) |}.

(* ===================================================================== *)
(** ** The monad of the program: state, events and exceptions

    A computation takes the state and gives an outcome, the new state
    and the events it caused, oldest first.  [OutOfFuel] is the model
    running out of steps in an unbounded loop; no handler catches it. *)

Inductive outcome (A : Type) : Type :=
| Ok (a : A)
| Raise (e : exn)
| OutOfFuel.
Arguments Ok {A} a.
Arguments Raise {A} e.
Arguments OutOfFuel {A}.

Definition M (A : Type) : Type := state -> outcome A * state * list event.

Definition ret {A} (a : A) : M A := fun s => (Ok a, s, []).

Definition bind {A B} (m : M A) (k : A -> M B) : M B := fun s =>
  match m s with
  | (Ok a, s1, t1) =>
      match k a s1 with (r, s2, t2) => (r, s2, (t1 ++ t2)%list) end
  | (Raise e, s1, t1) => (Raise e, s1, t1)
  | (OutOfFuel, s1, t1) => (OutOfFuel, s1, t1)
  end.

Notation "x <- m ;; k" := (bind m (fun x => k))
  (at level 61, m at next level, right associativity).
Notation "m ;; k" := (bind m (fun _ => k))
  (at level 61, right associativity).

Definition raise {A} (e : exn) : M A := fun s => (Raise e, s, []).
Definition out_of_fuel {A} : M A := fun s => (OutOfFuel, s, []).
Definition emit (ev : event) : M unit := fun s => (Ok tt, s, [ev]).
Definition get_self : M runtime := fun s => (Ok (self s), s, []).
Definition modify_self (f : runtime -> runtime) : M unit := fun s =>
  (Ok tt, {| self := f (self s); made := made s |}, []).

(** [try: m  except Exception as e: h e]; a handler that does not match
    re-raises. *)
Definition try_except {A} (m : M A) (h : exn -> M A) : M A := fun s =>
  match m s with
  | (Raise e, s1, t1) =>
      match h e s1 with (r, s2, t2) => (r, s2, (t1 ++ t2)%list) end
  | other => other
  end.

Fixpoint for_each {A} (l : list A) (body : A -> M unit) : M unit :=
  match l with
  | [] => ret tt
  | x :: l' => body x ;; for_each l' body
  end.

Definition log (level : string) : M unit := emit (EvLog level).
Definition send_status_message (msg : string) : M unit := emit (EvStatus msg).
(** [asyncio.sleep] and the wait of the retry loop. *)
Definition sleep (seconds : Z) : M unit := emit (EvSleep seconds).

(* ===================================================================== *)
(** ** What the engine keeps of a creation request

    The engine is outside the repository.  A container it creates shows
    the declared environment as [KEY=value] strings, the keys of the
    declared port map as its exposed ports and the declared host bindings
    as its published ports, each in the order of declaration. *)

Definition format_environment (env : dict string) : list string :=
  map (fun kv => fst kv ++ "=" ++ snd kv) env.

Definition engine_create (spec : run_spec) (net : string * string)
  : Container :=
  {| c_name := r_name spec;
     c_status := "created";
     c_env := format_environment (r_environment spec);
     c_exposed_ports := option_map dict_keys (r_ports spec);
     c_ports :=
       match r_ports spec with
       | Some pm => map (fun kv => (fst kv, Some (snd kv))) pm
       | None => []
       end;
     c_ip_address := fst net;
     c_gateway := snd net;
     c_logs := Returns "";
     c_network_mode := r_network_mode spec;
     c_extra_hosts := r_extra_hosts spec |}.

(** [str(container.ports)]: the text the port check searches. *)
Definition py_repr_str (s : string) : string := "'" ++ s ++ "'".

Definition repr_binding (b : binding) : string :=
  "{'HostIp': " ++ py_repr_str (HostIp b)
    ++ ", 'HostPort': " ++ py_repr_str (HostPort b) ++ "}".

Definition repr_bindings (v : option (list binding)) : string :=
  match v with
  | None => "None"
  | Some l => "[" ++ join ", " (map repr_binding l) ++ "]"
  end.

Definition repr_port_item (kv : string * option (list binding)) : string :=
  py_repr_str (fst kv) ++ ": " ++ repr_bindings (snd kv).

Definition py_repr_ports (d : dict (option (list binding))) : string :=
  "{" ++ join ", " (map repr_port_item d) ++ "}".

(** Reading a local variable that may not have been assigned. *)
Definition read_local {A} (name : string) (v : option A) : M A :=
  match v with
  | Some a => ret a
  | None => raise (UnboundLocalError name)
  end.

(** [container.logs(tail=50).decode('utf-8')] (line 248): the call to
    the engine and the strict decoding may raise. *)
Definition container_logs (c : Container) : M string :=
  match c_logs c with
  | Returns text => ret text
  | Throws e => raise e
  end.

(** [int(s)] where [s] comes from an indexing that may fail. *)
Definition int_of (s : option string) : M Z :=
  match s with
  | None => raise (OtherException "IndexError")
  | Some s =>
      match py_int s with
      | Some z => ret z
      | None => raise (ValueError s)
      end
  end.

(** [tenacity.wait_exponential(multiplier=1, min=4, max=10)] at the given
    attempt number, counted from 1. *)
Definition wait_exponential (attempt_number : nat) : Z :=
  Z.max (Z.max 0 4) (Z.min (1 * 2 ^ (Z.of_nat attempt_number - 1)) 10).

(** Lines 526-530: the text of the port number occurs in the text of the
    ports of some listed container. *)
Definition shown_by_some (containers : list Container) (port : Z) : bool :=
  existsb (fun c => contains (py_str_int port) (py_repr_ports (c_ports c)))
          containers.

(** Lines 293-294: some component of the version answer is named after
    Docker Desktop. *)
Definition is_docker_desktop (components : list string) : bool :=
  existsb (fun name => contains "docker-desktop" (py_lower name)) components.

Section DockerRuntime.

Variable E : environment.
Variable cfg : config.

(** Line 125. *)
Definition container_name : string := CONTAINER_NAME_PREFIX ++ sid cfg.

(** *** Collaborator calls

    The docker client, [find_available_tcp_port], [build_runtime_image]
    and the [check_if_alive] of the base class are not among the
    sources: each call takes its answer from the environment and counts
    itself. *)

Definition containers_get (name : string) : M Container := fun s =>
  let s' := {| self := self s; made := bump_get (made s) |} in
  match get_reply E (n_get (made s)) name with
  | Returns c => (Ok c, s', [EvGet name])
  | Throws e => (Raise e, s', [EvGet name])
  end.

Definition containers_list : M (list Container) := fun s =>
  (Ok (list_reply E (n_list (made s))),
   {| self := self s; made := bump_list (made s) |}, [EvList]).

Definition docker_version : M (list string) := fun s =>
  let s' := {| self := self s; made := bump_version (made s) |} in
  match version_reply E (n_version (made s)) with
  | Returns v => (Ok v, s', [EvVersion])
  | Throws e => (Raise e, s', [EvVersion])
  end.

Definition find_available_tcp_port (lo hi : Z) : M Z := fun s =>
  (Ok (drawn_port E (n_draw (made s)) lo hi),
   {| self := self s; made := bump_draw (made s) |}, [EvDraw lo hi]).

Definition containers_run (spec : run_spec) : M Container := fun s =>
  let s' := {| self := self s; made := bump_run (made s) |} in
  match run_reply E (n_run (made s)) with
  | Returns net => (Ok (engine_create spec net), s', [EvRun spec])
  | Throws e => (Raise e, s', [EvRun spec])
  end.

Definition exec_run_ping : M unit := fun s =>
  let s' := {| self := self s; made := bump_ping (made s) |} in
  match ping_reply E (n_ping (made s)) with
  | None => (Ok tt, s', [])
  | Some e => (Raise e, s', [])
  end.

Definition check_if_alive : M unit := fun s =>
  let s' := {| self := self s; made := bump_alive (made s) |} in
  match alive_reply E (n_alive (made s)) with
  | None => (Ok tt, s', [EvProbe true])
  | Some e => (Raise e, s', [EvProbe false])
  end.

Definition should_stop : M bool := fun s =>
  (Ok (stop_reply E (n_stop (made s))),
   {| self := self s; made := bump_stop (made s) |}, []).

Definition build_runtime_image : M string := fun s =>
  let s' := {| self := self s; made := bump_build (made s) |} in
  match build_reply E (n_build (made s)) with
  | Returns img => (Ok img, s', [EvBuildImage])
  | Throws e => (Raise e, s', [EvBuildImage])
  end.

(** Modelled from the spec: [stop_all_containers] of
    [openhands.runtime.impl.docker.containers] is not among the sources;
    the spec has it remove the containers under the given name prefix.
    It shows here as the request made to the engine. *)
Definition stop_all_containers (prefix : string) : M unit :=
  emit (EvStopAll prefix).

(** [setup_initial_env] of the base class, an external collaborator. *)
Definition setup_initial_env : M unit := emit EvSetupInitialEnv.

(** *** Port allocator (lines 524-539) *)

Definition _is_port_in_use_docker (port : Z) : M bool :=
  containers <- containers_list ;;
  ret (shown_by_some containers port).

(** The [for _ in range(max_attempts)] loop with [port] as it stands
    before the iteration. *)
Fixpoint find_port_loop (attempts : nat) (port_range : Z * Z) (port : Z)
  : M Z :=
  match attempts with
  | O => ret port
  | S attempts' =>
      port <- find_available_tcp_port (fst port_range) (snd port_range) ;;
      in_use <- _is_port_in_use_docker port ;;
      if negb in_use then ret port
      else find_port_loop attempts' port_range port
  end.

(** [max_attempts] is a count; a negative budget behaves as 0. *)
Definition _find_available_port (port_range : Z * Z) (max_attempts : nat)
  : M Z :=
  find_port_loop max_attempts port_range (snd port_range).

(** *** Closing (lines 504-522) *)

Definition close (rm_all_containers_arg : option bool) : M unit :=
  emit EvSuperClose ;;
  r <- get_self ;;
  (if log_streamer r then emit EvLogStreamerClose else ret tt) ;;
  let rm_all :=
    match rm_all_containers_arg with
    | None => rm_all_containers cfg
    | Some b => b
    end in
  if (keep_runtime_alive cfg || attach_to_existing cfg)%bool then ret tt
  else
    stop_all_containers
      (if rm_all then CONTAINER_NAME_PREFIX else container_name).

(** *** Container creation (lines 279-472) *)

(** Lines 283-306.  The second component is the local variable
    [extra_hosts]: [None] when no assignment to it was executed. *)
Definition resolve_network : M (string * option (dict string)) :=
  if use_host_network cfg then ret ("host", None)
  else
    try_except
      (version_info <- docker_version ;;
       if is_docker_desktop version_info then ret ("bridge", None)
       else ret ("bridge", Some [("host.docker.internal", "host-gateway")]))
      (fun e => log "warning" ;; ret ("bridge", None)).

(** Lines 308-320. *)
Definition allocate_ports : M unit :=
  try_except
    (p <- _find_available_port EXECUTION_SERVER_PORT_RANGE 5 ;;
     modify_self (set_host_port p) ;;
     modify_self (fun r => set_container_port (_host_port r) r) ;;
     v <- _find_available_port VSCODE_PORT_RANGE 5 ;;
     modify_self (set_vscode_port v) ;;
     a1 <- _find_available_port APP_PORT_RANGE_1 5 ;;
     a2 <- _find_available_port APP_PORT_RANGE_2 5 ;;
     modify_self (set_app_ports [a1; a2]))
    (fun e => log "error" ;; raise e).

(** Lines 322-335. *)
Definition choose_api_url : M unit :=
  r <- get_self ;;
  let hostname :=
    if os_name_nt cfg then Some "host.docker.internal"
    else
      match py_last (py_split (local_runtime_url cfg) "://") with
      | Some rest => py_index (py_split rest ":") 0
      | None => None
      end in
  match hostname with
  | Some hostname =>
      log "debug" ;;
      modify_self
        (set_api_url
           ("http://" ++ hostname ++ ":" ++ py_str_int (_container_port r)))
  | None =>
      log "warning" ;;
      modify_self
        (set_api_url ("http://localhost:" ++ py_str_int (_container_port r)))
  end.

Definition host_binding (bind_address : string) (port : Z) : binding :=
  {| HostIp := bind_address; HostPort := py_str_int port |}.

(** Lines 337-363: [None] in host-network mode. *)
Definition build_port_mapping (r : runtime)
  : option (dict (list binding)) :=
  if negb (use_host_network cfg) then
    let bind_address := py_or (runtime_binding_address cfg) "127.0.0.1" in
    let port_mapping :=
      [(py_str_int (_container_port r) ++ "/tcp",
        [host_binding bind_address (_host_port r)])] in
    let port_mapping :=
      if vscode_enabled cfg
      then dict_set (py_str_int (_vscode_port r) ++ "/tcp")
                    [host_binding bind_address (_vscode_port r)] port_mapping
      else port_mapping in
    Some (fold_left
            (fun pm port =>
               dict_set (py_str_int port ++ "/tcp")
                        [host_binding bind_address port] pm)
            (_app_ports r) port_mapping)
  else None.

(** Lines 371-384: the entries the runtime computes. *)
Definition computed_environment (r : runtime) : dict string :=
  let environment :=
    [("port", py_str_int (_container_port r));
     ("PYTHONUNBUFFERED", "1");
     ("VSCODE_PORT", py_str_int (_vscode_port r));
     ("PIP_BREAK_SYSTEM_PACKAGES", "1");
     ("HOST_HOSTNAME", "host.docker.internal");
     ("DOCKER_DEFAULT_PLATFORM", py_or (platform cfg) "linux/amd64");
     ("DOCKER_BUILDKIT", "1");
     ("DOCKER_DNS", "8.8.8.8")] in
  if (debug cfg || DEBUG cfg)%bool
  then dict_set "DOCKER_BUILDKIT_PROGRESS" "plain"
         (dict_set "DEBUG" "true" environment)
  else environment.

(** Lines 370-387: line 387 merges the caller's entries last. *)
Definition build_environment (r : runtime) : dict string :=
  dict_update (computed_environment r) (runtime_startup_env_vars cfg).

(** Lines 419-447, the body of the [try]: the arguments of
    [containers.run] are evaluated in order, [extra_hosts] among them,
    before the engine is called.  The command, the volumes and the
    pass-through [docker_runtime_kwargs] are left out of the request. *)
Definition run_container (network_mode : string)
    (extra_hosts : option (dict string))
    (port_mapping : option (dict (list binding)))
    (environment : dict string) : M unit :=
  r <- get_self ;;
  extra_hosts <- read_local "extra_hosts" extra_hosts ;;
  c <- containers_run
         {| r_image := runtime_container_image r;
            r_network_mode := network_mode;
            r_ports := port_mapping;
            r_name := container_name;
            r_environment := environment;
            r_extra_hosts := extra_hosts;
            r_gpu := enable_gpu cfg |} ;;
  modify_self (set_container (Some c)) ;;
  log "debug" ;;
  (if negb (String.eqb network_mode "host") then log "debug" else ret tt) ;;
  send_status_message "STATUS$CONTAINER_STARTED".

(** Lines 279-417: everything before the [try].  The volume map of
    lines 389-410 and the startup command of lines 412-416 are computed
    from the configuration alone and are left out; the two [log] calls
    of lines 389 and 407 stay. *)
Definition prepare_container
  : M (string * option (dict string) * option (dict (list binding))
       * dict string) :=
  log "debug" ;;
  send_status_message "STATUS$PREPARING_CONTAINER" ;;
  net <- resolve_network ;;
  allocate_ports ;;
  choose_api_url ;;
  r <- get_self ;;
  let port_mapping := build_port_mapping r in
  (if use_host_network cfg then log "warn" else ret tt) ;;
  let environment := build_environment r in
  log "debug" ;;
  log "debug" ;;
  ret (fst net, snd net, port_mapping, environment).

(** [_init_container]; every call, the recursive one of line 456
    included, spends one unit of [fuel]. *)
Fixpoint _init_container (fuel : nat) : M unit :=
  match fuel with
  | O => out_of_fuel
  | S fuel' =>
      prepared <- prepare_container ;;
      let '(network_mode, extra_hosts, port_mapping, environment) :=
        prepared in
      try_except
        (run_container network_mode extra_hosts port_mapping environment)
        (fun e =>
           if is_APIError e then
             if contains "409" (exn_str e) then
               log "warning" ;;
               stop_all_containers container_name ;;
               _init_container fuel'
             else
               log "error" ;; log "error" ;; raise e
           else
             log "error" ;; log "error" ;; close None ;; raise e)
  end.

(** *** Attaching (lines 474-502) *)

(** The body of the loop over [config['Env']] (lines 480-485). *)
Definition read_env_marker (env_var : string) : M unit :=
  if startswith env_var "port=" then
    v <- int_of (py_index (py_split env_var "port=") 1) ;;
    modify_self (set_host_port v) ;;
    modify_self (fun r => set_container_port (_host_port r) r)
  else if startswith env_var "VSCODE_PORT=" then
    v <- int_of (py_index (py_split env_var "VSCODE_PORT=") 1) ;;
    modify_self (set_vscode_port v)
  else ret tt.

(** The body of the loop over the exposed ports (lines 490-496). *)
Definition read_exposed_port (exposed_port : string) : M unit :=
  exposed_port <- int_of (py_index (py_split exposed_port "/tcp") 0) ;;
  r <- get_self ;;
  if (negb (exposed_port =? _host_port r)
      && negb (exposed_port =? _vscode_port r))%bool
  then modify_self
         (fun r => set_app_ports (_app_ports r ++ [exposed_port])%list r)
  else ret tt.

(** [container.start()] (line 477) shows as the request made to the
    engine and is taken to return. *)
Definition _attach_to_container : M unit :=
  c <- containers_get container_name ;;
  modify_self (set_container (Some c)) ;;
  (if String.eqb (c_status c) "exited"
   then emit (EvStart (c_name c)) else ret tt) ;;
  for_each (c_env c) read_env_marker ;;
  modify_self (set_app_ports []) ;;
  match c_exposed_ports c with
  | Some (k :: ks) => for_each (k :: ks) read_exposed_port
  | _ => ret tt
  end ;;
  modify_self
    (fun r =>
       set_api_url
         (local_runtime_url cfg ++ ":" ++ py_str_int (_container_port r)) r) ;;
  log "debug".

(** *** Liveness (lines 238-277) *)

(** One call of the decorated function body (lines 245-277). *)
Definition wait_attempt : M unit :=
  try_except
    (c <- containers_get container_name ;;
     (if String.eqb (c_status c) "exited" then
        logs <- container_logs c ;;
        raise (AgentRuntimeDisconnectedError
                 ("Container " ++ container_name
                    ++ " has exited. Last logs:" ++ nl ++ logs))
      else ret tt) ;;
     (if String.eqb (c_ip_address c) "" then
        try_except
          (exec_run_ping ;; log "debug")
          (fun e =>
             log "warning" ;;
             let container_ip := c_gateway c in
             if negb (String.eqb container_ip "") then
               modify_self
                 (fun r =>
                    set_api_url
                      ("http://" ++ container_ip ++ ":"
                         ++ py_str_int (_container_port r)) r) ;;
               log "debug"
             else ret tt)
      else ret tt) ;;
     log "debug" ;;
     check_if_alive)
    (fun e =>
       if is_NotFound e then
         raise (AgentRuntimeNotFoundError
                  ("Container " ++ container_name ++ " not found."))
       else
         log "error" ;; raise e).

(** The [tenacity.retry] decorator of lines 238-243: the exception of a
    failed attempt is raised again as it is ([reraise=True]) when the
    predicate rejects it or when the stop condition holds; otherwise the
    loop sleeps and tries again. *)
Fixpoint retry_wait_until_alive (fuel : nat) (attempt_number : nat)
  : M unit :=
  match fuel with
  | O => out_of_fuel
  | S fuel' =>
      try_except wait_attempt
        (fun e =>
           if negb (_is_retryable_wait_until_alive_error e) then raise e
           else
             stop <- should_stop ;;
             if stop then raise e
             else
               sleep (wait_exponential attempt_number) ;;
               retry_wait_until_alive fuel' (S attempt_number))
  end.

Definition _wait_until_alive (fuel : nat) : M unit :=
  retry_wait_until_alive fuel 1.

(** *** Connecting (lines 155-225) *)

Definition max_retries : Z := 3.

(** Lines 174-197: what the handler does before it creates a container. *)
Definition ensure_image : M unit :=
  r <- get_self ;;
  match runtime_container_image r with
  | Some _ => ret tt
  | None =>
      match base_container_image cfg with
      | None =>
          raise (ValueError
                   "Neither runtime container image nor base container image is set")
      | Some _ =>
          send_status_message "STATUS$STARTING_CONTAINER" ;;
          img <- build_runtime_image ;;
          modify_self (set_runtime_container_image (Some img))
      end
  end.

(** The [while retry_count < max_retries] loop of lines 160-200.  Every
    pass that does not leave the loop adds one to [retry_count], so
    [rounds = 3] passes are enough. *)
Fixpoint attach_loop (rounds : nat) (fuel : nat) (retry_count : Z)
  : M unit :=
  if retry_count <? max_retries then
    match rounds with
    | O => out_of_fuel
    | S rounds' =>
        try_except _attach_to_container
          (fun e =>
             if (is_NotFound e || is_ConnectTimeout e)%bool then
               let retry_count := retry_count + 1 in
               if ((retry_count >=? max_retries)
                   || attach_to_existing cfg)%bool
               then
                 (if attach_to_existing cfg then
                    log "error" ;;
                    raise (AgentRuntimeDisconnectedError "")
                  else ret tt) ;;
                 ensure_image ;;
                 log "info" ;;
                 _init_container fuel ;;
                 log "info" ;;
                 attach_loop rounds' fuel retry_count
               else
                 log "warning" ;;
                 sleep (2 ^ retry_count) ;;
                 attach_loop rounds' fuel retry_count
             else raise e)
    end
  else ret tt.

(** Lines 202-225. *)
Definition finish_connect (fuel : nat) : M unit :=
  modify_self (set_log_streamer (DEBUG_RUNTIME cfg)) ;;
  (if negb (attach_to_existing cfg) then
     log "info" ;; send_status_message "STATUS$WAITING_FOR_CLIENT"
   else ret tt) ;;
  _wait_until_alive fuel ;;
  (if negb (attach_to_existing cfg) then log "info" else ret tt) ;;
  (if negb (attach_to_existing cfg) then setup_initial_env else ret tt) ;;
  log "debug" ;;
  (if negb (attach_to_existing cfg) then send_status_message " "
   else ret tt) ;;
  modify_self (set_runtime_initialized true).

Definition connect (fuel : nat) : M unit :=
  send_status_message "STATUS$STARTING_RUNTIME" ;;
  attach_loop 3 fuel 0 ;;
  finish_connect fuel.

End DockerRuntime.

(** Events of a run, results of a run. *)
Definition result_of {A} (x : outcome A * state * list event) : outcome A :=
  fst (fst x).
Definition state_of {A} (x : outcome A * state * list event) : state :=
  snd (fst x).
Definition events_of {A} (x : outcome A * state * list event) : list event :=
  snd x.

(* ===================================================================== *)
(** ** The process-wide docker client (lines 227-236 and 585-597)

    [_init_docker_client] is a static method under [lru_cache(maxsize=1)]
    without arguments: its first successful result is kept for the life
    of the process, a raised exception is not kept.  Clients are numbered
    in the order [docker.from_env()] makes them. *)

Record docker_host := {
  from_env_reply : nat -> option exn;   (* docker.from_env() *)
  lookup_reply : nat -> option exn;     (* containers.get(container_name) *)
  remove_reply : nat -> option exn      (* container.remove(force=True) *)
}.

Record process := {
  cached_client : option nat;
  closed_clients : list nat;
  clients_made : nat;
  from_env_calls : nat;
  engine_calls : nat
}.

Definition _init_docker_client (H : docker_host) (p : process)
  : reply nat * process :=
  match cached_client p with
  | Some c => (Returns c, p)
  | None =>
      match from_env_reply H (from_env_calls p) with
      | None =>
          let c := clients_made p in
          (Returns c,
           {| cached_client := Some c;
              closed_clients := closed_clients p;
              clients_made := S c;
              from_env_calls := S (from_env_calls p);
              engine_calls := engine_calls p |})
      | Some ex =>
          (Throws ex,
           {| cached_client := None;
              closed_clients := closed_clients p;
              clients_made := clients_made p;
              from_env_calls := S (from_env_calls p);
              engine_calls := engine_calls p |})
      end
  end.

(** [docker_client.close()]. *)
Definition client_close (c : nat) (p : process) : process :=
  {| cached_client := cached_client p;
     closed_clients := c :: closed_clients p;
     clients_made := clients_made p;
     from_env_calls := from_env_calls p;
     engine_calls := engine_calls p |}.

Definition engine_call (p : process) : process :=
  {| cached_client := cached_client p;
     closed_clients := closed_clients p;
     clients_made := clients_made p;
     from_env_calls := from_env_calls p;
     engine_calls := S (engine_calls p) |}.

(** Lines 585-597; the result is the exception that leaves the call, if
    any.  [except docker.errors.APIError] also takes [NotFound], its
    subclass. *)
Definition delete (H : docker_host) (conversation_id : string) (p : process)
  : option exn * process :=
  match _init_docker_client H p with
  | (Throws ex, p1) => (Some ex, p1)
  | (Returns docker_client, p1) =>
      let tried :=
        match lookup_reply H (engine_calls p1) with
        | Some ex => (Some ex, engine_call p1)
        | None =>
            (remove_reply H (S (engine_calls p1)),
             engine_call (engine_call p1))
        end in
      let handled :=
        match fst tried with
        | Some ex => if is_APIError ex then None else Some ex
        | None => None
        end in
      (handled, client_close docker_client (snd tried))
  end.

(** What else obtains the client in a process: a new [DockerRuntime]
    (line 120) or a further [delete]. *)
Inductive process_op : Type :=
| OpNewRuntime
| OpDelete (conversation_id : string).

Definition run_op (H : docker_host) (p : process) (op : process_op)
  : process :=
  match op with
  | OpNewRuntime => snd (_init_docker_client H p)
  | OpDelete conversation_id => snd (delete H conversation_id p)
  end.

Definition run_ops (H : docker_host) (ops : list process_op) (p : process)
  : process :=
  fold_left (run_op H) ops p.

(* ===================================================================== *)
(** ** Reading event lists *)

Definition is_get (ev : event) : bool :=
  match ev with EvGet _ => true | _ => false end.
Definition is_run (ev : event) : bool :=
  match ev with EvRun _ => true | _ => false end.
Definition is_build (ev : event) : bool :=
  match ev with EvBuildImage => true | _ => false end.
Definition is_stop_all (ev : event) : bool :=
  match ev with EvStopAll _ => true | _ => false end.
Definition is_sleep (ev : event) : bool :=
  match ev with EvSleep _ => true | _ => false end.
Definition is_draw (ev : event) : bool :=
  match ev with EvDraw _ _ => true | _ => false end.
Definition is_setup (ev : event) : bool :=
  match ev with EvSetupInitialEnv => true | _ => false end.
Definition is_probe (ev : event) : bool :=
  match ev with EvProbe _ => true | _ => false end.

Definition count_events (p : event -> bool) (evs : list event) : nat :=
  List.length (filter p evs).

Definition none_of (p : event -> bool) (evs : list event) : bool :=
  forallb (fun ev => negb (p ev)) evs.

(** Consecutive lookups of the container are separated by a sleep of
    [2 ^ k] seconds, [k] being the number of lookups made so far.
    [slept] tells whether that sleep was seen since the last lookup. *)
Fixpoint backoff_between (k : Z) (slept : bool) (evs : list event) : bool :=
  match evs with
  | [] => true
  | EvGet _ :: evs' =>
      ((k =? 0) || slept)%bool && backoff_between (k + 1) false evs'
  | EvSleep d :: evs' =>
      backoff_between k (slept || (d =? 2 ^ k))%bool evs'
  | _ :: evs' => backoff_between k slept evs'
  end.

(** A container publishes a host port. *)
Definition publishes (c : Container) (port : Z) : bool :=
  existsb
    (fun kv =>
       match snd kv with
       | Some bs =>
           existsb (fun b => String.eqb (HostPort b) (py_str_int port)) bs
       | None => false
       end)
    (c_ports c).

Definition in_range (port_range : Z * Z) (port : Z) : Prop :=
  fst port_range <= port <= snd port_range.

(** A caller-supplied entry that does not read as one of the two port
    markers once written [KEY=value]. *)
Definition no_marker (kv : string * string) : bool :=
  (negb (startswith (fst kv ++ "=" ++ snd kv) "port=")
   && negb (startswith (fst kv ++ "=" ++ snd kv) "VSCODE_PORT="))%bool.

(** The Port Assignment held by a runtime. *)
Definition port_assignment (r : runtime) : Z * Z * Z * list Z :=
  (_host_port r, _container_port r, _vscode_port r, _app_ports r).

(** The call counters after [k] attempts of the port allocator: each
    attempt draws one candidate and lists the containers once. *)
Definition after_attempts (k : nat) (s : state) : state :=
  {| self := self s;
     made := Nat.iter k (fun c => bump_list (bump_draw c)) (made s) |}.

Definition attempt_events (port_range : Z * Z) (k : nat) : list event :=
  concat (repeat [EvDraw (fst port_range) (snd port_range); EvList] k).

(* ===================================================================== *)
(** ** Concrete configurations and engines used in the examples *)

Definition sample_config : config :=
  {| sid := "abc"; attach_to_existing := false; use_host_network := false;
     vscode_enabled := true; runtime_startup_env_vars := [];
     platform := None; debug := false; DEBUG := false;
     DEBUG_RUNTIME := false; runtime_binding_address := None;
     local_runtime_url := "http://127.0.0.1";
     base_container_image := Some "base"; keep_runtime_alive := false;
     rm_all_containers := false; enable_gpu := false; os_name_nt := false |}.

(** An engine without containers that is not Docker Desktop, creates what
    it is asked to and hands out one free port per range. *)
Definition sample_engine : environment :=
  {| get_reply := fun _ _ => Throws (NotFound "404 Client Error: Not Found");
     list_reply := fun _ => [];
     version_reply := fun _ => Returns ["Engine"; "containerd"];
     drawn_port := fun _ lo hi => Z.min (lo + 1) hi;
     run_reply := fun _ => Returns ("172.17.0.2", "172.17.0.1");
     ping_reply := fun _ => None;
     alive_reply := fun _ => None;
     stop_reply := fun _ => false;
     build_reply := fun _ => Returns "runtime-image" |}.

Definition fresh_state (cfg : config) : state :=
  {| self := new_runtime cfg (Some "runtime-image"); made := no_calls |}.

(** A running container that publishes host port 39999. *)
Definition busy_container : Container :=
  {| c_name := "openhands-runtime-other"; c_status := "running";
     c_env := []; c_exposed_ports := Some ["39999/tcp"];
     c_ports :=
       [("39999/tcp", Some [{| HostIp := "127.0.0.1"; HostPort := "39999" |}])];
     c_ip_address := "172.17.0.3"; c_gateway := "172.17.0.1";
     c_logs := Returns ""; c_network_mode := "bridge"; c_extra_hosts := [] |}.

(** The sample engine with [busy_container] running. *)
Definition busy_engine : environment :=
  {| get_reply := get_reply sample_engine;
     list_reply := fun _ => [busy_container];
     version_reply := version_reply sample_engine;
     drawn_port := drawn_port sample_engine;
     run_reply := run_reply sample_engine;
     ping_reply := ping_reply sample_engine;
     alive_reply := alive_reply sample_engine;
     stop_reply := stop_reply sample_engine;
     build_reply := build_reply sample_engine |}.

(* ===================================================================== *)
(** ** Vocabulary of the statements *)

(** Every event of a computation satisfies [P], in whatever state it is
    started. *)
Definition emits_only {A} (P : event -> bool) (m : M A) : Prop :=
  forall s, forallb P (events_of (m s)) = true.

(** A computation leaves an observation of the state as it was. *)
Definition keeps {A X} (g : state -> X) (m : M A) : Prop :=
  forall s, g (state_of (m s)) = g s.

(** [find_available_tcp_port] answers inside the range it is given. *)
Definition draws_in_range (E : environment) : Prop :=
  forall i lo hi, lo <= hi -> lo <= drawn_port E i lo hi <= hi.

(** Events that neither set up the initial environment nor probe the
    container. *)
Definition before_liveness (ev : event) : bool :=
  (negb (is_setup ev) && negb (is_probe ev))%bool.

(** The ports a runtime holds after allocation lie in their ranges. *)
Definition ports_allocated (r : runtime) : Prop :=
  in_range EXECUTION_SERVER_PORT_RANGE (_host_port r)
  /\ _container_port r = _host_port r
  /\ in_range VSCODE_PORT_RANGE (_vscode_port r)
  /\ exists a1 a2,
       _app_ports r = [a1; a2]
       /\ in_range APP_PORT_RANGE_1 a1
       /\ in_range APP_PORT_RANGE_2 a2.

(** The events of preparing a creation request. *)
Definition prep_event (ev : event) : bool :=
  match ev with
  | EvLog _ | EvStatus _ | EvDraw _ _ | EvList | EvVersion => true
  | _ => false
  end.

(** The network mode and the binding of the local variable [extra_hosts]
    that lines 283-306 arrive at, read off the configuration and the
    reply to the version query. *)
Definition resolved_network (E : environment) (cfg : config) (s : state)
  : string * option (dict string) :=
  if use_host_network cfg then ("host", None)
  else
    ("bridge",
     match version_reply E (n_version (made s)) with
     | Returns components =>
         if is_docker_desktop components then None
         else Some [("host.docker.internal", "host-gateway")]
     | Throws _ => None
     end).

(** The events of closing the runtime. *)
Definition close_event (ev : event) : bool :=
  match ev with
  | EvSuperClose | EvLogStreamerClose | EvStopAll _ => true
  | _ => false
  end.

(** The number of creation requests made so far. *)
Definition runs_made (s : state) : nat := n_run (made s).

(** An engine that cannot answer the version query. *)
Definition undetectable_engine : environment :=
  {| get_reply := get_reply sample_engine;
     list_reply := list_reply sample_engine;
     version_reply := fun _ => Throws (OtherException "version unavailable");
     drawn_port := drawn_port sample_engine;
     run_reply := run_reply sample_engine;
     ping_reply := ping_reply sample_engine;
     alive_reply := alive_reply sample_engine;
     stop_reply := stop_reply sample_engine;
     build_reply := build_reply sample_engine |}.

Definition conflict_409 : exn :=
  APIError "409 Client Error: Conflict (container name already in use)".

(** An engine where the name is taken on the first two creation requests
    and free on the third. *)
Definition twice_taken_engine : environment :=
  {| get_reply := get_reply sample_engine;
     list_reply := list_reply sample_engine;
     version_reply := version_reply sample_engine;
     drawn_port := drawn_port sample_engine;
     run_reply := fun n =>
       match n with
       | 0%nat | 1%nat => Throws conflict_409
       | _ => Returns ("172.17.0.2", "172.17.0.1")
       end;
     ping_reply := ping_reply sample_engine;
     alive_reply := alive_reply sample_engine;
     stop_reply := stop_reply sample_engine;
     build_reply := build_reply sample_engine |}.

(** A caller who supplies its own [port] entry. *)
Definition overriding_config : config :=
  {| sid := "abc"; attach_to_existing := false; use_host_network := false;
     vscode_enabled := true;
     runtime_startup_env_vars := [("port", "1234")];
     platform := None; debug := false; DEBUG := false;
     DEBUG_RUNTIME := false; runtime_binding_address := None;
     local_runtime_url := "http://127.0.0.1";
     base_container_image := Some "base"; keep_runtime_alive := false;
     rm_all_containers := false; enable_gpu := false; os_name_nt := false |}.

(** The four entries every environment of a container carries. *)
Definition named_entries : list string :=
  ["port"; "VSCODE_PORT"; "PYTHONUNBUFFERED"; "DOCKER_DEFAULT_PLATFORM"].

Definition attach_only_config : config :=
  {| sid := "abc"; attach_to_existing := true; use_host_network := false;
     vscode_enabled := true; runtime_startup_env_vars := [];
     platform := None; debug := false; DEBUG := false;
     DEBUG_RUNTIME := false; runtime_binding_address := None;
     local_runtime_url := "http://127.0.0.1";
     base_container_image := Some "base"; keep_runtime_alive := false;
     rm_all_containers := false; enable_gpu := false; os_name_nt := false |}.

(** A container of the session that has exited. *)
Definition exited_container : Container :=
  {| c_name := "openhands-runtime-abc"; c_status := "exited";
     c_env := ["port=30001"; "VSCODE_PORT=40001"];
     c_exposed_ports := Some ["30001/tcp"; "40001/tcp"];
     c_ports := [];
     c_ip_address := ""; c_gateway := "";
     c_logs := Returns "Traceback: server crashed";
     c_network_mode := "bridge"; c_extra_hosts := [] |}.

(** The sample engine showing [exited_container] to every lookup. *)
Definition exited_engine : environment :=
  {| get_reply := fun _ _ => Returns exited_container;
     list_reply := list_reply sample_engine;
     version_reply := version_reply sample_engine;
     drawn_port := drawn_port sample_engine;
     run_reply := run_reply sample_engine;
     ping_reply := ping_reply sample_engine;
     alive_reply := alive_reply sample_engine;
     stop_reply := stop_reply sample_engine;
     build_reply := build_reply sample_engine |}.

(** A process just started, and a docker daemon that answers. *)
Definition new_process : process :=
  {| cached_client := None; closed_clients := []; clients_made := 0;
     from_env_calls := 0; engine_calls := 0 |}.

Definition healthy_host : docker_host :=
  {| from_env_reply := fun _ => None;
     lookup_reply := fun _ => Some (NotFound "404 Client Error: Not Found");
     remove_reply := fun _ => None |}.

(** The events of lines 213-225, after the liveness wait has returned. *)
Definition connect_tail (cfg : config) : list event :=
  if attach_to_existing cfg then [EvLog "debug"]
  else [EvLog "info"; EvSetupInitialEnv; EvLog "debug"; EvStatus " "].

(** A container of the session that is up and answers. *)
Definition running_container : Container :=
  {| c_name := "openhands-runtime-abc"; c_status := "running";
     c_env := ["port=30001"; "VSCODE_PORT=40001"];
     c_exposed_ports :=
       Some ["30001/tcp"; "40001/tcp"; "50001/tcp"; "55001/tcp"];
     c_ports := [];
     c_ip_address := "172.17.0.2"; c_gateway := "172.17.0.1";
     c_logs := Returns "";
     c_network_mode := "bridge"; c_extra_hosts := [] |}.

(** The sample engine showing [running_container] to every lookup. *)
Definition running_engine : environment :=
  {| get_reply := fun _ _ => Returns running_container;
     list_reply := list_reply sample_engine;
     version_reply := version_reply sample_engine;
     drawn_port := drawn_port sample_engine;
     run_reply := run_reply sample_engine;
     ping_reply := ping_reply sample_engine;
     alive_reply := alive_reply sample_engine;
     stop_reply := stop_reply sample_engine;
     build_reply := build_reply sample_engine |}.

Definition not_setup (ev : event) : bool := negb (is_setup ev).

(** The characters of a string. *)
Fixpoint all_chars (P : ascii -> bool) (s : string) : bool :=
  match s with
  | EmptyString => true
  | String c s' => (P c && all_chars P s')%bool
  end.

(** A character of a decimal numeral: a digit or the minus sign. *)
Definition numeral_char (c : ascii) : bool :=
  let n := nat_of_ascii c in
  ((Nat.leb 48 n && Nat.leb n 57) || Nat.eqb n 45)%bool.

Definition is_key (key : string) (kv : string * string) : bool :=
  String.eqb (fst kv) key.

(** An entry of the environment of a creation request, seen from the
    attaching side: the control-port marker, the editor-port marker, or
    an entry that reads as neither. *)
Definition entry_kind (p v : Z) (kv : string * string) : Prop :=
  kv = ("port", py_str_int p)
  \/ kv = ("VSCODE_PORT", py_str_int v)
  \/ no_marker kv = true.

(** The key of the port map for a port (lines 341, 350 and 358). *)
Definition port_key (port : Z) : string := py_str_int port ++ "/tcp".

(** The sample engine showing the given container to every lookup. *)
Definition engine_showing (c : Container) : environment :=
  {| get_reply := fun _ _ => Returns c;
     list_reply := list_reply sample_engine;
     version_reply := version_reply sample_engine;
     drawn_port := drawn_port sample_engine;
     run_reply := run_reply sample_engine;
     ping_reply := ping_reply sample_engine;
     alive_reply := alive_reply sample_engine;
     stop_reply := stop_reply sample_engine;
     build_reply := build_reply sample_engine |}.

Definition not_draw (ev : event) : bool := negb (is_draw ev).

(* ===================================================================== *)
(** ** Further parts of the runtime *)

(** [resume] (lines 572-583): the handle is required, the container is
    started and the liveness wait is run again; [container.start()]
    (line 579) is taken to return, as in [_attach_to_container]. *)
Definition resume (E : environment) (cfg : config) (fuel : nat) : M unit :=
  r <- get_self ;;
  match container r with
  | None => raise (RuntimeError "Container not initialized")
  | Some c =>
      emit (EvStart (c_name c)) ;;
      log "debug" ;;
      _wait_until_alive E cfg fuel
  end.

(** [web_hosts] (lines 550-557): the dictionary from the local URL of
    each application port to the port. *)
Definition web_hosts (r : runtime) : dict Z :=
  fold_left
    (fun hosts port =>
       dict_set ("http://localhost:" ++ py_str_int port) port hosts)
    (_app_ports r) [].

(** The class attribute [_shutdown_listener_id] (line 73) with the
    listeners registered so far.  [add_shutdown_listener] is not among
    the sources; it hands out an identifier that line 86 reads as set. *)
Record runtime_class := {
  _shutdown_listener_id : option nat;
  shutdown_listeners : list nat
}.

Definition new_class : runtime_class :=
  {| _shutdown_listener_id := None; shutdown_listeners := [] |}.

(** Lines 86-89 of [__init__]. *)
Definition register_shutdown_listener (k : runtime_class) : runtime_class :=
  match _shutdown_listener_id k with
  | Some _ => k
  | None =>
      let id := List.length (shutdown_listeners k) in
      {| _shutdown_listener_id := Some id;
         shutdown_listeners := (shutdown_listeners k ++ [id])%list |}
  end.

(** A sleep of the retry loop lasts between 4 and 10 seconds. *)
Definition sleep_bounded (ev : event) : bool :=
  match ev with
  | EvSleep d => ((4 <=? d) && (d <=? 10))%bool
  | _ => true
  end.


(** The events of a liveness round after its lookup. *)
Definition probe_event (ev : event) : bool :=
  match ev with
  | EvLog _ | EvProbe _ => true
  | _ => false
  end.

(** The events of an attachment. *)
Definition attach_event (ev : event) : bool :=
  match ev with
  | EvGet _ | EvStart _ | EvLog _ => true
  | _ => false
  end.

Definition is_start (ev : event) : bool :=
  match ev with EvStart _ => true | _ => false end.



(** What the liveness wait leaves as it is: the Port Assignment and the
    container handle. *)
Definition assignment_and_handle (s : state)
  : (Z * Z * Z * list Z) * option Container :=
  (port_assignment (self s), container (self s)).

(** Lines 247-269: a liveness round after its lookup of the container. *)
Definition probe_container (E : environment) (cfg : config) (c : Container)
  : M unit :=
  (if String.eqb (c_status c) "exited" then
     logs <- container_logs c ;;
     raise (AgentRuntimeDisconnectedError
              ("Container " ++ container_name cfg
                 ++ " has exited. Last logs:" ++ nl ++ logs))
   else ret tt) ;;
  (if String.eqb (c_ip_address c) "" then
     try_except
       (exec_run_ping E ;; log "debug")
       (fun e =>
          log "warning" ;;
          let container_ip := c_gateway c in
          if negb (String.eqb container_ip "") then
            modify_self
              (fun r =>
                 set_api_url
                   ("http://" ++ container_ip ++ ":"
                      ++ py_str_int (_container_port r)) r) ;;
            log "debug"
          else ret tt)
   else ret tt) ;;
  log "debug" ;;
  check_if_alive E.

(** Lines 271-277: the two [except] clauses of a liveness round. *)
Definition liveness_handler (cfg : config) (e : exn) : M unit :=
  if is_NotFound e then
    raise (AgentRuntimeNotFoundError
             ("Container " ++ container_name cfg ++ " not found."))
  else
    log "error" ;; raise e.

(** An engine whose container is up but whose endpoint refuses every
    connection, with the deadline reached at the third check. *)
Definition refusing_engine : environment :=
  {| get_reply := get_reply running_engine;
     list_reply := list_reply sample_engine;
     version_reply := version_reply sample_engine;
     drawn_port := drawn_port sample_engine;
     run_reply := run_reply sample_engine;
     ping_reply := ping_reply sample_engine;
     alive_reply := fun _ => Some ConnectionError;
     stop_reply := fun n => Nat.leb 2 n;
     build_reply := build_reply sample_engine |}.

(** The number of stop checks made so far. *)
Definition stops_checked (s : state) : nat := n_stop (made s).

(** The sample engine refusing every creation request with [e]. *)
Definition failing_engine (e : exn) : environment :=
  {| get_reply := get_reply sample_engine;
     list_reply := list_reply sample_engine;
     version_reply := version_reply sample_engine;
     drawn_port := drawn_port sample_engine;
     run_reply := fun _ => Throws e;
     ping_reply := ping_reply sample_engine;
     alive_reply := alive_reply sample_engine;
     stop_reply := stop_reply sample_engine;
     build_reply := build_reply sample_engine |}.

(** The ports a runtime holds, one after the other. *)
Definition held_ports (r : runtime) : list Z :=
  _host_port r :: _vscode_port r :: _app_ports r.

(** The entry of the port map that publishes [port] (lines 341-361). *)
Definition published_on (cfg : config) (port : Z) : list binding :=
  [host_binding (py_or (runtime_binding_address cfg) "127.0.0.1") port].

(** The runtime as [allocate_ports] leaves it. *)
Definition allocated (E : environment) (s : state) : runtime :=
  self (state_of (allocate_ports E s)).

(** Lines 479-502: what [_attach_to_container] reads off the container
    it has looked up. *)
Definition read_container_config (cfg : config) (c : Container) : M unit :=
  for_each (c_env c) read_env_marker ;;
  modify_self (set_app_ports []) ;;
  match c_exposed_ports c with
  | Some (k :: ks) => for_each (k :: ks) read_exposed_port
  | _ => ret tt
  end ;;
  modify_self
    (fun r =>
       set_api_url
         (local_runtime_url cfg ++ ":" ++ py_str_int (_container_port r)) r) ;;
  log "debug".

Definition is_log (ev : event) : bool :=
  match ev with EvLog _ => true | _ => false end.

(** The events of an attachment after its lookup. *)
Definition after_lookup (ev : event) : bool :=
  match ev with
  | EvStart _ | EvLog _ => true
  | _ => false
  end.

(** No application port of the runtime is its control port or its editor
    port. *)
Definition apart_from_named (r : runtime) : bool :=
  forallb
    (fun port =>
       (negb (port =? _host_port r) && negb (port =? _vscode_port r))%bool)
    (_app_ports r).

(** A computation keeps a property of the state, however it ends. *)
Definition preserves {A} (I : state -> Prop) (m : M A) : Prop :=
  forall s, I s -> I (state_of (m s)).

(** A computation that returns leaves the state with a property. *)
Definition establishes {A} (I : state -> Prop) (m : M A) : Prop :=
  forall s,
    match result_of (m s) with
    | Ok _ => I (state_of (m s))
    | _ => True
    end.

(** The exceptions the attach loop of [connect] takes for an absent
    container (line 164). *)
Definition retried_by_connect (e : exn) : bool :=
  (is_NotFound e || is_ConnectTimeout e)%bool.

(** The [i]-th lookup of the container fails in a way the attach loop
    retries. *)
Definition lookup_fails (E : environment) (cfg : config) (i : nat) : bool :=
  match get_reply E i (container_name cfg) with
  | Throws e => retried_by_connect e
  | Returns _ => false
  end.

Definition not_run (ev : event) : bool := negb (is_run ev).

(** An event that is neither a lookup of the container nor a sleep. *)
Definition provisioning_event (ev : event) : bool :=
  (negb (is_get ev) && negb (is_sleep ev))%bool.

(** The sleeps of line 200 still to come when the attach loop stands at
    [retry_count]: [2 ^ 1] and [2 ^ 2] seconds. *)
Definition backoff_sleeps (retry_count : Z) : list event :=
  ((if retry_count <? 1 then [EvSleep (2 ^ 1)] else [])
     ++ (if retry_count <? 2 then [EvSleep (2 ^ 2)] else []))%list.

(** The flag [_runtime_initialized] of the runtime. *)
Definition initialized (s : state) : bool := _runtime_initialized (self s).

(** A computation sets the flag when it returns and leaves it as it was
    when it does not. *)
Definition sets_flag_on_return {A} (m : M A) : Prop :=
  forall s,
    initialized (state_of (m s))
    = match result_of (m s) with
      | Ok _ => true
      | _ => initialized s
      end.

(** A configuration without any image, and a runtime made from it. *)
Definition imageless_config : config :=
  {| sid := "abc"; attach_to_existing := false; use_host_network := false;
     vscode_enabled := true; runtime_startup_env_vars := [];
     platform := None; debug := false; DEBUG := false;
     DEBUG_RUNTIME := false; runtime_binding_address := None;
     local_runtime_url := "http://127.0.0.1";
     base_container_image := None; keep_runtime_alive := false;
     rm_all_containers := false; enable_gpu := false; os_name_nt := false |}.

Definition imageless_state : state :=
  {| self := new_runtime imageless_config None; made := no_calls |}.

(** A process holds at most the first client it made. *)
Definition one_client (p : process) : Prop :=
  match cached_client p with
  | Some c => c = 0%nat /\ clients_made p = 1%nat
  | None => clients_made p = 0%nat
  end.


(** A creation request as lines 419-438 can make it: named after the
    session, in bridge mode, with a port map and with the host alias. *)
Definition request_for (cfg : config) (ev : event) : bool :=
  match ev with
  | EvRun spec =>
      (String.eqb (r_name spec) (container_name cfg)
       && String.eqb (r_network_mode spec) "bridge"
       && match r_ports spec with Some _ => true | None => false end
       && match dict_get "host.docker.internal" (r_extra_hosts spec) with
          | Some target => String.eqb target "host-gateway"
          | None => false
          end)%bool
  | _ => true
  end.

(** The runtime holds the container the lookup returned and addresses
    it under the configured URL. *)
Definition attached_to (E : environment) (cfg : config) (s : state)
    (r : runtime) : Prop :=
  match container r with
  | Some c => get_reply E (n_get (made s)) (container_name cfg) = Returns c
  | None => False
  end
  /\ api_url r
     = local_runtime_url cfg ++ ":" ++ py_str_int (_container_port r).

(** A container of the session that has exited and whose last output is
    not valid UTF-8: the decoding of line 248 raises
    [UnicodeDecodeError], a [ValueError]. *)
Definition garbled_container : Container :=
  {| c_name := "openhands-runtime-abc"; c_status := "exited";
     c_env := ["port=30001"; "VSCODE_PORT=40001"];
     c_exposed_ports := Some ["30001/tcp"; "40001/tcp"];
     c_ports := [];
     c_ip_address := "172.17.0.2"; c_gateway := "172.17.0.1";
     c_logs :=
       Throws (ValueError
                 "'utf-8' codec can't decode byte 0xff in position 0: invalid start byte");
     c_network_mode := "bridge"; c_extra_hosts := [] |}.

(** The creation request of lines 419-438 as [_init_container] makes it
    when started in [s] outside host-network mode on an engine that is
    not Docker Desktop: built from the runtime as the preparation of
    lines 279-417 leaves it. *)
Definition request_of (E : environment) (cfg : config) (s : state)
  : run_spec :=
  {| r_image :=
       runtime_container_image (self (state_of (prepare_container E cfg s)));
     r_network_mode := "bridge";
     r_ports :=
       build_port_mapping cfg (self (state_of (prepare_container E cfg s)));
     r_name := container_name cfg;
     r_environment :=
       build_environment cfg (self (state_of (prepare_container E cfg s)));
     r_extra_hosts := [("host.docker.internal", "host-gateway")];
     r_gpu := enable_gpu cfg |}.

(** The state in which the recursive call of line 456 starts: as the
    preparation left it, one creation request later. *)
Definition after_conflict (E : environment) (cfg : config) (s : state)
  : state :=
  {| self := self (state_of (prepare_container E cfg s));
     made := bump_run (made (state_of (prepare_container E cfg s))) |}.

(** The events of [k] rounds refused with a name conflict and of the
    accepted round after them.  Every round is the whole preparation
    followed by the creation request; a refused round goes on with the
    warning and the removal of the container of that name, and the next
    round starts after it. *)
Fixpoint conflict_trace (E : environment) (cfg : config) (k : nat)
    (s : state) : list event :=
  (events_of (prepare_container E cfg s)
     ++ EvRun (request_of E cfg s)
     :: match k with
        | O =>
            [EvLog "debug"; EvLog "debug";
             EvStatus "STATUS$CONTAINER_STARTED"]
        | S k' =>
            EvLog "warning" :: EvStopAll (container_name cfg)
              :: conflict_trace E cfg k' (after_conflict E cfg s)
        end)%list.

(* ===================================================================== *)
(** * Properties *)

(** ** Strings *)

Lemma prefix_app (a b : string) : String.prefix a (a ++ b) = true.
Proof.
  induction a as [|c a IH]; simpl.
  - now destruct b.
  - destruct (ascii_dec c c); [exact IH | congruence].
Qed.

Lemma contains_unfold (sub s : string) :
  contains sub s =
  if String.prefix sub s then true
  else match s with
       | EmptyString => false
       | String _ s' => contains sub s'
       end.
Proof. destruct s; reflexivity. Qed.

Lemma contains_here (sub post : string) : contains sub (sub ++ post) = true.
Proof. rewrite contains_unfold, prefix_app. reflexivity. Qed.

Lemma contains_inside (pre sub post : string) :
  contains sub (pre ++ sub ++ post) = true.
Proof.
  induction pre as [|c pre IH].
  - simpl. apply contains_here.
  - change (String c pre ++ sub ++ post) with (String c (pre ++ sub ++ post)).
    rewrite contains_unfold, IH.
    destruct (String.prefix _ _); reflexivity.
Qed.

Lemma contains_skip (pre s sub : string) :
  contains sub s = true -> contains sub (pre ++ s) = true.
Proof.
  intros H. induction pre as [|c pre IH]; [exact H|].
  change (String c pre ++ s) with (String c (pre ++ s)).
  rewrite contains_unfold, IH.
  destruct (String.prefix _ _); reflexivity.
Qed.

Lemma prefix_keep (sub s post : string) :
  String.prefix sub s = true -> String.prefix sub (s ++ post) = true.
Proof.
  revert s. induction sub as [|e sub IH]; intros s Hp.
  - now destruct (s ++ post).
  - destruct s as [|f s]; simpl in Hp; [discriminate|].
    simpl. destruct (ascii_dec e f); [now apply IH | discriminate].
Qed.

Lemma contains_keep (s post sub : string) :
  contains sub s = true -> contains sub (s ++ post) = true.
Proof.
  induction s as [|c s IH]; intros H.
  - rewrite contains_unfold in H.
    destruct sub; [|discriminate]. now destruct post.
  - rewrite contains_unfold in H.
    change (String c s ++ post) with (String c (s ++ post)).
    rewrite contains_unfold.
    destruct (String.prefix sub (String c s)) eqn:Hp.
    + apply (prefix_keep _ _ post) in Hp.
      change (String c s ++ post) with (String c (s ++ post)) in Hp.
      now rewrite Hp.
    + rewrite (IH H).
      destruct (String.prefix sub (String c (s ++ post))); reflexivity.
Qed.

(** ** Port allocator *)

Lemma contains_join (sub sep x : string) (l : list string) :
  In x l -> contains sub x = true -> contains sub (join sep l) = true.
Proof.
  intros Hin Hx. induction l as [|y l IH]; [contradiction|].
  destruct l as [|z l].
  - destruct Hin as [->|[]]. exact Hx.
  - change (join sep (y :: z :: l)) with (y ++ sep ++ join sep (z :: l)).
    destruct Hin as [->|Hin].
    + now apply contains_keep.
    + apply contains_skip, contains_skip. now apply IH.
Qed.

Lemma repr_binding_shows (b : binding) :
  contains (HostPort b) (repr_binding b) = true.
Proof.
  unfold repr_binding.
  apply (contains_skip "{'HostIp': ").
  apply (contains_skip (py_repr_str (HostIp b))).
  apply (contains_skip ", 'HostPort': ").
  apply contains_keep.
  apply (contains_inside "'" (HostPort b) "'").
Qed.

Lemma publishes_shown (c : Container) (port : Z) :
  publishes c port = true ->
  contains (py_str_int port) (py_repr_ports (c_ports c)) = true.
Proof.
  unfold publishes, py_repr_ports. intros H.
  apply existsb_exists in H. destruct H as [[k v] [Hin Hv]].
  destruct v as [bs|]; [|discriminate]. simpl in Hv.
  apply existsb_exists in Hv. destruct Hv as [b [Hb Heq]].
  apply String.eqb_eq in Heq.
  apply (contains_skip "{"), contains_keep.
  apply (contains_join _ _ (repr_port_item (k, Some bs))).
  - now apply (in_map repr_port_item).
  - unfold repr_port_item, repr_bindings, fst, snd.
    apply (contains_skip (py_repr_str k)).
    apply (contains_skip ": ").
    apply (contains_skip "["), contains_keep.
    apply (contains_join _ _ (repr_binding b)).
    + now apply in_map.
    + rewrite <- Heq. apply repr_binding_shows.
Qed.

Lemma published_is_shown (containers : list Container) (port : Z) :
  (exists c, In c containers /\ publishes c port = true) ->
  shown_by_some containers port = true.
Proof.
  intros [c [Hin Hp]]. unfold shown_by_some.
  apply existsb_exists. exists c. split; [exact Hin|].
  now apply publishes_shown.
Qed.

Lemma after_attempts_step (k : nat) (s : state) :
  after_attempts k
    {| self := self s; made := bump_list (bump_draw (made s)) |}
  = after_attempts (S k) s.
Proof.
  unfold after_attempts. cbn [self made].
  now rewrite Nat.iter_succ_r.
Qed.

(** What the allocation loop does, in full: it always returns, after
    [k <= attempts] attempts; with no attempt it returns the port it was
    given; otherwise it returns the candidate of the last attempt, and
    when attempts were left over, that candidate had passed the check. *)
Lemma find_port_loop_spec (E : environment) (attempts : nat)
    (port_range : Z * Z) (port0 : Z) (s : state) :
  exists port k,
    find_port_loop E attempts port_range port0 s
      = (Ok port, after_attempts k s, attempt_events port_range k)
    /\ (k <= attempts)%nat
    /\ match k with
       | O => attempts = O /\ port = port0
       | S k' =>
           port = drawn_port E (n_draw (made s) + k')
                    (fst port_range) (snd port_range)
           /\ ((S k' < attempts)%nat ->
               shown_by_some (list_reply E (n_list (made s) + k')) port
               = false)
       end.
Proof.
  revert port0 s. induction attempts as [|n IH]; intros port0 s.
  - exists port0, O. repeat split; try lia.
    destruct s; reflexivity.
  - cbn [find_port_loop].
    unfold bind at 1. unfold find_available_tcp_port at 1.
    unfold bind at 1. unfold _is_port_in_use_docker at 1.
    unfold bind at 1. unfold containers_list at 1.
    cbn [ret self made app negb].
    set (d := drawn_port E (n_draw (made s)) (fst port_range)
                (snd port_range)).
    assert (Hl : n_list (bump_draw (made s)) = n_list (made s)) by reflexivity.
    rewrite Hl.
    destruct (shown_by_some (list_reply E (n_list (made s))) d) eqn:Hshown;
      cbn [negb].
    + destruct (IH d {| self := self s;
                        made := bump_list (bump_draw (made s)) |})
        as (port & k & Hrun & Hk & Hcase).
      rewrite Hrun, after_attempts_step.
      exists port, (S k). split; [reflexivity|]. split; [lia|].
      cbn [self made bump_list bump_draw n_draw n_list] in Hcase.
      destruct k as [|k'].
      * destruct Hcase as [-> ->]. subst d. rewrite Nat.add_0_r.
        split; [reflexivity|]. intros; lia.
      * destruct Hcase as [-> Hfree]. split.
        -- f_equal. lia.
        -- intros Hlt. replace (n_list (made s) + S k')%nat
             with (S (n_list (made s)) + k')%nat by lia.
           replace (n_draw (made s) + S k')%nat
             with (S (n_draw (made s)) + k')%nat by lia.
           apply Hfree. lia.
    + exists d, 1%nat. split; [reflexivity|]. split; [lia|].
      rewrite !Nat.add_0_r. split; [reflexivity|]. intros _. exact Hshown.
Qed.

(** Claim C6, as amended: for every inclusive range and every attempt
    budget, with candidates drawn inside the range, the allocator returns
    a port of the range after at most [max_attempts] attempts.  With a
    budget of 0 nothing is drawn and the port is the upper bound of the
    range.  Otherwise the port is the last candidate drawn, and if a
    container of the listing that candidate was checked against publishes
    it, all [max_attempts] attempts were made. *)
Theorem find_available_port_best_effort (E : environment)
    (port_range : Z * Z) (max_attempts : nat) (s : state) :
  fst port_range <= snd port_range ->
  (forall i,
      in_range port_range (drawn_port E i (fst port_range) (snd port_range))) ->
  exists port k,
    _find_available_port E port_range max_attempts s
      = (Ok port, after_attempts k s, attempt_events port_range k)
    /\ in_range port_range port
    /\ (k <= max_attempts)%nat
    /\ (max_attempts = O -> k = O /\ port = snd port_range)
    /\ (max_attempts <> O ->
        k <> O
        /\ port = drawn_port E (n_draw (made s) + k - 1)
                     (fst port_range) (snd port_range)
        /\ ((exists c,
                In c (list_reply E (n_list (made s) + k - 1))
                /\ publishes c port = true) ->
            k = max_attempts)).
Proof.
  intros Hrange Hdraws. unfold _find_available_port.
  destruct (find_port_loop_spec E max_attempts port_range (snd port_range) s)
    as (port & k & Hrun & Hk & Hcase).
  exists port, k. split; [exact Hrun|].
  destruct k as [|k'].
  - destruct Hcase as [-> ->].
    split; [unfold in_range; lia|]. split; [lia|].
    split; [intros _; split; reflexivity | intros H; contradiction].
  - destruct Hcase as [-> Hfree].
    split; [apply Hdraws|]. split; [exact Hk|].
    split; [intros ->; lia|]. intros _. split; [discriminate|].
    replace (n_draw (made s) + S k' - 1)%nat
      with (n_draw (made s) + k')%nat by lia.
    replace (n_list (made s) + S k' - 1)%nat
      with (n_list (made s) + k')%nat by lia.
    split; [reflexivity|]. intros Hpub.
    destruct (Nat.eq_dec (S k') max_attempts) as [Heq|Hne]; [exact Heq|].
    assert (Hlt : (S k' < max_attempts)%nat) by lia.
    specialize (Hfree Hlt).
    rewrite (published_is_shown _ _ Hpub) in Hfree. discriminate.
Qed.

Lemma find_available_port_best_effort_witness :
  fst EXECUTION_SERVER_PORT_RANGE <= snd EXECUTION_SERVER_PORT_RANGE
  /\ (forall i,
         in_range EXECUTION_SERVER_PORT_RANGE
           (drawn_port busy_engine i (fst EXECUTION_SERVER_PORT_RANGE)
              (snd EXECUTION_SERVER_PORT_RANGE)))
  /\ exists port k,
       _find_available_port busy_engine EXECUTION_SERVER_PORT_RANGE 5
         (fresh_state sample_config)
       = (Ok port, after_attempts k (fresh_state sample_config),
          attempt_events EXECUTION_SERVER_PORT_RANGE k)
       /\ in_range EXECUTION_SERVER_PORT_RANGE port
       /\ (k <= 5)%nat
       /\ (5%nat = O -> k = O /\ port = snd EXECUTION_SERVER_PORT_RANGE)
       /\ (5%nat <> O ->
           k <> O
           /\ port = drawn_port busy_engine
                       (n_draw (made (fresh_state sample_config)) + k - 1)
                       (fst EXECUTION_SERVER_PORT_RANGE)
                       (snd EXECUTION_SERVER_PORT_RANGE)
           /\ ((exists c,
                   In c (list_reply busy_engine
                           (n_list (made (fresh_state sample_config)) + k - 1))
                   /\ publishes c port = true) ->
               k = 5%nat)).
Proof.
  assert (H1 : fst EXECUTION_SERVER_PORT_RANGE
               <= snd EXECUTION_SERVER_PORT_RANGE) by (simpl; lia).
  assert (H2 : forall i,
             in_range EXECUTION_SERVER_PORT_RANGE
               (drawn_port busy_engine i (fst EXECUTION_SERVER_PORT_RANGE)
                  (snd EXECUTION_SERVER_PORT_RANGE)))
    by (intros i; unfold in_range; simpl; lia).
  split; [exact H1|]. split; [exact H2|].
  exact (find_available_port_best_effort busy_engine
           EXECUTION_SERVER_PORT_RANGE 5 (fresh_state sample_config) H1 H2).
Defined.

(** Claim C6 fails as stated for a budget of 0: the port returned is
    published by a running container, yet it is no candidate, since no
    candidate was drawn at all. *)
Lemma find_available_port_zero_budget :
  _find_available_port busy_engine EXECUTION_SERVER_PORT_RANGE 0
    (fresh_state sample_config)
  = (Ok 39999, fresh_state sample_config, [])
  /\ (exists c, In c (list_reply busy_engine 0)
                /\ publishes c 39999 = true)
  /\ ~ (exists i,
          39999 = drawn_port busy_engine i (fst EXECUTION_SERVER_PORT_RANGE)
                    (snd EXECUTION_SERVER_PORT_RANGE)).
Proof.
  split; [reflexivity|]. split.
  - exists busy_container. split; [left; reflexivity | reflexivity].
  - intros [i Hi]. discriminate Hi.
Qed.

(** ** Reasoning about computations *)

Lemma bind_run {A B} (m : M A) (k : A -> M B) (s s1 : state) (a : A)
    (t1 : list event) :
  m s = (Ok a, s1, t1) ->
  bind m k s
  = (result_of (k a s1), state_of (k a s1), (t1 ++ events_of (k a s1))%list).
Proof.
  intros H. unfold bind, result_of, state_of, events_of. rewrite H.
  destruct (k a s1) as [[r s2] t2]. reflexivity.
Qed.

Section Emits.

Variable P : event -> bool.

Lemma emits_ret {A} (a : A) : emits_only P (ret a).
Proof. intros s. reflexivity. Qed.

Lemma emits_raise {A} (e : exn) : emits_only P (@raise A e).
Proof. intros s. reflexivity. Qed.

Lemma emits_out_of_fuel {A} : emits_only P (@out_of_fuel A).
Proof. intros s. reflexivity. Qed.

Lemma emits_get_self : emits_only P get_self.
Proof. intros s. reflexivity. Qed.

Lemma emits_modify_self (f : runtime -> runtime) :
  emits_only P (modify_self f).
Proof. intros s. reflexivity. Qed.

Lemma emits_emit (ev : event) : P ev = true -> emits_only P (emit ev).
Proof. intros H s. unfold emit, events_of. simpl. now rewrite H. Qed.

Lemma emits_bind {A B} (m : M A) (k : A -> M B) :
  emits_only P m -> (forall a, emits_only P (k a)) -> emits_only P (bind m k).
Proof.
  intros Hm Hk s. specialize (Hm s). unfold bind.
  destruct (m s) as [[[a| e|] s1] t1]; unfold events_of in *; simpl in *;
    try exact Hm.
  specialize (Hk a s1). destruct (k a s1) as [[r s2] t2].
  unfold events_of in Hk. simpl in *.
  rewrite forallb_app, Hm, Hk. reflexivity.
Qed.

Lemma emits_try_except {A} (m : M A) (h : exn -> M A) :
  emits_only P m -> (forall e, emits_only P (h e)) ->
  emits_only P (try_except m h).
Proof.
  intros Hm Hh s. specialize (Hm s). unfold try_except.
  destruct (m s) as [[[a| e|] s1] t1]; unfold events_of in *; simpl in *;
    try exact Hm.
  specialize (Hh e s1). destruct (h e s1) as [[r s2] t2].
  unfold events_of in Hh. simpl in *.
  rewrite forallb_app, Hm, Hh. reflexivity.
Qed.

Lemma emits_for_each {A} (l : list A) (body : A -> M unit) :
  (forall x, emits_only P (body x)) -> emits_only P (for_each l body).
Proof.
  intros Hb. induction l as [|x l IH]; simpl.
  - apply emits_ret.
  - apply emits_bind; [apply Hb | intros _; exact IH].
Qed.

End Emits.

Section Keeps.

Context {X : Type}.
Variable g : state -> X.

Lemma keeps_ret {A} (a : A) : keeps g (ret a).
Proof. intros s. reflexivity. Qed.

Lemma keeps_raise {A} (e : exn) : keeps g (@raise A e).
Proof. intros s. reflexivity. Qed.

Lemma keeps_out_of_fuel {A} : keeps g (@out_of_fuel A).
Proof. intros s. reflexivity. Qed.

Lemma keeps_emit (ev : event) : keeps g (emit ev).
Proof. intros s. reflexivity. Qed.

Lemma keeps_get_self : keeps g get_self.
Proof. intros s. reflexivity. Qed.

Lemma keeps_bind {A B} (m : M A) (k : A -> M B) :
  keeps g m -> (forall a, keeps g (k a)) -> keeps g (bind m k).
Proof.
  intros Hm Hk s. specialize (Hm s). unfold bind.
  destruct (m s) as [[[a| e|] s1] t1]; unfold state_of in *; simpl in *;
    try exact Hm.
  specialize (Hk a s1). destruct (k a s1) as [[r s2] t2].
  unfold state_of in Hk. simpl in *. congruence.
Qed.

Lemma keeps_try_except {A} (m : M A) (h : exn -> M A) :
  keeps g m -> (forall e, keeps g (h e)) -> keeps g (try_except m h).
Proof.
  intros Hm Hh s. specialize (Hm s). unfold try_except.
  destruct (m s) as [[[a| e|] s1] t1]; unfold state_of in *; simpl in *;
    try exact Hm.
  specialize (Hh e s1). destruct (h e s1) as [[r s2] t2].
  unfold state_of in Hh. simpl in *. congruence.
Qed.

Lemma keeps_for_each {A} (l : list A) (body : A -> M unit) :
  (forall x, keeps g (body x)) -> keeps g (for_each l body).
Proof.
  intros Hb. induction l as [|x l IH]; simpl.
  - apply keeps_ret.
  - apply keeps_bind; [apply Hb | intros _; exact IH].
Qed.

End Keeps.

(** Calls of collaborators: one case per reply, each closed by
    computation. *)
Ltac collaborator :=
  let s := fresh "s" in
  intro s;
  unfold containers_get, containers_list, docker_version,
    find_available_tcp_port, containers_run, exec_run_ping, check_if_alive,
    should_stop, build_runtime_image, stop_all_containers,
    setup_initial_env, modify_self, emit, log, send_status_message,
    sleep, events_of, state_of, result_of;
  cbv beta zeta;
  repeat match goal with
         | |- context [match ?x with _ => _ end] => destruct x
         end;
  reflexivity.

(** Structural steps over the shape of a computation. *)
Ltac emits_step :=
  first
    [ apply emits_bind; [|intro]
    | apply emits_try_except; [|intro]
    | apply emits_for_each; intro
    | apply emits_ret
    | apply emits_raise
    | apply emits_out_of_fuel
    | apply emits_get_self
    | apply emits_modify_self
    | apply emits_emit; reflexivity
    | match goal with
      | |- emits_only _ (if ?b then _ else _) => destruct b
      | |- emits_only _ (match ?x with _ => _ end) => destruct x
      | |- emits_only _ (let '_ := ?x in _) => destruct x
      end ].

Ltac keeps_step :=
  first
    [ apply keeps_bind; [|intro]
    | apply keeps_try_except; [|intro]
    | apply keeps_for_each; intro
    | apply keeps_ret
    | apply keeps_raise
    | apply keeps_out_of_fuel
    | apply keeps_get_self
    | apply keeps_emit
    | match goal with
      | |- keeps _ (if ?b then _ else _) => destruct b
      | |- keeps _ (match ?x with _ => _ end) => destruct x
      | |- keeps _ (let '_ := ?x in _) => destruct x
      end ].

Lemma emits_weaken {A} (P Q : event -> bool) (m : M A) :
  (forall ev, P ev = true -> Q ev = true) ->
  emits_only P m -> emits_only Q m.
Proof.
  intros HPQ Hm s. specialize (Hm s).
  rewrite forallb_forall in *. auto.
Qed.

Lemma prep_event_before_liveness (ev : event) :
  prep_event ev = true -> before_liveness ev = true.
Proof. now destruct ev. Qed.

(** ** What each part of the program emits *)

Lemma find_port_loop_emits (E : environment) (n : nat) (port_range : Z * Z)
    (port : Z) :
  emits_only prep_event (find_port_loop E n port_range port).
Proof.
  revert port. induction n as [|n IH]; intros port; simpl.
  - apply emits_ret.
  - unfold _is_port_in_use_docker.
    repeat first [apply IH | emits_step | collaborator].
Qed.

Lemma find_available_port_emits (E : environment) (port_range : Z * Z)
    (n : nat) :
  emits_only prep_event (_find_available_port E port_range n).
Proof. apply find_port_loop_emits. Qed.

Lemma resolve_network_emits (E : environment) (cfg : config) :
  emits_only prep_event (resolve_network E cfg).
Proof.
  unfold resolve_network, log.
  repeat first [emits_step | collaborator].
Qed.

Lemma allocate_ports_emits (E : environment) :
  emits_only prep_event (allocate_ports E).
Proof.
  unfold allocate_ports, log.
  repeat first [apply find_available_port_emits | emits_step].
Qed.

Lemma choose_api_url_emits (cfg : config) :
  emits_only prep_event (choose_api_url cfg).
Proof.
  unfold choose_api_url, log.
  repeat first [emits_step].
Qed.

Lemma prepare_container_emits (E : environment) (cfg : config) :
  emits_only prep_event (prepare_container E cfg).
Proof.
  unfold prepare_container, log, send_status_message.
  repeat first [apply resolve_network_emits | apply allocate_ports_emits
               | apply choose_api_url_emits | emits_step].
Qed.

(** ** What each part of the program returns *)

Lemma find_available_port_spec (E : environment) (port_range : Z * Z)
    (n : nat) (s : state) :
  exists port k,
    _find_available_port E port_range n s
      = (Ok port, after_attempts k s, attempt_events port_range k)
    /\ (draws_in_range E -> fst port_range <= snd port_range ->
        in_range port_range port).
Proof.
  unfold _find_available_port.
  destruct (find_port_loop_spec E n port_range (snd port_range) s)
    as (port & k & Hrun & _ & Hcase).
  exists port, k. split; [exact Hrun|]. intros Hd Hr.
  destruct k as [|k'].
  - destruct Hcase as [_ ->]. unfold in_range. lia.
  - destruct Hcase as [-> _]. now apply Hd.
Qed.

Lemma resolve_network_spec (E : environment) (cfg : config) (s : state) :
  exists s1 t1,
    resolve_network E cfg s = (Ok (resolved_network E cfg s), s1, t1)
    /\ self s1 = self s.
Proof.
  unfold resolve_network, resolved_network, try_except, bind, docker_version,
    log, emit, ret.
  destruct (use_host_network cfg).
  - now exists s, [].
  - destruct (version_reply E (n_version (made s))) as [v|e]; cbn.
    + destruct (is_docker_desktop v); eexists; eexists; split; reflexivity.
    + eexists; eexists; split; reflexivity.
Qed.

Ltac run_find :=
  match goal with
  | |- context [_find_available_port ?E ?R ?n ?st] =>
      let p := fresh "p" in
      let k := fresh "k" in
      let H := fresh "H" in
      let Hr := fresh "Hr" in
      destruct (find_available_port_spec E R n st) as (p & k & H & Hr);
      rewrite H; clear H; cbn [modify_self self made after_attempts]
  end.

Lemma allocate_ports_spec (E : environment) (s : state) :
  exists p v a1 a2 c' t,
    allocate_ports E s
      = (Ok tt,
         {| self :=
              set_app_ports [a1; a2]
                (set_vscode_port v
                   (set_container_port p (set_host_port p (self s))));
            made := c' |}, t)
    /\ (draws_in_range E ->
        in_range EXECUTION_SERVER_PORT_RANGE p
        /\ in_range VSCODE_PORT_RANGE v
        /\ in_range APP_PORT_RANGE_1 a1
        /\ in_range APP_PORT_RANGE_2 a2).
Proof.
  unfold allocate_ports, try_except, bind.
  run_find. run_find. run_find. run_find.
  exists p, p0, p1, p2. eexists. eexists. split; [reflexivity|].
  intros Hd.
  repeat split; first [apply Hr | apply Hr0 | apply Hr1 | apply Hr2];
    try exact Hd; simpl; lia.
Qed.

Lemma choose_api_url_spec (cfg : config) (s : state) :
  exists url t,
    choose_api_url cfg s
      = (Ok tt, {| self := set_api_url url (self s); made := made s |}, t).
Proof.
  unfold choose_api_url, bind, get_self, log, emit, modify_self.
  destruct (if os_name_nt cfg then _ else _); eexists; eexists; reflexivity.
Qed.

Lemma prepare_container_spec (E : environment) (cfg : config) (s : state) :
  exists s' t,
    prepare_container E cfg s
      = (Ok (fst (resolved_network E cfg s), snd (resolved_network E cfg s),
             build_port_mapping cfg (self s'),
             build_environment cfg (self s')), s', t)
    /\ (draws_in_range E -> ports_allocated (self s'))
    /\ runtime_container_image (self s') = runtime_container_image (self s).
Proof.
  destruct (resolve_network_spec E cfg s) as (s1 & t1 & H1 & Hs1).
  destruct (allocate_ports_spec E s1) as (p & v & a1 & a2 & c' & t2 & H2 & Hr).
  destruct (choose_api_url_spec cfg
              {| self :=
                   set_app_ports [a1; a2]
                     (set_vscode_port v
                        (set_container_port p (set_host_port p (self s1))));
                 made := c' |}) as (url & t3 & H3).
  unfold prepare_container, bind, log, send_status_message, emit.
  rewrite H1, H2, H3. unfold get_self.
  destruct (use_host_network cfg);
    (eexists; eexists; split; [reflexivity|]; cbn [self]; split;
     [ intros Hd; destruct (Hr Hd) as (R1 & R2 & R3 & R4);
       unfold ports_allocated; cbn;
       repeat split; try apply R1; try apply R2;
       exists a1, a2; repeat split; try apply R3; try apply R4
     | rewrite Hs1; reflexivity ]).
Qed.

Lemma find_port_loop_keeps_runs (E : environment) (n : nat)
    (port_range : Z * Z) (port : Z) :
  keeps runs_made (find_port_loop E n port_range port).
Proof.
  revert port. induction n as [|n IH]; intros port; simpl.
  - apply keeps_ret.
  - unfold _is_port_in_use_docker.
    repeat first [apply IH | keeps_step | collaborator].
Qed.

Lemma prepare_container_keeps_runs (E : environment) (cfg : config) :
  keeps runs_made (prepare_container E cfg).
Proof.
  unfold prepare_container, resolve_network, allocate_ports, choose_api_url,
    _find_available_port, log, send_status_message.
  repeat first [apply find_port_loop_keeps_runs | keeps_step | collaborator].
Qed.

Lemma close_spec (cfg : config) (arg : option bool) (s : state) :
  exists t, close cfg arg s = (Ok tt, s, t) /\ forallb close_event t = true.
Proof.
  unfold close, bind, emit, get_self, stop_all_containers, ret.
  destruct (log_streamer (self s)); cbn;
    destruct (keep_runtime_alive cfg || attach_to_existing cfg)%bool;
    eexists; split; try reflexivity; destruct s; reflexivity.
Qed.

Lemma close_event_not_run (ev : event) :
  close_event ev = true -> negb (is_run ev) = true.
Proof. now destruct ev. Qed.

Lemma prep_event_not_run (ev : event) :
  prep_event ev = true -> negb (is_run ev) = true.
Proof. now destruct ev. Qed.

Lemma forallb_weaken (P Q : event -> bool) (l : list event) :
  (forall ev, P ev = true -> Q ev = true) ->
  forallb P l = true -> forallb Q l = true.
Proof. intros H. rewrite !forallb_forall. auto. Qed.

(** With the local variable [extra_hosts] unassigned, the creation
    attempt stops at the evaluation of the arguments: the engine is not
    asked to create anything, the runtime is closed and the error leaves
    [_init_container]. *)
Lemma init_container_unbound (E : environment) (cfg : config) (fuel : nat)
    (s : state) :
  snd (resolved_network E cfg s) = None ->
  exists s' t,
    _init_container E cfg (S fuel) s
      = (Raise (UnboundLocalError "extra_hosts"), s', t)
    /\ runs_made s' = runs_made s
    /\ none_of is_run t = true.
Proof.
  intros Hnone.
  destruct (prepare_container_spec E cfg s) as (s1 & t1 & Hprep & _ & _).
  pose proof (prepare_container_keeps_runs E cfg s) as Hruns.
  pose proof (prepare_container_emits E cfg s) as Hevs.
  rewrite Hprep in Hruns, Hevs. unfold state_of, events_of in Hruns, Hevs.
  cbn [fst snd] in Hruns, Hevs.
  destruct (close_spec cfg None s1) as (tc & Hclose & Htc).
  cbn [_init_container]. unfold bind at 1. rewrite Hprep, Hnone.
  unfold try_except, run_container, bind, get_self, read_local, raise, log,
    emit. cbn [is_APIError]. rewrite Hclose.
  eexists; eexists; split; [reflexivity|]. split; [exact Hruns|].
  unfold none_of. rewrite !forallb_app. cbn.
  rewrite (forallb_weaken _ _ _ prep_event_not_run Hevs).
  rewrite (forallb_weaken _ _ _ close_event_not_run Htc). reflexivity.
Qed.

(** ** Network mode (lines 283-306) *)

(** Without host networking the mode is bridge, whatever the version
    query answers. *)
Lemma bridge_mode_without_host_network (E : environment) (cfg : config)
    (s : state) :
  use_host_network cfg = false ->
  exists extra_hosts,
    result_of (resolve_network E cfg s) = Ok ("bridge", extra_hosts).
Proof.
  intros Hhost.
  destruct (resolve_network_spec E cfg s) as (s1 & t1 & H1 & _).
  rewrite H1. unfold resolved_network. rewrite Hhost.
  eexists. reflexivity.
Qed.

(** The alias is registered on the one path where detection succeeds
    and the engine is not Docker Desktop. *)
Lemma alias_registered_when_detected (E : environment) (cfg : config)
    (s : state) (components : list string) :
  use_host_network cfg = false ->
  version_reply E (n_version (made s)) = Returns components ->
  is_docker_desktop components = false ->
  result_of (resolve_network E cfg s)
  = Ok ("bridge", Some [("host.docker.internal", "host-gateway")]).
Proof.
  intros Hhost Hver Hdesk.
  destruct (resolve_network_spec E cfg s) as (s1 & t1 & H1 & _).
  rewrite H1. unfold resolved_network. now rewrite Hhost, Hver, Hdesk.
Qed.

(** Claim C1: a failed detection selects bridge mode but leaves
    [extra_hosts] without a value; the alias is not registered and
    [_init_container] ends in [UnboundLocalError] before any creation
    request, where the claim has the alias registered and no error. *)
Theorem detection_failure_breaks_creation (E : environment) (cfg : config)
    (fuel : nat) (s : state) (e : exn) :
  use_host_network cfg = false ->
  version_reply E (n_version (made s)) = Throws e ->
  result_of (resolve_network E cfg s) = Ok ("bridge", None)
  /\ exists s' t,
       _init_container E cfg (S fuel) s
         = (Raise (UnboundLocalError "extra_hosts"), s', t)
       /\ runs_made s' = runs_made s
       /\ none_of is_run t = true.
Proof.
  intros Hhost Hver.
  assert (Hnet : resolved_network E cfg s = ("bridge", None)).
  { unfold resolved_network. now rewrite Hhost, Hver. }
  split.
  - destruct (resolve_network_spec E cfg s) as (s1 & t1 & H1 & _).
    now rewrite H1, Hnet.
  - apply init_container_unbound. now rewrite Hnet.
Qed.

Lemma detection_failure_breaks_creation_witness :
  use_host_network sample_config = false
  /\ version_reply undetectable_engine
       (n_version (made (fresh_state sample_config)))
     = Throws (OtherException "version unavailable")
  /\ result_of (resolve_network undetectable_engine sample_config
                  (fresh_state sample_config))
     = Ok ("bridge", None)
  /\ exists s' t,
       _init_container undetectable_engine sample_config 1
         (fresh_state sample_config)
       = (Raise (UnboundLocalError "extra_hosts"), s', t)
       /\ runs_made s' = runs_made (fresh_state sample_config)
       /\ none_of is_run t = true.
Proof.
  split; [reflexivity|]. split; [reflexivity|].
  exact (detection_failure_breaks_creation undetectable_engine sample_config
           0 (fresh_state sample_config)
           (OtherException "version unavailable") eq_refl eq_refl).
Defined.

(** ** Name conflicts (lines 449-456) *)

Lemma count_events_app (P : event -> bool) (a b : list event) :
  count_events P (a ++ b) = (count_events P a + count_events P b)%nat.
Proof. unfold count_events. now rewrite filter_app, length_app. Qed.

Lemma count_events_none (P Q : event -> bool) (l : list event) :
  (forall ev, Q ev = true -> P ev = false) ->
  forallb Q l = true -> count_events P l = 0%nat.
Proof.
  intros H Hl. unfold count_events. induction l as [|ev l IH]; [reflexivity|].
  simpl in Hl. apply andb_prop in Hl. destruct Hl as [Hev Hl].
  simpl. rewrite (H _ Hev). now apply IH.
Qed.

Lemma prep_event_is_run (ev : event) : prep_event ev = true -> is_run ev = false.
Proof. now destruct ev. Qed.

Lemma prep_event_is_stop_all (ev : event) :
  prep_event ev = true -> is_stop_all ev = false.
Proof. now destruct ev. Qed.

(** Claim C4, as amended: in bridge mode on an engine that is not Docker
    Desktop, [k] name conflicts in a row followed by a success, with the
    recursion of line 456 [k] calls deep, make [_init_container] return
    normally after [k + 1] rounds: every round is the whole preparation
    followed by the creation request, and every refused round is followed
    by the warning and the removal of the container named after the
    session, after which the next round starts.  No conflict reaches the
    caller. *)
Theorem name_conflict_retried_every_time (E : environment) (cfg : config)
    (k fuel : nat) (s : state) :
  use_host_network cfg = false ->
  (forall i, exists components,
      version_reply E i = Returns components
      /\ is_docker_desktop components = false) ->
  (forall i, (i < k)%nat ->
     exists msg, run_reply E (runs_made s + i) = Throws (APIError msg)
                 /\ contains "409" msg = true) ->
  (exists net, run_reply E (runs_made s + k) = Returns net) ->
  (k < fuel)%nat ->
  exists s' t,
    _init_container E cfg fuel s = (Ok tt, s', t)
    /\ t = conflict_trace E cfg k s
    /\ runs_made s' = (runs_made s + k + 1)%nat
    /\ count_events is_run t = (k + 1)%nat
    /\ count_events is_stop_all t = k.
Proof.
  intros Hhost Hver. revert fuel s.
  induction k as [|k IH]; intros fuel s Hconf Hok Hfuel;
    (destruct fuel as [|fuel]; [lia|]);
    destruct (prepare_container_spec E cfg s) as (s1 & t1 & Hprep & _ & Himg);
    pose proof (prepare_container_keeps_runs E cfg s) as Hruns;
    pose proof (prepare_container_emits E cfg s) as Hevs;
    cbn [conflict_trace]; unfold request_of, after_conflict;
    rewrite Hprep in Hruns, Hevs |- *;
    unfold state_of, events_of in Hruns, Hevs |- *;
    cbn [fst snd] in Hruns, Hevs |- *;
    assert (Hnet : resolved_network E cfg s
                   = ("bridge", Some [("host.docker.internal", "host-gateway")]));
    try (unfold resolved_network; rewrite Hhost;
         destruct (Hver (n_version (made s))) as (comps & -> & ->);
         reflexivity);
    cbn [_init_container]; unfold bind at 1; rewrite Hprep, Hnet;
    cbn [fst snd];
    unfold try_except, run_container, bind, get_self, read_local, ret,
      containers_run; unfold runs_made in *.
  - destruct Hok as [net Hok]. rewrite Nat.add_0_r in Hok.
    rewrite Hruns, Hok. cbn.
    eexists; eexists; split; [reflexivity|]. cbn [made n_run bump_run].
    split; [reflexivity|]. split; [lia|].
    rewrite !count_events_app.
    rewrite (count_events_none is_run prep_event t1 prep_event_is_run Hevs).
    rewrite (count_events_none is_stop_all prep_event t1
               prep_event_is_stop_all Hevs).
    split; reflexivity.
  - destruct (Hconf 0%nat ltac:(lia)) as (msg & Hrun & H409).
    rewrite Nat.add_0_r in Hrun. rewrite Hruns, Hrun.
    cbn [is_APIError exn_str]. rewrite H409.
    unfold log, stop_all_containers, emit. cbn [app].
    destruct (IH fuel {| self := self s1; made := bump_run (made s1) |})
      as (s' & t & Hrec & Htrace & Hr1 & Hr2 & Hr3).
    + intros i Hi. cbn [made n_run bump_run]. rewrite Hruns.
      destruct (Hconf (S i) ltac:(lia)) as (m & Hm & H4).
      exists m. split; [|exact H4].
      now replace (S (n_run (made s)) + i)%nat
        with (n_run (made s) + S i)%nat by lia.
    + destruct Hok as [net Hok]. exists net.
      cbn [made n_run bump_run]. rewrite Hruns.
      now replace (S (n_run (made s)) + k)%nat
        with (n_run (made s) + S k)%nat by lia.
    + lia.
    + rewrite Hrec. eexists; eexists; split; [reflexivity|].
      cbn [made n_run bump_run] in Hr1. rewrite Hruns in Hr1.
      split; [now rewrite <- Htrace|]. split; [lia|].
      rewrite !count_events_app.
      rewrite (count_events_none is_run prep_event t1 prep_event_is_run Hevs).
      rewrite (count_events_none is_stop_all prep_event t1
                 prep_event_is_stop_all Hevs).
      cbn [count_events filter is_run is_stop_all List.length app].
      change (List.length (filter is_run t)) with (count_events is_run t).
      change (List.length (filter is_stop_all t))
        with (count_events is_stop_all t).
      rewrite Hr2, Hr3. split; lia.
Qed.

Lemma name_conflict_retried_every_time_witness :
  use_host_network sample_config = false
  /\ (forall i, exists components,
        version_reply twice_taken_engine i = Returns components
        /\ is_docker_desktop components = false)
  /\ (forall i, (i < 2)%nat ->
        exists msg,
          run_reply twice_taken_engine
            (runs_made (fresh_state sample_config) + i)
          = Throws (APIError msg)
          /\ contains "409" msg = true)
  /\ (exists net,
        run_reply twice_taken_engine
          (runs_made (fresh_state sample_config) + 2) = Returns net)
  /\ (2 < 3)%nat
  /\ exists s' t,
       _init_container twice_taken_engine sample_config 3
         (fresh_state sample_config) = (Ok tt, s', t)
       /\ t = conflict_trace twice_taken_engine sample_config 2
                (fresh_state sample_config)
       /\ runs_made s' = (runs_made (fresh_state sample_config) + 2 + 1)%nat
       /\ count_events is_run t = (2 + 1)%nat
       /\ count_events is_stop_all t = 2%nat.
Proof.
  assert (H1 : use_host_network sample_config = false) by reflexivity.
  assert (H2 : forall i, exists components,
             version_reply twice_taken_engine i = Returns components
             /\ is_docker_desktop components = false).
  { intros i. exists ["Engine"; "containerd"]. split; reflexivity. }
  assert (H3 : forall i, (i < 2)%nat ->
             exists msg,
               run_reply twice_taken_engine
                 (runs_made (fresh_state sample_config) + i)
               = Throws (APIError msg)
               /\ contains "409" msg = true).
  { intros i Hi.
    exists "409 Client Error: Conflict (container name already in use)".
    destruct i as [|[|i]]; [split; reflexivity | split; reflexivity | lia]. }
  assert (H4 : exists net,
             run_reply twice_taken_engine
               (runs_made (fresh_state sample_config) + 2) = Returns net).
  { exists ("172.17.0.2", "172.17.0.1"). reflexivity. }
  assert (H5 : (2 < 3)%nat) by lia.
  repeat (split; [assumption|]).
  exact (name_conflict_retried_every_time twice_taken_engine sample_config
           2 3 (fresh_state sample_config) H1 H2 H3 H4 H5).
Defined.

(** Claim C4 fails as stated: when the single retry meets the name
    conflict again, the conflict does not reach the caller; the container
    is removed and the sequence run a third time, which here succeeds. *)
Lemma second_name_conflict_not_propagated :
  run_reply twice_taken_engine 0 = Throws conflict_409
  /\ run_reply twice_taken_engine 1 = Throws conflict_409
  /\ result_of (_init_container twice_taken_engine sample_config 3
                  (fresh_state sample_config)) = Ok tt
  /\ count_events is_run
       (events_of (_init_container twice_taken_engine sample_config 3
                     (fresh_state sample_config))) = 3%nat
  /\ count_events is_stop_all
       (events_of (_init_container twice_taken_engine sample_config 3
                     (fresh_state sample_config))) = 2%nat.
Proof. repeat split; vm_compute; reflexivity. Qed.

(** ** Environment of the container (lines 370-387) *)

Lemma dict_get_set {V} (k k' : string) (v : V) (d : dict V) :
  dict_get k (dict_set k' v d)
  = if String.eqb k k' then Some v else dict_get k d.
Proof.
  induction d as [|[k0 v0] d IH]; simpl.
  - reflexivity.
  - destruct (String.eqb k' k0) eqn:H0; simpl.
    + apply String.eqb_eq in H0. subst k0.
      destruct (String.eqb k k'); reflexivity.
    + rewrite IH. destruct (String.eqb k k') eqn:H1; [|reflexivity].
      apply String.eqb_eq in H1. subst k'.
      now rewrite H0.
Qed.

Lemma dict_get_absent {V} (k : string) (d : dict V) :
  ~ In k (dict_keys d) -> dict_get k d = None.
Proof.
  induction d as [|[k0 v0] d IH]; simpl; intros H; [reflexivity|].
  destruct (String.eqb k k0) eqn:H0.
  - apply String.eqb_eq in H0. subst. tauto.
  - apply IH. tauto.
Qed.

Lemma dict_get_update {V} (k : string) (d other : dict V) :
  dict_wf other ->
  dict_get k (dict_update d other)
  = match dict_get k other with
    | Some v => Some v
    | None => dict_get k d
    end.
Proof.
  unfold dict_update, dict_wf. revert d.
  induction other as [|[k1 v1] other IH]; intros d Hwf; simpl.
  - reflexivity.
  - inversion Hwf as [|? ? Hnotin Hwf']; subst.
    rewrite (IH _ Hwf'), dict_get_set.
    destruct (String.eqb k k1) eqn:H1.
    + apply String.eqb_eq in H1. subst k1.
      now rewrite (dict_get_absent _ _ Hnotin).
    + reflexivity.
Qed.

Lemma computed_environment_named (cfg : config) (r : runtime) :
  dict_get "port" (computed_environment cfg r)
    = Some (py_str_int (_container_port r))
  /\ dict_get "VSCODE_PORT" (computed_environment cfg r)
    = Some (py_str_int (_vscode_port r))
  /\ dict_get "PYTHONUNBUFFERED" (computed_environment cfg r) = Some "1"
  /\ dict_get "DOCKER_DEFAULT_PLATFORM" (computed_environment cfg r)
    = Some (py_or (platform cfg) "linux/amd64").
Proof.
  unfold computed_environment.
  destruct (debug cfg || DEBUG cfg)%bool; repeat split; reflexivity.
Qed.

(** Looking a key up in the environment of lines 370-387: the caller's
    entry if there is one, the computed entry otherwise; the four named
    entries are always there. *)
Lemma build_environment_lookup (cfg : config) (r : runtime) :
  dict_wf (runtime_startup_env_vars cfg) ->
  (forall k,
      dict_get k (build_environment cfg r)
      = match dict_get k (runtime_startup_env_vars cfg) with
        | Some v => Some v
        | None => dict_get k (computed_environment cfg r)
        end)
  /\ (forall k, In k named_entries ->
        dict_get k (build_environment cfg r) <> None).
Proof.
  intros Hwf.
  destruct (computed_environment_named cfg r) as (H1 & H2 & H3 & H4).
  split; [intros k; now apply dict_get_update|].
  intros k Hk. unfold build_environment.
  rewrite (dict_get_update _ _ _ Hwf).
  destruct (dict_get k (runtime_startup_env_vars cfg)); [discriminate|].
  simpl in Hk.
  destruct Hk as [<-|[<-|[<-|[<-|[]]]]]; congruence.
Qed.

(** ** Attach-only connection (lines 155-173) *)

(** Claim C2: in attach-only mode, with the container absent, [connect]
    ends in [AgentRuntimeDisconnectedError]; it looks the container up
    once, which is within the 3 attempts allowed, never sleeps, and asks
    neither for an image build nor for a container. *)
Theorem attach_only_never_creates (E : environment) (cfg : config)
    (fuel : nat) (s : state) :
  attach_to_existing cfg = true ->
  (forall i, exists msg,
      get_reply E i (container_name cfg) = Throws (NotFound msg)) ->
  result_of (connect E cfg fuel s) = Raise (AgentRuntimeDisconnectedError "")
  /\ events_of (connect E cfg fuel s)
     = [EvStatus "STATUS$STARTING_RUNTIME"; EvGet (container_name cfg);
        EvLog "error"]
  /\ (count_events is_get (events_of (connect E cfg fuel s)) <= 3)%nat
  /\ backoff_between 0 false (events_of (connect E cfg fuel s)) = true
  /\ none_of is_sleep (events_of (connect E cfg fuel s)) = true
  /\ none_of is_build (events_of (connect E cfg fuel s)) = true
  /\ none_of is_run (events_of (connect E cfg fuel s)) = true.
Proof.
  intros Hattach Habsent.
  destruct (Habsent (n_get (made s))) as [msg Hmsg].
  assert (Hrun : connect E cfg fuel s
                 = (Raise (AgentRuntimeDisconnectedError ""),
                    {| self := self s; made := bump_get (made s) |},
                    [EvStatus "STATUS$STARTING_RUNTIME";
                     EvGet (container_name cfg); EvLog "error"])).
  { unfold connect, send_status_message. cbn [attach_loop].
    unfold bind, emit, try_except, _attach_to_container, bind, containers_get.
    change (0 <? max_retries) with true. cbv beta iota.
    rewrite Hmsg. cbn [is_NotFound orb]. rewrite Hattach.
    rewrite Bool.orb_true_r. reflexivity. }
  rewrite Hrun. unfold result_of, events_of. cbn [fst snd].
  repeat split; try reflexivity. cbn. lia.
Qed.

Lemma attach_only_never_creates_witness :
  attach_to_existing attach_only_config = true
  /\ (forall i, exists msg,
        get_reply sample_engine i (container_name attach_only_config)
        = Throws (NotFound msg))
  /\ result_of (connect sample_engine attach_only_config 5
                  (fresh_state attach_only_config))
     = Raise (AgentRuntimeDisconnectedError "")
  /\ (count_events is_get
        (events_of (connect sample_engine attach_only_config 5
                      (fresh_state attach_only_config))) <= 3)%nat
  /\ none_of is_build
       (events_of (connect sample_engine attach_only_config 5
                     (fresh_state attach_only_config))) = true
  /\ none_of is_run
       (events_of (connect sample_engine attach_only_config 5
                     (fresh_state attach_only_config))) = true.
Proof.
  assert (H1 : attach_to_existing attach_only_config = true) by reflexivity.
  assert (H2 : forall i, exists msg,
             get_reply sample_engine i (container_name attach_only_config)
             = Throws (NotFound msg)).
  { intros i. exists "404 Client Error: Not Found". reflexivity. }
  destruct (attach_only_never_creates sample_engine attach_only_config 5
              (fresh_state attach_only_config) H1 H2)
    as (R1 & _ & R3 & _ & _ & R5 & R6).
  repeat (split; [assumption|]). assumption.
Defined.

(** ** Liveness (lines 238-277) *)

(** Claim C3: a container found absent in a liveness round leaves
    [_wait_until_alive] as [AgentRuntimeNotFoundError], which the retry
    predicate rejects although it accepts the engine's own [NotFound]:
    the round is the last one, nothing is retried, where the claim has
    the absence retried. *)
Theorem absent_container_ends_liveness (E : environment) (cfg : config)
    (fuel attempt_number : nat) (s : state) (msg : string) :
  get_reply E (n_get (made s)) (container_name cfg) = Throws (NotFound msg) ->
  retry_wait_until_alive E cfg (S fuel) attempt_number s
  = (Raise (AgentRuntimeNotFoundError
              ("Container " ++ container_name cfg ++ " not found.")),
     {| self := self s; made := bump_get (made s) |},
     [EvGet (container_name cfg)])
  /\ _is_retryable_wait_until_alive_error (NotFound msg) = true
  /\ _is_retryable_wait_until_alive_error
       (AgentRuntimeNotFoundError
          ("Container " ++ container_name cfg ++ " not found.")) = false.
Proof.
  intros Hget. split; [|split; reflexivity].
  cbn [retry_wait_until_alive].
  unfold try_except, wait_attempt, try_except, bind, containers_get.
  cbv beta. rewrite Hget. reflexivity.
Qed.

Lemma absent_container_ends_liveness_witness :
  get_reply sample_engine (n_get (made (fresh_state sample_config)))
    (container_name sample_config)
  = Throws (NotFound "404 Client Error: Not Found")
  /\ _wait_until_alive sample_engine sample_config 50
       (fresh_state sample_config)
     = (Raise (AgentRuntimeNotFoundError
                 "Container openhands-runtime-abc not found."),
        {| self := self (fresh_state sample_config);
           made := bump_get (made (fresh_state sample_config)) |},
        [EvGet "openhands-runtime-abc"]).
Proof.
  split; [reflexivity|].
  exact (proj1 (absent_container_ends_liveness sample_engine sample_config
                  49 1 (fresh_state sample_config)
                  "404 Client Error: Not Found" eq_refl)).
Defined.

(** Claim C9, as amended: a container seen as exited at the start of a
    liveness round, whose last log lines can be read, makes
    [_wait_until_alive] raise [AgentRuntimeDisconnectedError] with those
    lines in its message; the round makes no probe, and the retry loop
    neither sleeps nor tries again.  When reading the log lines raises,
    the round ends with that exception instead, a [NotFound] replaced by
    [AgentRuntimeNotFoundError]. *)
Theorem exited_container_is_fatal (E : environment) (cfg : config)
    (fuel attempt_number : nat) (s : state) (c : Container) :
  get_reply E (n_get (made s)) (container_name cfg) = Returns c ->
  c_status c = "exited" ->
  match c_logs c with
  | Returns logs =>
      retry_wait_until_alive E cfg (S fuel) attempt_number s
      = (Raise (AgentRuntimeDisconnectedError
                  ("Container " ++ container_name cfg
                     ++ " has exited. Last logs:" ++ nl ++ logs)),
         {| self := self s; made := bump_get (made s) |},
         [EvGet (container_name cfg); EvLog "error"])
      /\ contains logs
           ("Container " ++ container_name cfg
              ++ " has exited. Last logs:" ++ nl ++ logs) = true
      /\ _is_retryable_wait_until_alive_error
           (AgentRuntimeDisconnectedError
              ("Container " ++ container_name cfg
                 ++ " has exited. Last logs:" ++ nl ++ logs)) = false
  | Throws e =>
      wait_attempt E cfg s
      = (Raise (if is_NotFound e
                then AgentRuntimeNotFoundError
                       ("Container " ++ container_name cfg ++ " not found.")
                else e),
         {| self := self s; made := bump_get (made s) |},
         EvGet (container_name cfg)
           :: (if is_NotFound e then [] else [EvLog "error"]))
  end.
Proof.
  intros Hget Hstatus.
  destruct (c_logs c) as [logs|e] eqn:Hlogs.
  - split; [|split; [|reflexivity]].
    + cbn [retry_wait_until_alive].
      unfold try_except, wait_attempt, try_except, bind, containers_get,
        container_logs.
      cbv beta. rewrite Hget. cbv beta iota. rewrite Hstatus.
      cbv beta iota. rewrite Hlogs. reflexivity.
    + apply (contains_skip "Container ").
      apply (contains_skip (container_name cfg)).
      apply (contains_skip " has exited. Last logs:").
      apply (contains_skip nl).
      rewrite contains_unfold.
      replace (String.prefix logs logs) with true; [reflexivity|].
      symmetry. rewrite <- (prefix_app logs "") at 1.
      f_equal. clear. induction logs; simpl; congruence.
  - unfold wait_attempt, try_except, bind, containers_get, container_logs.
    cbv beta. rewrite Hget. cbv beta iota. rewrite Hstatus.
    cbv beta iota. rewrite Hlogs. unfold raise.
    change (String.eqb "exited" "exited") with true. cbv beta iota.
    destruct (is_NotFound e); reflexivity.
Qed.

Lemma exited_container_is_fatal_witness :
  get_reply exited_engine (n_get (made (fresh_state sample_config)))
    (container_name sample_config) = Returns exited_container
  /\ c_status exited_container = "exited"
  /\ c_logs exited_container = Returns "Traceback: server crashed"
  /\ result_of (_wait_until_alive exited_engine sample_config 50
                  (fresh_state sample_config))
     = Raise (AgentRuntimeDisconnectedError
                ("Container openhands-runtime-abc has exited. Last logs:"
                   ++ nl ++ "Traceback: server crashed"))
  /\ events_of (_wait_until_alive exited_engine sample_config 50
                  (fresh_state sample_config))
     = [EvGet "openhands-runtime-abc"; EvLog "error"].
Proof.
  split; [reflexivity|]. split; [reflexivity|]. split; [reflexivity|].
  pose proof (proj1 (exited_container_is_fatal exited_engine sample_config
                       49 1 (fresh_state sample_config) exited_container
                       eq_refl eq_refl)) as H.
  unfold _wait_until_alive. rewrite H. split; reflexivity.
Defined.

(** Claim C9 fails as stated: for an exited container whose last output
    does not decode, the decoding error leaves [_wait_until_alive] in the
    place of the disconnection error, and no log line is reported. *)
Lemma exited_container_unreadable_logs :
  get_reply (engine_showing garbled_container)
    (n_get (made (fresh_state sample_config)))
    (container_name sample_config) = Returns garbled_container
  /\ c_status garbled_container = "exited"
  /\ _wait_until_alive (engine_showing garbled_container) sample_config 50
       (fresh_state sample_config)
     = (Raise (ValueError
                 "'utf-8' codec can't decode byte 0xff in position 0: invalid start byte"),
        {| self := self (fresh_state sample_config);
           made := bump_get (made (fresh_state sample_config)) |},
        [EvGet "openhands-runtime-abc"; EvLog "error"]).
Proof. repeat split. Qed.

(** ** The shared docker client (lines 227-236 and 585-597) *)

Lemma init_docker_client_cached (H : docker_host) (p : process) (c : nat) :
  cached_client p = Some c -> _init_docker_client H p = (Returns c, p).
Proof. intros Hc. unfold _init_docker_client. now rewrite Hc. Qed.

Lemma init_docker_client_caches (H : docker_host) (p p1 : process) (c : nat) :
  _init_docker_client H p = (Returns c, p1) ->
  cached_client p1 = Some c /\ closed_clients p1 = closed_clients p.
Proof.
  unfold _init_docker_client.
  destruct (cached_client p) as [c0|] eqn:Hc.
  - intros [= <- <-]. split; [exact Hc | reflexivity].
  - destruct (from_env_reply H (from_env_calls p)); intros [= <- <-].
    split; reflexivity.
Qed.

Lemma delete_with_cached_client (H : docker_host) (conversation_id : string)
    (p : process) (c : nat) :
  cached_client p = Some c ->
  cached_client (snd (delete H conversation_id p)) = Some c
  /\ (exists n,
        closed_clients (snd (delete H conversation_id p))
        = c :: closed_clients p
        /\ engine_calls (snd (delete H conversation_id p))
           = (engine_calls p + n)%nat)
  /\ from_env_calls (snd (delete H conversation_id p)) = from_env_calls p
  /\ clients_made (snd (delete H conversation_id p)) = clients_made p.
Proof.
  intros Hc. unfold delete. rewrite (init_docker_client_cached H p c Hc).
  destruct (lookup_reply H (engine_calls p)); cbn.
  - repeat split; try assumption. exists 1%nat. split; [reflexivity | lia].
  - repeat split; try assumption. exists 2%nat. split; [reflexivity | lia].
Qed.

(** Once a client is cached and closed, whatever the process does next
    with the docker client finds that same closed client. *)
Lemma closed_client_stays (H : docker_host) (c : nat) (ops : list process_op)
    (p : process) :
  cached_client p = Some c -> In c (closed_clients p) ->
  cached_client (run_ops H ops p) = Some c
  /\ In c (closed_clients (run_ops H ops p))
  /\ from_env_calls (run_ops H ops p) = from_env_calls p
  /\ clients_made (run_ops H ops p) = clients_made p.
Proof.
  revert p. induction ops as [|op ops IH]; intros p Hc Hin.
  - repeat split; assumption.
  - unfold run_ops in *. cbn [fold_left].
    destruct op as [|conversation_id]; cbn [run_op].
    + rewrite (init_docker_client_cached H p c Hc). now apply IH.
    + destruct (delete_with_cached_client H conversation_id p c Hc)
        as (D1 & (n & D2 & _) & D3 & D4).
      destruct (IH (snd (delete H conversation_id p)) D1) as (R1 & R2 & R3 & R4).
      { rewrite D2. now left. }
      repeat split; congruence.
Qed.

(** Claim C10: a [delete] that obtains the docker client ends by closing
    it, and the client it closed is the one [_init_docker_client] keeps:
    after any further runtime constructions and [delete] calls in the
    process, [_init_docker_client] still returns that closed client, and
    [docker.from_env] has not been called again. *)
Theorem delete_closes_the_shared_client (H : docker_host)
    (conversation_id : string) (p p1 : process) (c : nat) :
  _init_docker_client H p = (Returns c, p1) ->
  closed_clients (snd (delete H conversation_id p)) = c :: closed_clients p
  /\ cached_client (snd (delete H conversation_id p)) = Some c
  /\ forall ops,
       fst (_init_docker_client H
              (run_ops H ops (snd (delete H conversation_id p))))
       = Returns c
       /\ In c (closed_clients
                  (run_ops H ops (snd (delete H conversation_id p))))
       /\ from_env_calls (run_ops H ops (snd (delete H conversation_id p)))
          = from_env_calls (snd (delete H conversation_id p))
       /\ clients_made (run_ops H ops (snd (delete H conversation_id p)))
          = clients_made (snd (delete H conversation_id p)).
Proof.
  intros Hinit.
  destruct (init_docker_client_caches H p p1 c Hinit) as [Hc1 Hcl1].
  assert (Hclosed : closed_clients (snd (delete H conversation_id p))
                    = c :: closed_clients p).
  { unfold delete. rewrite Hinit.
    destruct (lookup_reply H (engine_calls p1)); cbn; now rewrite Hcl1. }
  assert (Hcached : cached_client (snd (delete H conversation_id p)) = Some c).
  { unfold delete. rewrite Hinit.
    destruct (lookup_reply H (engine_calls p1)); cbn; exact Hc1. }
  split; [exact Hclosed|]. split; [exact Hcached|].
  intros ops.
  destruct (closed_client_stays H c ops (snd (delete H conversation_id p))
              Hcached) as (R1 & R2 & R3 & R4).
  { rewrite Hclosed. now left. }
  rewrite (init_docker_client_cached H _ c R1).
  repeat split; assumption.
Qed.

Lemma delete_closes_the_shared_client_witness :
  _init_docker_client healthy_host new_process
  = (Returns 0%nat,
     {| cached_client := Some 0%nat; closed_clients := []; clients_made := 1;
        from_env_calls := 1; engine_calls := 0 |})
  /\ closed_clients (snd (delete healthy_host "xyz" new_process)) = [0%nat]
  /\ fst (_init_docker_client healthy_host
            (run_ops healthy_host [OpNewRuntime; OpDelete "abc"]
               (snd (delete healthy_host "xyz" new_process))))
     = Returns 0%nat
  /\ In 0%nat
       (closed_clients
          (run_ops healthy_host [OpNewRuntime; OpDelete "abc"]
             (snd (delete healthy_host "xyz" new_process)))).
Proof.
  split; [reflexivity|].
  destruct (delete_closes_the_shared_client healthy_host "xyz" new_process _
              0%nat eq_refl) as (H1 & _ & H3).
  split; [exact H1|].
  destruct (H3 [OpNewRuntime; OpDelete "abc"]) as (R1 & R2 & _).
  split; assumption.
Defined.

(** ** Order of the phases of [connect] (lines 155-225) *)

Lemma close_event_before_liveness (ev : event) :
  close_event ev = true -> before_liveness ev = true.
Proof. now destruct ev. Qed.

Lemma close_emits (cfg : config) (arg : option bool) :
  emits_only before_liveness (close cfg arg).
Proof.
  intros s. destruct (close_spec cfg arg s) as (t & Hrun & Ht).
  rewrite Hrun. unfold events_of. cbn [snd].
  exact (forallb_weaken _ _ _ close_event_before_liveness Ht).
Qed.

Lemma run_container_emits (E : environment) (cfg : config) (nm : string)
    (eh : option (dict string)) (pm : option (dict (list binding)))
    (env : dict string) :
  emits_only before_liveness (run_container E cfg nm eh pm env).
Proof.
  unfold run_container, read_local, log, send_status_message.
  repeat first [emits_step | collaborator].
Qed.

Lemma init_container_emits (E : environment) (cfg : config) (fuel : nat) :
  emits_only before_liveness (_init_container E cfg fuel).
Proof.
  induction fuel as [|fuel IH]; cbn [_init_container].
  - apply emits_out_of_fuel.
  - apply emits_bind.
    + exact (emits_weaken _ _ _ prep_event_before_liveness
               (prepare_container_emits E cfg)).
    + intros [[[nm eh] pm] env]. unfold log, stop_all_containers.
      repeat first [apply run_container_emits | apply close_emits | apply IH
                   | emits_step].
Qed.

Lemma attach_to_container_emits (E : environment) (cfg : config) :
  emits_only before_liveness (_attach_to_container E cfg).
Proof.
  unfold _attach_to_container, read_env_marker, read_exposed_port, int_of, log.
  repeat first [emits_step | collaborator].
Qed.

Lemma ensure_image_emits (E : environment) (cfg : config) :
  emits_only before_liveness (ensure_image E cfg).
Proof.
  unfold ensure_image, send_status_message.
  repeat first [emits_step | collaborator].
Qed.

Lemma attach_loop_emits (E : environment) (cfg : config) (rounds fuel : nat)
    (retry_count : Z) :
  emits_only before_liveness (attach_loop E cfg rounds fuel retry_count).
Proof.
  revert retry_count. induction rounds as [|rounds IH]; intros retry_count;
    cbn [attach_loop]; destruct (retry_count <? max_retries).
  - apply emits_out_of_fuel.
  - apply emits_ret.
  - unfold log, sleep.
    repeat first [apply attach_to_container_emits | apply ensure_image_emits
                 | apply init_container_emits | apply IH | emits_step].
  - apply emits_ret.
Qed.

Lemma bind_ok_inv {A B} (m : M A) (k : A -> M B) (s : state) (b : B) :
  result_of (bind m k s) = Ok b ->
  exists a s1 t1,
    m s = (Ok a, s1, t1)
    /\ result_of (k a s1) = Ok b
    /\ events_of (bind m k s) = (t1 ++ events_of (k a s1))%list.
Proof.
  unfold bind, result_of, events_of.
  destruct (m s) as [[[a| e|] s1] t1]; cbn; try discriminate.
  destruct (k a s1) as [[r s2] t2] eqn:Hk. cbn. intros ->.
  exists a, s1, t1. rewrite Hk. repeat split.
Qed.

Lemma try_except_ok_inv {A} (m : M A) (h : exn -> M A) (s : state) (a : A) :
  result_of (try_except m h s) = Ok a ->
  (result_of (m s) = Ok a /\ events_of (try_except m h s) = events_of (m s))
  \/ exists e s1 t1,
       m s = (Raise e, s1, t1)
       /\ result_of (h e s1) = Ok a
       /\ events_of (try_except m h s) = (t1 ++ events_of (h e s1))%list.
Proof.
  unfold try_except, result_of, events_of.
  destruct (m s) as [[[a0| e|] s1] t1]; cbn; try discriminate.
  - intros [= ->]. now left.
  - destruct (h e s1) as [[r s2] t2] eqn:Hh. cbn. intros ->.
    right. exists e, s1, t1. rewrite Hh. repeat split.
Qed.

Lemma wait_attempt_emits (E : environment) (cfg : config) :
  emits_only not_setup (wait_attempt E cfg).
Proof.
  unfold wait_attempt, container_logs, log.
  repeat first [emits_step | collaborator].
Qed.

Lemma retry_wait_emits (E : environment) (cfg : config)
    (fuel attempt_number : nat) :
  emits_only not_setup (retry_wait_until_alive E cfg fuel attempt_number).
Proof.
  revert attempt_number.
  induction fuel as [|fuel IH]; intros attempt_number;
    cbn [retry_wait_until_alive].
  - apply emits_out_of_fuel.
  - unfold sleep.
    repeat first [apply wait_attempt_emits | apply IH | emits_step
                 | collaborator].
Qed.

(** A liveness round that returns has ended with a successful probe. *)
Lemma wait_attempt_ok (E : environment) (cfg : config) (s : state) :
  result_of (wait_attempt E cfg s) = Ok tt ->
  In (EvProbe true) (events_of (wait_attempt E cfg s)).
Proof.
  unfold wait_attempt. intros Hok.
  apply try_except_ok_inv in Hok.
  destruct Hok as [[Hok Hev] | (e & s1 & t1 & _ & Hh & _)].
  - rewrite Hev. clear Hev.
    apply bind_ok_inv in Hok. destruct Hok as (c & s1 & t1 & _ & Hok & ->).
    apply in_or_app. right.
    apply bind_ok_inv in Hok. destruct Hok as (? & s2 & t2 & _ & Hok & ->).
    apply in_or_app. right.
    apply bind_ok_inv in Hok. destruct Hok as (? & s3 & t3 & _ & Hok & ->).
    apply in_or_app. right.
    apply bind_ok_inv in Hok. destruct Hok as (? & s4 & t4 & _ & Hok & ->).
    apply in_or_app. right.
    revert Hok. unfold check_if_alive, result_of, events_of.
    destruct (alive_reply E (n_alive (made s4))); cbn; [discriminate|].
    intros _. now left.
  - exfalso. revert Hh.
    destruct (is_NotFound e); unfold result_of, bind, log, emit, raise; cbn;
      discriminate.
Qed.

Lemma retry_wait_ok (E : environment) (cfg : config)
    (fuel attempt_number : nat) (s : state) :
  result_of (retry_wait_until_alive E cfg fuel attempt_number s) = Ok tt ->
  In (EvProbe true)
     (events_of (retry_wait_until_alive E cfg fuel attempt_number s)).
Proof.
  revert attempt_number s.
  induction fuel as [|fuel IH]; intros attempt_number s;
    cbn [retry_wait_until_alive]; [discriminate|].
  intros Hok. apply try_except_ok_inv in Hok.
  destruct Hok as [[Hok Hev] | (e & s1 & t1 & _ & Hh & Hev)]; rewrite Hev.
  - now apply wait_attempt_ok.
  - apply in_or_app. right. clear Hev.
    destruct (negb (_is_retryable_wait_until_alive_error e));
      [discriminate Hh|].
    apply bind_ok_inv in Hh. destruct Hh as (stop & s2 & t2 & _ & Hh & ->).
    apply in_or_app. right.
    destruct stop; [discriminate Hh|].
    apply bind_ok_inv in Hh. destruct Hh as (? & s3 & t3 & _ & Hh & ->).
    apply in_or_app. right. now apply IH.
Qed.

(** The second half of [connect]: either the liveness wait does not
    return and nothing is set up, or it returns after a successful probe
    and the events of lines 213-225 follow. *)
Lemma finish_connect_shape (E : environment) (cfg : config) (fuel : nat)
    (s : state) :
  exists pre,
    forallb not_setup pre = true
    /\ ((events_of (finish_connect E cfg fuel s) = pre
         /\ result_of (finish_connect E cfg fuel s) <> Ok tt)
        \/ (In (EvProbe true) pre
            /\ result_of (finish_connect E cfg fuel s) = Ok tt
            /\ events_of (finish_connect E cfg fuel s)
               = (pre ++ connect_tail cfg)%list)).
Proof.
  unfold finish_connect, connect_tail, _wait_until_alive.
  destruct (attach_to_existing cfg); cbn [negb];
    unfold bind, modify_self, ret, log, send_status_message, emit,
      setup_initial_env; cbv beta iota;
    match goal with
    | |- context [retry_wait_until_alive E cfg fuel 1 ?st] =>
        pose proof (retry_wait_emits E cfg fuel 1 st) as Hem;
        pose proof (retry_wait_ok E cfg fuel 1 st) as Hok;
        destruct (retry_wait_until_alive E cfg fuel 1 st)
          as [[[[]|e|] s2] t2]
    end;
    unfold events_of, result_of in *; cbn [fst snd app] in *.
  - exists t2. split; [exact Hem|]. right.
    split; [now apply Hok|]. split; reflexivity.
  - exists t2. split; [exact Hem|]. left. split; [reflexivity | discriminate].
  - exists t2. split; [exact Hem|]. left. split; [reflexivity | discriminate].
  - exists (EvLog "info" :: EvStatus "STATUS$WAITING_FOR_CLIENT" :: t2).
    split; [exact Hem|]. right.
    split; [right; right; now apply Hok|]. split; reflexivity.
  - exists (EvLog "info" :: EvStatus "STATUS$WAITING_FOR_CLIENT" :: t2).
    split; [exact Hem|]. left. split; [reflexivity | discriminate].
  - exists (EvLog "info" :: EvStatus "STATUS$WAITING_FOR_CLIENT" :: t2).
    split; [exact Hem|]. left. split; [reflexivity | discriminate].
Qed.

Lemma before_liveness_not_setup (ev : event) :
  before_liveness ev = true -> not_setup ev = true.
Proof. now destruct ev. Qed.

Lemma connect_shape (E : environment) (cfg : config) (fuel : nat)
    (s : state) :
  exists pre,
    forallb not_setup pre = true
    /\ ((events_of (connect E cfg fuel s) = pre
         /\ result_of (connect E cfg fuel s) <> Ok tt)
        \/ (In (EvProbe true) pre
            /\ result_of (connect E cfg fuel s) = Ok tt
            /\ events_of (connect E cfg fuel s)
               = (pre ++ connect_tail cfg)%list)).
Proof.
  pose proof (attach_loop_emits E cfg 3 fuel 0 s) as Hem.
  apply (forallb_weaken _ _ _ before_liveness_not_setup) in Hem.
  unfold connect, send_status_message, bind, emit. cbv beta iota.
  destruct (attach_loop E cfg 3 fuel 0 s) as [[[[]|e|] s1] t1];
    unfold events_of in Hem; cbn [snd] in Hem.
  - destruct (finish_connect_shape E cfg fuel s1)
      as (pre & Hpre & [[Hev Hres] | (Hin & Hres & Hev)]);
      destruct (finish_connect E cfg fuel s1) as [[r s2] t2];
      unfold events_of, result_of in *; cbn [fst snd app] in *; subst.
    + exists (EvStatus "STATUS$STARTING_RUNTIME" :: t1 ++ pre)%list.
      split; [cbn; now rewrite forallb_app, Hem, Hpre|].
      left. split; [reflexivity | exact Hres].
    + exists (EvStatus "STATUS$STARTING_RUNTIME" :: t1 ++ pre)%list.
      split; [cbn; now rewrite forallb_app, Hem, Hpre|].
      right. split; [right; apply in_or_app; now right|].
      split; [reflexivity|]. cbn [app]. now rewrite app_assoc.
  - exists (EvStatus "STATUS$STARTING_RUNTIME" :: t1).
    split; [exact Hem|]. left. split; [reflexivity | discriminate].
  - exists (EvStatus "STATUS$STARTING_RUNTIME" :: t1).
    split; [exact Hem|]. left. split; [reflexivity | discriminate].
Qed.

Lemma setup_position (pre tail before after : list event) :
  forallb not_setup pre = true ->
  (pre ++ tail)%list = (before ++ EvSetupInitialEnv :: after)%list ->
  exists mid,
    before = (pre ++ mid)%list /\ tail = (mid ++ EvSetupInitialEnv :: after)%list.
Proof.
  revert before. induction pre as [|x pre IH]; intros before Hpre Heq.
  - exists before. split; [reflexivity | exact Heq].
  - cbn in Hpre. apply andb_prop in Hpre. destruct Hpre as [Hx Hpre].
    destruct before as [|y before]; cbn in Heq.
    + injection Heq as -> _. discriminate Hx.
    + injection Heq as -> Heq.
      destruct (IH before Hpre Heq) as (mid & -> & ->).
      exists mid. split; reflexivity.
Qed.

(** Claim C8, as amended: in every [connect] call the initial
    environment is set up at most once, only after a liveness probe has
    succeeded, and exactly when [attach_to_existing] is false: a
    [connect] that returns with the flag unset has set it up, whether it
    created the container or attached to one that was there; with the
    flag set it never does. *)
Theorem setup_after_liveness_by_flag (E : environment) (cfg : config)
    (fuel : nat) (s : state) :
  (forall before after,
      events_of (connect E cfg fuel s)
      = (before ++ EvSetupInitialEnv :: after)%list ->
      In (EvProbe true) before
      /\ attach_to_existing cfg = false
      /\ none_of is_setup before = true
      /\ none_of is_setup after = true)
  /\ (attach_to_existing cfg = true ->
      none_of is_setup (events_of (connect E cfg fuel s)) = true)
  /\ (attach_to_existing cfg = false ->
      result_of (connect E cfg fuel s) = Ok tt ->
      count_events is_setup (events_of (connect E cfg fuel s)) = 1%nat).
Proof.
  destruct (connect_shape E cfg fuel s)
    as (pre & Hpre & [[Hev Hres] | (Hin & Hres & Hev)]).
  - split; [|split].
    + intros before after Heq. exfalso.
      rewrite Hev in Heq. rewrite Heq in Hpre.
      rewrite forallb_app in Hpre. apply andb_prop in Hpre.
      destruct Hpre as [_ Hpre]. discriminate Hpre.
    + intros _. rewrite Hev. exact Hpre.
    + intros _ Hok. contradiction.
  - split; [|split].
    + intros before after Heq. rewrite Hev in Heq.
      destruct (setup_position _ _ _ _ Hpre Heq) as (mid & -> & Htail).
      unfold connect_tail in Htail.
      destruct (attach_to_existing cfg).
      * destruct mid as [|? [|? ?]]; discriminate Htail.
      * destruct mid as [|? [|? [|? [|? [|? ?]]]]]; cbn in Htail;
          try discriminate Htail.
        injection Htail as <- <-.
        split; [apply in_or_app; now left|]. split; [reflexivity|].
        split; [|reflexivity].
        unfold none_of. rewrite forallb_app.
        change (fun ev => negb (is_setup ev)) with not_setup.
        now rewrite Hpre.
    + intros Hflag. rewrite Hev. unfold connect_tail, none_of.
      rewrite Hflag, forallb_app.
      change (fun ev => negb (is_setup ev)) with not_setup.
      now rewrite Hpre.
    + intros Hflag _. rewrite Hev, count_events_app.
      unfold connect_tail. rewrite Hflag.
      rewrite (count_events_none is_setup not_setup pre); [reflexivity| |exact Hpre].
      intros ev. unfold not_setup. now destruct (is_setup ev).
Qed.

(** Claim C8 fails as stated: with [attach_to_existing] unset and the
    container already there, [connect] attaches to it, creates nothing,
    and still sets up the initial environment. *)
Lemma setup_runs_after_plain_attach :
  attach_to_existing sample_config = false
  /\ result_of (connect running_engine sample_config 5
                  (fresh_state sample_config)) = Ok tt
  /\ none_of is_run
       (events_of (connect running_engine sample_config 5
                     (fresh_state sample_config))) = true
  /\ container (self (state_of (connect running_engine sample_config 5
                                  (fresh_state sample_config))))
     = Some running_container
  /\ count_events is_setup
       (events_of (connect running_engine sample_config 5
                     (fresh_state sample_config))) = 1%nat.
Proof. repeat split; vm_compute; reflexivity. Qed.

(** ** Numerals and markers *)

Lemma py_int_of_str (z : Z) : py_int (py_str_int z) = Some z.
Proof.
  unfold py_int, py_str_int.
  rewrite NilZero.isi.
  - simpl. now rewrite DecimalZ.of_to.
  - destruct z; simpl; try discriminate.
    intros H. injection H as H. now apply Unsigned.to_uint_nonnil in H.
  - destruct z; simpl; try discriminate.
    intros H. injection H as H. now apply Unsigned.to_uint_nonnil in H.
Qed.

Lemma py_str_int_inj (x y : Z) : py_str_int x = py_str_int y -> x = y.
Proof.
  intros H. apply (f_equal py_int) in H.
  rewrite !py_int_of_str in H. now injection H.
Qed.

Lemma uint_chars (d : Decimal.uint) :
  all_chars numeral_char (NilEmpty.string_of_uint d) = true.
Proof. induction d; simpl; auto. Qed.

Lemma py_str_int_chars (z : Z) : all_chars numeral_char (py_str_int z) = true.
Proof.
  unfold py_str_int, NilZero.string_of_int, NilZero.string_of_uint.
  destruct (Z.to_int z) as [d|d]; destruct d; simpl; try reflexivity;
    apply uint_chars.
Qed.

Lemma string_snoc (l : list ascii) (c : ascii) (s : string) :
  string_of_list_ascii (l ++ [c]) ++ s = string_of_list_ascii l ++ String c s.
Proof. induction l as [|a l IH]; simpl; [reflexivity | now rewrite IH]. Qed.

(** Splitting a numeral at a separator that starts with a letter or a
    slash leaves the numeral whole. *)
Lemma split_aux_numeral (c0 : ascii) (sep s : string) (cur : list ascii) :
  numeral_char c0 = false ->
  all_chars numeral_char s = true ->
  split_aux (String c0 sep) 0 cur s = [string_of_list_ascii (rev cur) ++ s].
Proof.
  intros Hc0. revert cur. induction s as [|c s IH]; intros cur Hs.
  - simpl. f_equal. clear. induction (string_of_list_ascii (rev cur));
      simpl; congruence.
  - simpl in Hs. apply andb_prop in Hs. destruct Hs as [Hc Hs].
    cbn [split_aux String.prefix].
    destruct (ascii_dec c0 c) as [->|Hne]; [congruence|].
    rewrite (IH (c :: cur) Hs). cbn [rev]. now rewrite string_snoc.
Qed.

Lemma split_aux_skip (sep x rest : string) (cur : list ascii) :
  split_aux sep (String.length x) cur (x ++ rest) = split_aux sep 0 cur rest.
Proof. induction x as [|c x IH]; [reflexivity | exact IH]. Qed.

Lemma split_aux_at_sep (c : ascii) (sep rest : string) (cur : list ascii) :
  split_aux (String c sep) 0 cur (String c sep ++ rest)
  = string_of_list_ascii (rev cur) :: split_aux (String c sep) 0 [] rest.
Proof.
  change (String c sep ++ rest) with (String c (sep ++ rest)).
  change (split_aux (String c sep) 0 cur (String c (sep ++ rest)))
    with (if String.prefix (String c sep) (String c (sep ++ rest))
          then string_of_list_ascii (rev cur)
                 :: split_aux (String c sep)
                      (String.length (String c sep) - 1) []
                      (sep ++ rest)
          else split_aux (String c sep) 0 (c :: cur) (sep ++ rest)).
  change (String c (sep ++ rest)) with (String c sep ++ rest).
  rewrite prefix_app. f_equal.
  change (String.length (String c sep) - 1)%nat
    with (String.length sep - 0)%nat.
  rewrite Nat.sub_0_r. apply split_aux_skip.
Qed.

Lemma split_port_marker (z : Z) :
  py_index (py_split ("port=" ++ py_str_int z) "port=") 1
  = Some (py_str_int z).
Proof.
  unfold py_split. rewrite split_aux_at_sep.
  rewrite split_aux_numeral; [reflexivity | reflexivity | apply py_str_int_chars].
Qed.

Lemma split_vscode_marker (z : Z) :
  py_index (py_split ("VSCODE_PORT=" ++ py_str_int z) "VSCODE_PORT=") 1
  = Some (py_str_int z).
Proof.
  unfold py_split. rewrite split_aux_at_sep.
  rewrite split_aux_numeral; [reflexivity | reflexivity | apply py_str_int_chars].
Qed.

Lemma split_aux_tcp (s : string) (cur : list ascii) :
  all_chars numeral_char s = true ->
  split_aux "/tcp" 0 cur (s ++ "/tcp")
  = [string_of_list_ascii (rev cur) ++ s; ""].
Proof.
  revert cur. induction s as [|c s IH]; intros cur Hs.
  - cbn. f_equal. clear. induction (string_of_list_ascii (rev cur));
      simpl; congruence.
  - simpl in Hs. apply andb_prop in Hs. destruct Hs as [Hc Hs].
    change (String c s ++ "/tcp") with (String c (s ++ "/tcp")).
    cbn [split_aux String.prefix].
    destruct (ascii_dec "/" c) as [<-|Hne]; [discriminate Hc|].
    rewrite (IH (c :: cur) Hs). cbn [rev]. now rewrite string_snoc.
Qed.

Lemma split_exposed_port (z : Z) :
  py_index (py_split (py_str_int z ++ "/tcp") "/tcp") 0 = Some (py_str_int z).
Proof.
  unfold py_split. rewrite split_aux_tcp by apply py_str_int_chars.
  reflexivity.
Qed.

Lemma append_inv_tail (a b t : string) : a ++ t = b ++ t -> a = b.
Proof.
  intros H.
  assert (Hl : list_ascii_of_string (a ++ t) = list_ascii_of_string (b ++ t))
    by now rewrite H.
  assert (Happ : forall x y,
             list_ascii_of_string (x ++ y)
             = (list_ascii_of_string x ++ list_ascii_of_string y)%list).
  { intros x y. induction x; simpl; congruence. }
  rewrite !Happ in Hl. apply app_inv_tail in Hl.
  rewrite <- (string_of_list_ascii_of_string a),
          <- (string_of_list_ascii_of_string b). now rewrite Hl.
Qed.

Lemma port_key_eqb (x y : Z) :
  String.eqb (py_str_int x ++ "/tcp") (py_str_int y ++ "/tcp") = (x =? y).
Proof.
  destruct (Z.eqb_spec x y) as [->|Hne].
  - apply String.eqb_refl.
  - apply String.eqb_neq. intros H. apply append_inv_tail in H.
    now apply py_str_int_inj in H.
Qed.

(** ** Reading the markers back (lines 479-496) *)

Lemma read_port_entry (p : Z) (s : state) :
  read_env_marker ("port" ++ "=" ++ py_str_int p) s
  = (Ok tt,
     {| self := set_container_port p (set_host_port p (self s));
        made := made s |}, []).
Proof.
  unfold read_env_marker, startswith.
  change ("port" ++ "=" ++ py_str_int p) with ("port=" ++ py_str_int p).
  rewrite prefix_app, split_port_marker.
  unfold int_of. rewrite py_int_of_str. reflexivity.
Qed.

Lemma read_vscode_entry (v : Z) (s : state) :
  read_env_marker ("VSCODE_PORT" ++ "=" ++ py_str_int v) s
  = (Ok tt, {| self := set_vscode_port v (self s); made := made s |}, []).
Proof.
  unfold read_env_marker, startswith.
  change ("VSCODE_PORT" ++ "=" ++ py_str_int v)
    with ("VSCODE_PORT=" ++ py_str_int v).
  rewrite prefix_app, split_vscode_marker.
  replace (String.prefix "port=" ("VSCODE_PORT=" ++ py_str_int v))
    with false by reflexivity.
  unfold int_of. rewrite py_int_of_str. reflexivity.
Qed.

Lemma read_other_entry (kv : string * string) (s : state) :
  no_marker kv = true ->
  read_env_marker (fst kv ++ "=" ++ snd kv) s = (Ok tt, s, []).
Proof.
  unfold no_marker, read_env_marker. intros H.
  apply andb_prop in H. destruct H as [H1 H2].
  apply negb_true_iff in H1, H2. now rewrite H1, H2.
Qed.

Lemma no_marker_keys (kv : string * string) :
  no_marker kv = true ->
  is_key "port" kv = false /\ is_key "VSCODE_PORT" kv = false.
Proof.
  destruct kv as [k v]. unfold no_marker, is_key, startswith. cbn [fst snd].
  intros H. apply andb_prop in H. destruct H as [H1 H2].
  apply negb_true_iff in H1, H2. split.
  - destruct (String.eqb_spec k "port") as [->|]; [|reflexivity].
    change ("port" ++ "=" ++ v) with ("port=" ++ v) in H1.
    now rewrite prefix_app in H1.
  - destruct (String.eqb_spec k "VSCODE_PORT") as [->|]; [|reflexivity].
    change ("VSCODE_PORT" ++ "=" ++ v) with ("VSCODE_PORT=" ++ v) in H2.
    now rewrite prefix_app in H2.
Qed.

(** The loop over the environment strings: the ports end as the
    markers give them, the rest of the state is as it was. *)
Lemma read_environment (p v : Z) (d : dict string) (s : state) :
  Forall (entry_kind p v) d ->
  exists s',
    for_each (format_environment d) (read_env_marker) s = (Ok tt, s', [])
    /\ made s' = made s
    /\ _host_port (self s')
       = (if existsb (is_key "port") d then p else _host_port (self s))
    /\ _container_port (self s')
       = (if existsb (is_key "port") d then p else _container_port (self s))
    /\ _vscode_port (self s')
       = (if existsb (is_key "VSCODE_PORT") d then v
          else _vscode_port (self s)).
Proof.
  intros Hd. revert s. induction Hd as [|kv d Hkv Hd IH]; intros s.
  - exists s. repeat split.
  - cbn [format_environment map for_each existsb].
    destruct Hkv as [->|[->|Hkv]].
    + cbn [fst snd]. rewrite (bind_run _ _ _ _ _ _ (read_port_entry p s)).
      destruct (IH {| self := set_container_port p (set_host_port p (self s));
                      made := made s |}) as (s' & Hrun & Hm & Hh & Hc & Hv).
      fold (format_environment d). rewrite Hrun.
      exists s'. cbn in *. repeat split; try assumption.
      * rewrite Hh. now destruct (existsb (is_key "port") d).
      * rewrite Hc. now destruct (existsb (is_key "port") d).
    + cbn [fst snd]. rewrite (bind_run _ _ _ _ _ _ (read_vscode_entry v s)).
      destruct (IH {| self := set_vscode_port v (self s); made := made s |})
        as (s' & Hrun & Hm & Hh & Hc & Hv).
      fold (format_environment d). rewrite Hrun.
      exists s'. cbn in *. repeat split; try assumption.
      rewrite Hv. now destruct (existsb (is_key "VSCODE_PORT") d).
    + rewrite (bind_run _ _ _ _ _ _ (read_other_entry kv s Hkv)).
      destruct (IH s) as (s' & Hrun & Hm & Hh & Hc & Hv).
      fold (format_environment d). rewrite Hrun.
      destruct (no_marker_keys kv Hkv) as [K1 K2]. rewrite K1, K2.
      exists s'. cbn in *. repeat split; assumption.
Qed.

Lemma dict_set_kinds (p v : Z) (k x : string) (d : dict string) :
  no_marker (k, x) = true ->
  Forall (entry_kind p v) d -> Forall (entry_kind p v) (dict_set k x d).
Proof.
  intros Hkx Hd. induction Hd as [|[k' v'] d Hkv Hd IH]; cbn [dict_set].
  - constructor; [|constructor]. right. right. exact Hkx.
  - destruct (String.eqb_spec k k') as [<-|Hne]; constructor; auto.
    right. right. exact Hkx.
Qed.

Lemma dict_set_has_key (key k x : string) (d : dict string) :
  existsb (is_key key) d = true ->
  existsb (is_key key) (dict_set k x d) = true.
Proof.
  induction d as [|[k' v'] d IH]; cbn [dict_set existsb]; [discriminate|].
  intros H. destruct (String.eqb k k'); cbn [existsb].
  - exact H.
  - apply orb_prop in H. destruct H as [H|H]; [now rewrite H|].
    rewrite (IH H). apply orb_true_r.
Qed.

Lemma dict_update_kinds (p v : Z) (other d : dict string) :
  forallb no_marker other = true ->
  Forall (entry_kind p v) d ->
  Forall (entry_kind p v) (dict_update d other).
Proof.
  unfold dict_update. revert d.
  induction other as [|[k x] other IH]; intros d Ho Hd; cbn [fold_left].
  - exact Hd.
  - cbn in Ho. apply andb_prop in Ho. destruct Ho as [Hkx Ho].
    apply IH; [exact Ho|]. now apply dict_set_kinds.
Qed.

Lemma dict_update_has_key (key : string) (other d : dict string) :
  existsb (is_key key) d = true ->
  existsb (is_key key) (dict_update d other) = true.
Proof.
  unfold dict_update. revert d.
  induction other as [|[k x] other IH]; intros d Hd; cbn [fold_left].
  - exact Hd.
  - apply IH. now apply dict_set_has_key.
Qed.

Lemma build_environment_kinds (cfg : config) (r : runtime) :
  forallb no_marker (runtime_startup_env_vars cfg) = true ->
  Forall (entry_kind (_container_port r) (_vscode_port r))
         (build_environment cfg r)
  /\ existsb (is_key "port") (build_environment cfg r) = true
  /\ existsb (is_key "VSCODE_PORT") (build_environment cfg r) = true.
Proof.
  intros Hcaller. unfold build_environment.
  split; [|split].
  - apply dict_update_kinds; [exact Hcaller|].
    unfold computed_environment.
    destruct (debug cfg || DEBUG cfg)%bool; cbn [dict_set String.eqb];
      (constructor; [left; reflexivity|]);
      (constructor; [right; right; reflexivity|]);
      (constructor; [right; left; reflexivity|]);
      repeat (constructor; [right; right; reflexivity|]);
      constructor.
  - apply dict_update_has_key. unfold computed_environment.
    destruct (debug cfg || DEBUG cfg)%bool; reflexivity.
  - apply dict_update_has_key. unfold computed_environment.
    destruct (debug cfg || DEBUG cfg)%bool; reflexivity.
Qed.

Lemma read_exposed_port_key (x : Z) (s : state) :
  read_exposed_port (port_key x) s
  = (Ok tt,
     (if (negb (x =? _host_port (self s))
          && negb (x =? _vscode_port (self s)))%bool
      then {| self := set_app_ports (_app_ports (self s) ++ [x])%list (self s);
              made := made s |}
      else s), []).
Proof.
  unfold read_exposed_port, port_key. rewrite split_exposed_port.
  unfold int_of. rewrite py_int_of_str.
  unfold bind, ret, get_self, modify_self. cbv beta iota.
  destruct (negb (x =? _host_port (self s))
            && negb (x =? _vscode_port (self s)))%bool; reflexivity.
Qed.

(** The loop over the exposed ports of a container whose ports are the
    control port, the editor port when the editor is enabled, and two
    application ports, all different. *)
Lemma read_exposed_ports (p v a1 a2 : Z) (with_editor : bool) (s : state) :
  _host_port (self s) = p -> _vscode_port (self s) = v ->
  _app_ports (self s) = [] ->
  a1 <> p -> a1 <> v -> a2 <> p -> a2 <> v -> v <> p ->
  for_each
    (map port_key (p :: (if with_editor then [v] else []) ++ [a1; a2])%list)
    read_exposed_port s
  = (Ok tt, {| self := set_app_ports [a1; a2] (self s); made := made s |}, []).
Proof.
  intros Hp Hv Ha N1 N2 N3 N4 N5.
  apply Z.eqb_neq in N1, N2, N3, N4, N5.
  destruct s as [r c]. destruct r. cbn in Hp, Hv, Ha. subst.
  destruct with_editor; cbn [map app for_each];
    unfold bind; rewrite !read_exposed_port_key; cbn;
    rewrite ?Z.eqb_refl, ?N1, ?N2, ?N3, ?N4, ?N5; cbn;
    rewrite ?read_exposed_port_key; cbn;
    rewrite ?Z.eqb_refl, ?N1, ?N2, ?N3, ?N4, ?N5; cbn;
    rewrite ?read_exposed_port_key; cbn;
    rewrite ?Z.eqb_refl, ?N1, ?N2, ?N3, ?N4, ?N5; cbn;
    rewrite ?read_exposed_port_key; cbn;
    rewrite ?Z.eqb_refl, ?N1, ?N2, ?N3, ?N4, ?N5; reflexivity.
Qed.

Lemma port_mapping_keys (cfg : config) (r : runtime) (a1 a2 : Z) :
  use_host_network cfg = false ->
  _app_ports r = [a1; a2] ->
  _vscode_port r <> _container_port r ->
  a1 <> _container_port r -> a1 <> _vscode_port r ->
  a2 <> _container_port r -> a2 <> _vscode_port r -> a2 <> a1 ->
  option_map dict_keys (build_port_mapping cfg r)
  = Some (map port_key
            (_container_port r
               :: (if vscode_enabled cfg then [_vscode_port r] else [])
               ++ [a1; a2])%list).
Proof.
  intros Hhost Happ N1 N2 N3 N4 N5 N6.
  apply Z.eqb_neq in N1, N2, N3, N4, N5, N6.
  unfold build_port_mapping, port_key. rewrite Hhost, Happ. cbn [negb].
  destruct (vscode_enabled cfg);
    repeat (cbn [fold_left dict_set option_map dict_keys map fst app];
            rewrite ?port_key_eqb, ?N1, ?N2, ?N3, ?N4, ?N5, ?N6);
    reflexivity.
Qed.

(** A container that [_init_container] has created was requested in
    bridge mode with the port map and the environment built from the
    ports the runtime then holds. *)
Lemma init_container_created (E : environment) (cfg : config) (fuel : nat)
    (s s1 : state) (t : list event) :
  draws_in_range E ->
  _init_container E cfg fuel s = (Ok tt, s1, t) ->
  exists r0 spec net,
    ports_allocated r0
    /\ use_host_network cfg = false
    /\ r_ports spec = build_port_mapping cfg r0
    /\ r_environment spec = build_environment cfg r0
    /\ self s1 = set_container (Some (engine_create spec net)) r0.
Proof.
  intros Hdraws. revert s t.
  induction fuel as [|fuel IH]; intros s t Hrun; [discriminate Hrun|].
  destruct (snd (resolved_network E cfg s)) as [eh|] eqn:Heh.
  2:{ destruct (init_container_unbound E cfg fuel s Heh) as (s' & t' & H' & _).
      rewrite H' in Hrun. discriminate Hrun. }
  assert (Hhost : use_host_network cfg = false).
  { unfold resolved_network in Heh.
    destruct (use_host_network cfg); [discriminate Heh | reflexivity]. }
  destruct (prepare_container_spec E cfg s) as (s' & t' & Hprep & Hports & _).
  specialize (Hports Hdraws).
  destruct (close_spec cfg None s') as (tc & Hclose & _).
  destruct (close_spec cfg None
              {| self := self s'; made := bump_run (made s') |})
    as (tc' & Hclose' & _).
  cbn [_init_container] in Hrun. unfold bind at 1 in Hrun.
  rewrite Hprep, Heh in Hrun.
  unfold try_except, run_container, bind, get_self, read_local, ret,
    containers_run in Hrun. cbv beta iota in Hrun.
  destruct (run_reply E (n_run (made s'))) as [net|e].
  - unfold modify_self, log, send_status_message, emit in Hrun.
    destruct (negb (fst (resolved_network E cfg s) =? "host")%string);
      cbv beta iota in Hrun; injection Hrun as <- _;
      exists (self s'),
        {| r_image := runtime_container_image (self s');
           r_network_mode := fst (resolved_network E cfg s);
           r_ports := build_port_mapping cfg (self s');
           r_name := container_name cfg;
           r_environment := build_environment cfg (self s');
           r_extra_hosts := eh;
           r_gpu := enable_gpu cfg |}, net; cbn [self];
      (split; [exact Hports|]); (split; [exact Hhost|]);
      (split; [reflexivity|]); split; reflexivity.
  - destruct (is_APIError e).
    + destruct (contains "409" (exn_str e)).
      * unfold log, stop_all_containers, emit in Hrun. cbv beta iota in Hrun.
        destruct (_init_container E cfg fuel
                    {| self := self s'; made := bump_run (made s') |})
          as [[r2 s2] t2] eqn:Hrec.
        injection Hrun as -> -> _. exact (IH _ _ Hrec).
      * discriminate Hrun.
    + unfold log, emit in Hrun. cbv beta iota in Hrun.
      rewrite Hclose' in Hrun. discriminate Hrun.
Qed.

Lemma ports_allocated_distinct (r : runtime) :
  ports_allocated r ->
  exists a1 a2,
    _app_ports r = [a1; a2]
    /\ _container_port r = _host_port r
    /\ _vscode_port r <> _container_port r
    /\ a1 <> _container_port r /\ a1 <> _vscode_port r
    /\ a2 <> _container_port r /\ a2 <> _vscode_port r /\ a2 <> a1.
Proof.
  unfold ports_allocated, in_range, EXECUTION_SERVER_PORT_RANGE,
    VSCODE_PORT_RANGE, APP_PORT_RANGE_1, APP_PORT_RANGE_2. cbn [fst snd].
  intros (H1 & H2 & H3 & a1 & a2 & H4 & H5 & H6).
  exists a1, a2. rewrite H2. repeat split; try assumption; lia.
Qed.

(** Attaching to a container that shows the environment and the port map
    of a creation request gives back the ports of that request. *)
Lemma attach_reads_back (E : environment) (cfg : config) (r0 : runtime)
    (s : state) (c : Container) :
  ports_allocated r0 ->
  use_host_network cfg = false ->
  forallb no_marker (runtime_startup_env_vars cfg) = true ->
  get_reply E (n_get (made s)) (container_name cfg) = Returns c ->
  c_env c = format_environment (build_environment cfg r0) ->
  c_exposed_ports c = option_map dict_keys (build_port_mapping cfg r0) ->
  exists s' t,
    _attach_to_container E cfg s = (Ok tt, s', t)
    /\ port_assignment (self s') = port_assignment r0
    /\ n_draw (made s') = n_draw (made s).
Proof.
  intros Halloc Hhost Hcaller Hget Henv Hexp.
  destruct (ports_allocated_distinct r0 Halloc)
    as (a1 & a2 & Happ & Hcp & N1 & N2 & N3 & N4 & N5 & N6).
  destruct (build_environment_kinds cfg r0 Hcaller) as (Hkinds & Kp & Kv).
  rewrite (port_mapping_keys cfg r0 a1 a2 Hhost Happ N1 N2 N3 N4 N5 N6) in Hexp.
  unfold _attach_to_container, bind, containers_get.
  rewrite Hget. cbv beta iota. unfold modify_self at 1. cbv beta iota.
  cbn [self made]. rewrite Henv, Hexp.
  assert (Hstart : exists t0,
             (if (c_status c =? "exited")%string
              then emit (EvStart (c_name c)) else ret tt)
               {| self := set_container (Some c) (self s);
                  made := bump_get (made s) |}
             = (Ok tt,
                {| self := set_container (Some c) (self s);
                   made := bump_get (made s) |}, t0)).
  { destruct (c_status c =? "exited")%string; eexists; reflexivity. }
  destruct Hstart as (t0 & ->). cbv beta iota.
  destruct (read_environment (_container_port r0) (_vscode_port r0)
              (build_environment cfg r0)
              {| self := set_container (Some c) (self s);
                 made := bump_get (made s) |} Hkinds)
    as (s1 & Hrun & Hm & Hh & Hc & Hv).
  rewrite Kp in Hh, Hc. rewrite Kv in Hv.
  rewrite Hrun. cbv beta iota. unfold modify_self at 1. cbv beta iota.
  cbn [map app].
  change (port_key (_container_port r0)
            :: map port_key
                 ((if vscode_enabled cfg then [_vscode_port r0] else [])
                    ++ [a1; a2])%list)
    with (map port_key
            (_container_port r0
               :: (if vscode_enabled cfg then [_vscode_port r0] else [])
               ++ [a1; a2])%list).
  rewrite (read_exposed_ports (_container_port r0) (_vscode_port r0) a1 a2
             (vscode_enabled cfg)
             {| self := set_app_ports [] (self s1); made := made s1 |});
    try assumption; try reflexivity.
  cbv beta iota. unfold modify_self, log, emit. cbv beta iota.
  eexists; eexists; split; [reflexivity|].
  unfold port_assignment. cbn. rewrite Hh, Hc, Hv, Hm, Hcp, Happ.
  split; reflexivity.
Qed.

Lemma attach_to_container_draws_nothing (E : environment) (cfg : config) :
  emits_only not_draw (_attach_to_container E cfg).
Proof.
  unfold _attach_to_container, read_env_marker, read_exposed_port, int_of, log.
  repeat first [emits_step | collaborator].
Qed.

(** ** Port Assignment across creation and attachment *)

(** Claim C5, as amended: when the candidates are drawn inside their
    ranges and no caller-supplied startup entry reads as a [port=] or
    [VSCODE_PORT=] marker, a container created by [_init_container],
    shown by the engine with the environment and exposed ports of its
    creation request, is attached to with the Port Assignment of the
    creation: same control port, same editor port, same application
    ports in the same order, and no port is drawn. *)
Theorem attach_reconstructs_port_assignment (E : environment) (cfg : config)
    (fuel : nat) (s s1 : state) (t : list event) :
  draws_in_range E ->
  forallb no_marker (runtime_startup_env_vars cfg) = true ->
  _init_container E cfg fuel s = (Ok tt, s1, t) ->
  exists c,
    container (self s1) = Some c
    /\ forall (E' : environment) (s2 : state) (c' : Container),
         get_reply E' (n_get (made s2)) (container_name cfg) = Returns c' ->
         c_env c' = c_env c ->
         c_exposed_ports c' = c_exposed_ports c ->
         exists s3 t3,
           _attach_to_container E' cfg s2 = (Ok tt, s3, t3)
           /\ port_assignment (self s3) = port_assignment (self s1)
           /\ n_draw (made s3) = n_draw (made s2)
           /\ none_of is_draw t3 = true.
Proof.
  intros Hdraws Hcaller Hrun.
  destruct (init_container_created E cfg fuel s s1 t Hdraws Hrun)
    as (r0 & spec & net & Halloc & Hhost & Hports & Henv & Hself).
  exists (engine_create spec net). split; [now rewrite Hself|].
  intros E' s2 c' Hget Hcenv Hcexp.
  destruct (attach_reads_back E' cfg r0 s2 c' Halloc Hhost Hcaller Hget)
    as (s3 & t3 & Hattach & Hpa & Hnd).
  - rewrite Hcenv. cbn [engine_create c_env]. now rewrite Henv.
  - rewrite Hcexp. cbn [engine_create c_exposed_ports]. now rewrite Hports.
  - exists s3, t3. split; [exact Hattach|].
    split; [rewrite Hpa, Hself; reflexivity|]. split; [exact Hnd|].
    pose proof (attach_to_container_draws_nothing E' cfg s2) as Hev.
    rewrite Hattach in Hev. exact Hev.
Qed.

Lemma sample_engine_draws_in_range : draws_in_range sample_engine.
Proof. intros i lo hi Hle. cbn. lia. Qed.

Lemma attach_reconstructs_port_assignment_witness :
  draws_in_range sample_engine
  /\ forallb no_marker (runtime_startup_env_vars sample_config) = true
  /\ exists s1 t,
       _init_container sample_engine sample_config 1
         (fresh_state sample_config) = (Ok tt, s1, t)
       /\ exists c,
            container (self s1) = Some c
            /\ forall (E' : environment) (s2 : state) (c' : Container),
                 get_reply E' (n_get (made s2)) (container_name sample_config)
                 = Returns c' ->
                 c_env c' = c_env c ->
                 c_exposed_ports c' = c_exposed_ports c ->
                 exists s3 t3,
                   _attach_to_container E' sample_config s2 = (Ok tt, s3, t3)
                   /\ port_assignment (self s3) = port_assignment (self s1)
                   /\ n_draw (made s3) = n_draw (made s2)
                   /\ none_of is_draw t3 = true.
Proof.
  split; [exact sample_engine_draws_in_range|]. split; [reflexivity|].
  assert (Hrun : _init_container sample_engine sample_config 1
                   (fresh_state sample_config)
                 = (Ok tt,
                    state_of (_init_container sample_engine sample_config 1
                                (fresh_state sample_config)),
                    events_of (_init_container sample_engine sample_config 1
                                 (fresh_state sample_config))))
    by (vm_compute; reflexivity).
  eexists. eexists. split; [exact Hrun|].
  exact (attach_reconstructs_port_assignment sample_engine sample_config 1
           _ _ _ sample_engine_draws_in_range eq_refl Hrun).
Defined.

(** Claim C5 fails as stated: with a caller-supplied [port] entry the
    container is created on control port 30001 and attached to with
    control port 1234 and three application ports. *)
Lemma attach_reads_caller_port :
  result_of (_init_container sample_engine overriding_config 1
               (fresh_state overriding_config)) = Ok tt
  /\ port_assignment
       (self (state_of (_init_container sample_engine overriding_config 1
                          (fresh_state overriding_config))))
     = (30001, 30001, 40001, [50001; 55001])
  /\ exists c,
       container
         (self (state_of (_init_container sample_engine overriding_config 1
                            (fresh_state overriding_config)))) = Some c
       /\ result_of (_attach_to_container (engine_showing c)
                       overriding_config (fresh_state overriding_config))
          = Ok tt
       /\ port_assignment
            (self (state_of (_attach_to_container (engine_showing c)
                               overriding_config
                               (fresh_state overriding_config))))
          = (1234, 1234, 40001, [30001; 50001; 55001]).
Proof.
  split; [vm_compute; reflexivity|]. split; [vm_compute; reflexivity|].
  eexists. split; [vm_compute; reflexivity|].
  split; vm_compute; reflexivity.
Qed.

(** ** The environment of every creation request *)

Lemma forallb_not_in (P : event -> bool) (l : list event) (ev : event) :
  forallb P l = true -> P ev = false -> ~ In ev l.
Proof.
  intros Hl Hev Hin. rewrite forallb_forall in Hl.
  rewrite (Hl _ Hin) in Hev. discriminate.
Qed.

Ltac not_among H :=
  exfalso;
  match goal with
  | Hin : In ?ev ?l |- _ => exact (forallb_not_in _ l ev H eq_refl Hin)
  end.

(** Whatever [_init_container] asks the engine to create, on the first
    attempt or on a retry, carries the environment built by lines
    370-387 from the ports the runtime holds at that moment. *)
Lemma creation_request_environment (E : environment) (cfg : config)
    (fuel : nat) (s : state) (spec : run_spec) :
  In (EvRun spec) (events_of (_init_container E cfg fuel s)) ->
  exists r, r_environment spec = build_environment cfg r.
Proof.
  revert s. induction fuel as [|fuel IH]; intros s Hin; [destruct Hin|].
  destruct (prepare_container_spec E cfg s) as (s' & t' & Hprep & _ & _).
  pose proof (prepare_container_emits E cfg s) as Hevs.
  rewrite Hprep in Hevs. unfold events_of in Hevs. cbn [snd] in Hevs.
  destruct (close_spec cfg None s') as (tc & Hclose & Htc).
  destruct (close_spec cfg None
              {| self := self s'; made := bump_run (made s') |})
    as (tc' & Hclose' & Htc').
  cbn [_init_container] in Hin. unfold bind at 1 in Hin.
  rewrite Hprep in Hin.
  unfold try_except, run_container, bind, get_self, read_local, ret, raise,
    containers_run, modify_self, log, send_status_message,
    stop_all_containers, emit in Hin.
  cbv beta iota in Hin.
  destruct (snd (resolved_network E cfg s)) as [eh|].
  - destruct (run_reply E (n_run (made s'))) as [net|e].
    + destruct (negb (fst (resolved_network E cfg s) =? "host")%string);
        unfold events_of in Hin; cbn [snd app] in Hin;
        apply in_app_or in Hin; destruct Hin as [Hin|Hin];
        try (not_among Hevs);
        cbn in Hin; destruct Hin as [Hin|Hin];
        try (injection Hin as <-; exists (self s'); reflexivity);
        repeat (destruct Hin as [Hin|Hin]; try discriminate Hin);
        destruct Hin.
    + cbv beta iota in Hin.
      destruct (is_APIError e); [destruct (contains "409" (exn_str e))|].
      * destruct (_init_container E cfg fuel
                    {| self := self s'; made := bump_run (made s') |})
          as [[r2 s2] t2] eqn:Hrec.
        unfold events_of in Hin. cbn [snd app] in Hin.
        apply in_app_or in Hin. destruct Hin as [Hin|Hin];
          [not_among Hevs|].
        cbn in Hin. destruct Hin as [Hin|[Hin|[Hin|Hin]]];
          try discriminate Hin.
        -- injection Hin as <-. exists (self s'). reflexivity.
        -- apply (IH {| self := self s'; made := bump_run (made s') |}).
           rewrite Hrec. exact Hin.
      * unfold events_of in Hin. cbn [snd app] in Hin.
        apply in_app_or in Hin. destruct Hin as [Hin|Hin];
          [not_among Hevs|].
        cbn in Hin. destruct Hin as [Hin|[Hin|[Hin|Hin]]];
          try discriminate Hin; [|destruct Hin].
        injection Hin as <-. exists (self s'). reflexivity.
      * rewrite Hclose' in Hin.
        unfold events_of in Hin. cbn [snd app] in Hin.
        apply in_app_or in Hin. destruct Hin as [Hin|Hin];
          [not_among Hevs|].
        cbn in Hin. destruct Hin as [Hin|[Hin|[Hin|Hin]]];
          try discriminate Hin.
        -- injection Hin as <-. exists (self s'). reflexivity.
        -- apply in_app_or in Hin. destruct Hin as [Hin|Hin];
             [not_among Htc'
             | destruct Hin].
  - cbn [is_APIError] in Hin. rewrite Hclose in Hin.
    unfold events_of in Hin. cbn [snd app] in Hin.
    apply in_app_or in Hin. destruct Hin as [Hin|Hin];
      [not_among Hevs|].
    cbn in Hin. destruct Hin as [Hin|[Hin|Hin]]; try discriminate Hin.
    apply in_app_or in Hin. destruct Hin as [Hin|Hin];
      [not_among Htc | destruct Hin].
Qed.

(** The container a returning [_init_container] leaves in the runtime
    was asked for in that run, with the environment built from the
    runtime as the run leaves it. *)
Lemma init_container_request (E : environment) (cfg : config) (fuel : nat)
    (s s1 : state) (t : list event) :
  _init_container E cfg fuel s = (Ok tt, s1, t) ->
  exists spec net,
    In (EvRun spec) t
    /\ container (self s1) = Some (engine_create spec net)
    /\ r_environment spec = build_environment cfg (self s1).
Proof.
  revert s t.
  induction fuel as [|fuel IH]; intros s t Hrun; [discriminate Hrun|].
  destruct (snd (resolved_network E cfg s)) as [eh|] eqn:Heh.
  2:{ destruct (init_container_unbound E cfg fuel s Heh) as (s' & t' & H' & _).
      rewrite H' in Hrun. discriminate Hrun. }
  destruct (prepare_container_spec E cfg s) as (s' & t' & Hprep & _ & _).
  destruct (close_spec cfg None
              {| self := self s'; made := bump_run (made s') |})
    as (tc' & Hclose' & _).
  cbn [_init_container] in Hrun. unfold bind at 1 in Hrun.
  rewrite Hprep, Heh in Hrun.
  unfold try_except, run_container, bind, get_self, read_local, ret,
    containers_run in Hrun. cbv beta iota in Hrun.
  destruct (run_reply E (n_run (made s'))) as [net|e].
  - unfold modify_self, log, send_status_message, emit in Hrun.
    destruct (negb (fst (resolved_network E cfg s) =? "host")%string);
      cbv beta iota in Hrun; injection Hrun as <- <-;
      exists {| r_image := runtime_container_image (self s');
                r_network_mode := fst (resolved_network E cfg s);
                r_ports := build_port_mapping cfg (self s');
                r_name := container_name cfg;
                r_environment := build_environment cfg (self s');
                r_extra_hosts := eh;
                r_gpu := enable_gpu cfg |}, net; cbn [self];
      (split; [apply in_or_app; right; left; reflexivity|]);
      split; reflexivity.
  - destruct (is_APIError e).
    + destruct (contains "409" (exn_str e)).
      * unfold log, stop_all_containers, emit in Hrun. cbv beta iota in Hrun.
        destruct (_init_container E cfg fuel
                    {| self := self s'; made := bump_run (made s') |})
          as [[r2 s2] t2] eqn:Hrec.
        injection Hrun as -> -> <-.
        destruct (IH _ _ Hrec) as (spec & net & Hin & Hc & Henv).
        exists spec, net. split; [|split; assumption].
        apply in_or_app. right. cbn [app]. right. right. right. exact Hin.
      * discriminate Hrun.
    + unfold log, emit in Hrun. cbv beta iota in Hrun.
      rewrite Hclose' in Hrun. discriminate Hrun.
Qed.

(** Claim C7, as amended: the container a creation run leaves in the
    runtime was asked for with an environment in which a key the caller
    supplies carries the caller's value, and every other key the value
    computed from the runtime as the run leaves it: [port] the container
    port it holds, [VSCODE_PORT] the editor port it holds,
    [PYTHONUNBUFFERED] and [DOCKER_DEFAULT_PLATFORM] their markers.  In
    every creation request of the run, the refused ones included, the
    caller's entries stand and these four keys are present. *)
Theorem caller_entries_override_computed (E : environment) (cfg : config)
    (fuel : nat) (s s1 : state) (t : list event) :
  dict_wf (runtime_startup_env_vars cfg) ->
  _init_container E cfg fuel s = (Ok tt, s1, t) ->
  (exists spec net,
      In (EvRun spec) t
      /\ container (self s1) = Some (engine_create spec net)
      /\ forall k,
           dict_get k (r_environment spec)
           = match dict_get k (runtime_startup_env_vars cfg) with
             | Some v => Some v
             | None => dict_get k (computed_environment cfg (self s1))
             end)
  /\ dict_get "port" (computed_environment cfg (self s1))
     = Some (py_str_int (_container_port (self s1)))
  /\ dict_get "VSCODE_PORT" (computed_environment cfg (self s1))
     = Some (py_str_int (_vscode_port (self s1)))
  /\ dict_get "PYTHONUNBUFFERED" (computed_environment cfg (self s1))
     = Some "1"
  /\ dict_get "DOCKER_DEFAULT_PLATFORM" (computed_environment cfg (self s1))
     = Some (py_or (platform cfg) "linux/amd64")
  /\ forall spec,
       In (EvRun spec) t ->
       (forall k v,
           dict_get k (runtime_startup_env_vars cfg) = Some v ->
           dict_get k (r_environment spec) = Some v)
       /\ (forall k, In k named_entries ->
             dict_get k (r_environment spec) <> None).
Proof.
  intros Hwf Hrun.
  split; [|split; [|split; [|split; [|split]]]];
    try apply (computed_environment_named cfg (self s1)).
  - destruct (init_container_request E cfg fuel s s1 t Hrun)
      as (spec & net & Hin & Hc & Henv).
    exists spec, net. split; [exact Hin|]. split; [exact Hc|].
    rewrite Henv.
    exact (proj1 (build_environment_lookup cfg (self s1) Hwf)).
  - intros spec Hin.
    assert (Hin' : In (EvRun spec) (events_of (_init_container E cfg fuel s)))
      by (rewrite Hrun; exact Hin).
    destruct (creation_request_environment E cfg fuel s spec Hin') as [r Hr].
    rewrite Hr. destruct (build_environment_lookup cfg r Hwf) as [H1 H2].
    split; [|exact H2].
    intros k v Hk. now rewrite H1, Hk.
Qed.

Lemma caller_entries_override_computed_witness :
  dict_wf (runtime_startup_env_vars sample_config)
  /\ exists s1 t,
       _init_container sample_engine sample_config 1
         (fresh_state sample_config) = (Ok tt, s1, t)
       /\ (exists spec net,
             In (EvRun spec) t
             /\ container (self s1) = Some (engine_create spec net)
             /\ forall k,
                  dict_get k (r_environment spec)
                  = match
                      dict_get k (runtime_startup_env_vars sample_config)
                    with
                    | Some v => Some v
                    | None =>
                        dict_get k (computed_environment sample_config (self s1))
                    end)
       /\ dict_get "port" (computed_environment sample_config (self s1))
          = Some (py_str_int (_container_port (self s1)))
       /\ dict_get "VSCODE_PORT" (computed_environment sample_config (self s1))
          = Some (py_str_int (_vscode_port (self s1))).
Proof.
  assert (Hwf : dict_wf (runtime_startup_env_vars sample_config))
    by constructor.
  split; [exact Hwf|].
  assert (Hrun : _init_container sample_engine sample_config 1
                   (fresh_state sample_config)
                 = (Ok tt,
                    state_of (_init_container sample_engine sample_config 1
                                (fresh_state sample_config)),
                    events_of (_init_container sample_engine sample_config 1
                                 (fresh_state sample_config))))
    by (vm_compute; reflexivity).
  eexists. eexists. split; [exact Hrun|].
  destruct (caller_entries_override_computed sample_engine sample_config 1
              _ _ _ Hwf Hrun) as (H1 & H2 & H3 & _).
  split; [exact H1|]. split; [exact H2 | exact H3].
Defined.

(** Claim C7 fails as stated: a caller-supplied [port] entry replaces the
    computed control-port entry in the creation request, while the
    container is created on control port 30001. *)
Lemma caller_replaces_control_port :
  runtime_startup_env_vars overriding_config = [("port", "1234")]
  /\ _container_port
       (self (state_of (_init_container sample_engine overriding_config 1
                          (fresh_state overriding_config)))) = 30001
  /\ exists spec,
       In (EvRun spec)
          (events_of (_init_container sample_engine overriding_config 1
                        (fresh_state overriding_config)))
       /\ dict_get "port" (r_environment spec) = Some "1234".
Proof.
  split; [reflexivity|]. split; [vm_compute; reflexivity|].
  eexists. split.
  - vm_compute. repeat (first [left; reflexivity | right]).
  - reflexivity.
Qed.

(* ===================================================================== *)
(** * Further properties *)

(** ** The liveness wait (lines 238-277) *)

(** X1: whatever exception leaves a liveness round or the whole wait, it
    is not the engine's [NotFound]: lines 271-274 have replaced it. *)
Lemma wait_attempt_raises_no_not_found (E : environment) (cfg : config)
    (s : state) (e : exn) :
  result_of (wait_attempt E cfg s) = Raise e -> is_NotFound e = false.
Proof.
  unfold wait_attempt, try_except.
  match goal with
  | |- context [match ?x with _ => _ end] =>
      destruct x as [[[[]|e0|] s1] t1]
  end; unfold result_of; cbn [fst]; try discriminate.
  destruct (is_NotFound e0) eqn:He0; unfold raise, bind, log, emit; cbn;
    intros [= <-]; [reflexivity | exact He0].
Qed.

Theorem wait_until_alive_raises_no_not_found (E : environment)
    (cfg : config) (fuel : nat) (s : state) :
  match result_of (_wait_until_alive E cfg fuel s) with
  | Raise e => is_NotFound e = false
  | _ => True
  end.
Proof.
  unfold _wait_until_alive. generalize 1%nat as attempt_number.
  revert s. induction fuel as [|fuel IH]; intros s attempt_number;
    cbn [retry_wait_until_alive]; [exact I|].
  pose proof (wait_attempt_raises_no_not_found E cfg s) as Hround.
  unfold try_except.
  destruct (wait_attempt E cfg s) as [[[[]|e0|] s1] t1];
    unfold result_of in *; cbn [fst] in *; try exact I.
  specialize (Hround e0 eq_refl).
  destruct (negb (_is_retryable_wait_until_alive_error e0)).
  - cbn. exact Hround.
  - unfold bind, should_stop.
    destruct (stop_reply E (n_stop (made s1))).
    + cbn. exact Hround.
    + unfold sleep, emit. cbv beta iota.
      match goal with
      | |- context [retry_wait_until_alive E cfg fuel ?n ?st] =>
          specialize (IH st n);
          destruct (retry_wait_until_alive E cfg fuel n st) as [[r2 s2] t2]
      end.
      cbn in *. exact IH.
Qed.

Lemma wait_exponential_bounds (attempt_number : nat) :
  4 <= wait_exponential attempt_number <= 10.
Proof. unfold wait_exponential. lia. Qed.

Lemma wait_attempt_sleeps_not (E : environment) (cfg : config) :
  emits_only sleep_bounded (wait_attempt E cfg).
Proof.
  unfold wait_attempt, container_logs, log.
  repeat first [emits_step | collaborator].
Qed.

(** X2: every sleep of the liveness wait lasts between 4 and 10
    seconds, whatever the number of rounds. *)
Theorem wait_until_alive_sleeps_bounded (E : environment) (cfg : config)
    (fuel : nat) (s : state) :
  forallb sleep_bounded (events_of (_wait_until_alive E cfg fuel s)) = true.
Proof.
  unfold _wait_until_alive.
  enough (Hall : forall n, emits_only sleep_bounded
                             (retry_wait_until_alive E cfg fuel n))
    by exact (Hall 1%nat s).
  clear s.
  induction fuel as [|fuel IH]; intros n; cbn [retry_wait_until_alive].
  - apply emits_out_of_fuel.
  - apply emits_try_except; [apply wait_attempt_sleeps_not|].
    intros e. destruct (negb (_is_retryable_wait_until_alive_error e));
      [apply emits_raise|].
    apply emits_bind; [collaborator|]. intros [|]; [apply emits_raise|].
    apply emits_bind; [|intros _; apply IH].
    unfold sleep. apply emits_emit. cbn.
    pose proof (wait_exponential_bounds n).
    apply andb_true_intro. split; apply Z.leb_le; lia.
Qed.

Lemma wait_attempt_parts (E : environment) (cfg : config) :
  wait_attempt E cfg
  = try_except
      (c <- containers_get E (container_name cfg) ;; probe_container E cfg c)
      (liveness_handler cfg).
Proof. reflexivity. Qed.

Lemma probe_container_emits (E : environment) (cfg : config) (c : Container) :
  emits_only probe_event (probe_container E cfg c).
Proof.
  unfold probe_container, container_logs, log.
  repeat first [emits_step | collaborator].
Qed.

Lemma liveness_handler_emits (cfg : config) (e : exn) :
  emits_only probe_event (liveness_handler cfg e).
Proof.
  unfold liveness_handler, log.
  repeat first [emits_step | collaborator].
Qed.

Lemma wait_attempt_keeps_stops (E : environment) (cfg : config) :
  keeps stops_checked (wait_attempt E cfg).
Proof.
  unfold wait_attempt, container_logs, log.
  repeat first [keeps_step | collaborator].
Qed.

(** A liveness round looks the container up once, at its start. *)
Lemma wait_attempt_one_lookup (E : environment) (cfg : config) (s : state) :
  exists rest,
    events_of (wait_attempt E cfg s) = EvGet (container_name cfg) :: rest
    /\ forallb probe_event rest = true.
Proof.
  rewrite wait_attempt_parts. unfold try_except, bind at 1, containers_get.
  destruct (get_reply E (n_get (made s)) (container_name cfg)) as [c|e];
    cbv beta iota.
  - match goal with
    | |- context [probe_container E cfg c ?st] =>
        pose proof (probe_container_emits E cfg c st) as Hp;
        destruct (probe_container E cfg c st) as [[[[]|e|] s2] t2]
    end; unfold events_of in *; cbn [snd app] in *.
    + exists t2. split; [reflexivity | exact Hp].
    + match goal with
      | |- context [liveness_handler cfg e ?st] =>
          pose proof (liveness_handler_emits cfg e st) as Hh;
          destruct (liveness_handler cfg e st) as [[r3 s3] t3]
      end. unfold events_of in *. cbn [snd app] in *.
      exists (t2 ++ t3)%list. split; [reflexivity|].
      now rewrite forallb_app, Hp, Hh.
    + exists t2. split; [reflexivity | exact Hp].
  - match goal with
    | |- context [liveness_handler cfg e ?st] =>
        pose proof (liveness_handler_emits cfg e st) as Hh;
        destruct (liveness_handler cfg e st) as [[r3 s3] t3]
    end. unfold events_of in *. cbn [snd app] in *.
    exists t3. split; [reflexivity | exact Hh].
Qed.

Lemma wait_attempt_has_result (E : environment) (cfg : config) (s : state) :
  result_of (wait_attempt E cfg s) <> OutOfFuel.
Proof.
  unfold wait_attempt, container_logs, try_except, bind, containers_get,
    exec_run_ping, check_if_alive, log, emit, raise, ret, modify_self,
    result_of.
  cbv beta iota.
  repeat match goal with
         | |- context [match ?x with _ => _ end] =>
             match x with
             | get_reply _ _ _ => destruct x
             | c_logs _ => destruct x
             | ping_reply _ _ => destruct x
             | alive_reply _ _ => destruct x
             | is_NotFound _ => destruct x
             | String.eqb _ _ => destruct x
             | negb _ => destruct x
             end; cbv beta iota
         | |- context [if ?x then _ else _] =>
             match x with
             | is_NotFound _ => destruct x
             | String.eqb _ _ => destruct x
             | negb _ => destruct x
             end; cbv beta iota
         end;
  cbn; discriminate.
Qed.

Lemma probe_event_is_get (ev : event) :
  probe_event ev = true -> is_get ev = false.
Proof. now destruct ev. Qed.

(** One turn of the retry loop, spelled out. *)
Lemma retry_wait_step (E : environment) (cfg : config) (fuel n : nat)
    (s : state) :
  retry_wait_until_alive E cfg (S fuel) n s
  = match wait_attempt E cfg s with
    | (Raise e, s1, t1) =>
        if negb (_is_retryable_wait_until_alive_error e)
        then (Raise e, s1, t1)
        else if stop_reply E (n_stop (made s1))
        then (Raise e, {| self := self s1; made := bump_stop (made s1) |}, t1)
        else
          (result_of
             (retry_wait_until_alive E cfg fuel (S n)
                {| self := self s1; made := bump_stop (made s1) |}),
           state_of
             (retry_wait_until_alive E cfg fuel (S n)
                {| self := self s1; made := bump_stop (made s1) |}),
           (t1 ++ EvSleep (wait_exponential n)
               :: events_of
                    (retry_wait_until_alive E cfg fuel (S n)
                       {| self := self s1; made := bump_stop (made s1) |}))%list)
    | other => other
    end.
Proof.
  cbn [retry_wait_until_alive]. unfold try_except.
  destruct (wait_attempt E cfg s) as [[[[]|e|] s1] t1]; try reflexivity.
  destruct (negb (_is_retryable_wait_until_alive_error e)).
  - cbn. now rewrite app_nil_r.
  - unfold bind, should_stop, sleep, emit, raise. cbv beta iota.
    destruct (stop_reply E (n_stop (made s1))).
    + cbn. now rewrite app_nil_r.
    + unfold result_of, state_of, events_of.
      destruct (retry_wait_until_alive E cfg fuel (S n)
                  {| self := self s1; made := bump_stop (made s1) |})
        as [[r2 s2] t2]. reflexivity.
Qed.

(** X3: the liveness wait ends: if the stop condition holds at its
    [k]-th coming check, the wait returns or raises within [k + 1]
    rounds, each round being one lookup of the container. *)
Theorem wait_until_alive_stops (E : environment) (cfg : config)
    (k fuel : nat) (s : state) :
  stop_reply E (n_stop (made s) + k) = true ->
  (k < fuel)%nat ->
  result_of (_wait_until_alive E cfg fuel s) <> OutOfFuel
  /\ (count_events is_get (events_of (_wait_until_alive E cfg fuel s))
      <= k + 1)%nat.
Proof.
  unfold _wait_until_alive. replace (k + 1)%nat with (S k) by lia.
  generalize 1%nat as n.
  revert fuel s. induction k as [|k IH]; intros fuel s n Hstop Hfuel;
    (destruct fuel as [|fuel]; [lia|]); rewrite retry_wait_step;
    destruct (wait_attempt_one_lookup E cfg s) as (rest & Hev & Hrest);
    pose proof (wait_attempt_keeps_stops E cfg s) as Hkeep;
    pose proof (wait_attempt_has_result E cfg s) as Hres;
    pose proof (count_events_none is_get probe_event rest
                  probe_event_is_get Hrest) as Hcount;
    destruct (wait_attempt E cfg s) as [[r1 s1] t1];
    unfold events_of, result_of, state_of, stops_checked in Hev, Hkeep, Hres;
    cbn [fst snd] in Hev, Hkeep, Hres; subst t1;
    assert (Hone : count_events is_get (EvGet (container_name cfg) :: rest)
                   = 1%nat)
      by (change (count_events is_get (EvGet (container_name cfg) :: rest))
            with (S (count_events is_get rest)); lia);
    destruct r1 as [[]|e|]; try contradiction; cbv beta iota;
    try (unfold result_of, events_of; cbn [fst snd];
         split; [discriminate | lia]);
    destruct (negb (_is_retryable_wait_until_alive_error e));
    try (unfold result_of, events_of; cbn [fst snd];
         split; [discriminate | lia]);
    rewrite Hkeep.
  - rewrite Nat.add_0_r in Hstop. rewrite Hstop.
    unfold result_of, events_of; cbn [fst snd]. split; [discriminate | lia].
  - destruct (stop_reply E (n_stop (made s))).
    + unfold result_of, events_of; cbn [fst snd]. split; [discriminate | lia].
    + destruct (IH fuel {| self := self s1; made := bump_stop (made s1) |}
                  (S n)) as [Hr Hc].
      * cbn [made n_stop bump_stop]. rewrite Hkeep.
        now replace (S (n_stop (made s)) + k)%nat
          with (n_stop (made s) + S k)%nat by lia.
      * lia.
      * split; [exact Hr|].
        match goal with
        | |- (count_events _ (events_of (_, _, ?t)) <= _)%nat =>
            change (count_events is_get t <= S (S k))%nat
        end.
        rewrite count_events_app, Hone.
        change (EvSleep (wait_exponential n)
                  :: events_of
                       (retry_wait_until_alive E cfg fuel (S n)
                          {| self := self s1; made := bump_stop (made s1) |}))
          with ([EvSleep (wait_exponential n)]
                  ++ events_of
                       (retry_wait_until_alive E cfg fuel (S n)
                          {| self := self s1; made := bump_stop (made s1) |}))%list.
        rewrite count_events_app. cbn [count_events filter is_get List.length].
        lia.
Qed.

Lemma wait_until_alive_stops_witness :
  stop_reply refusing_engine
    (n_stop (made (fresh_state sample_config)) + 2) = true
  /\ (2 < 3)%nat
  /\ result_of (_wait_until_alive refusing_engine sample_config 3
                  (fresh_state sample_config)) <> OutOfFuel
  /\ (count_events is_get
        (events_of (_wait_until_alive refusing_engine sample_config 3
                      (fresh_state sample_config)))
      <= 2 + 1)%nat.
Proof.
  split; [reflexivity|]. split; [lia|].
  apply (wait_until_alive_stops refusing_engine sample_config 2 3
           (fresh_state sample_config)); [reflexivity | lia].
Defined.

(** X4: the liveness wait changes neither the Port Assignment nor the
    container handle of the runtime, however it ends. *)
Theorem wait_until_alive_keeps_assignment (E : environment) (cfg : config)
    (fuel : nat) (s : state) :
  assignment_and_handle (state_of (_wait_until_alive E cfg fuel s))
  = assignment_and_handle s.
Proof.
  unfold _wait_until_alive.
  enough (Hall : forall n,
             keeps assignment_and_handle (retry_wait_until_alive E cfg fuel n))
    by exact (Hall 1%nat s).
  clear s. induction fuel as [|fuel IH]; intros n; cbn [retry_wait_until_alive].
  - apply keeps_out_of_fuel.
  - unfold wait_attempt, container_logs, log, sleep.
    repeat first [apply IH | keeps_step | collaborator].
Qed.


(** ** Creation requests (lines 279-472) *)

Lemma none_of_existsb (p : event -> bool) (l : list event) :
  none_of p l = true -> existsb p l = false.
Proof.
  unfold none_of. induction l as [|ev l IH]; [reflexivity|].
  cbn. intros H. apply andb_prop in H. destruct H as [Hev Hl].
  apply negb_true_iff in Hev. now rewrite Hev, IH.
Qed.

Lemma existsb_none (P Q : event -> bool) (l : list event) :
  (forall ev, Q ev = true -> P ev = false) ->
  forallb Q l = true -> existsb P l = false.
Proof.
  intros H. induction l as [|ev l IH]; [reflexivity|].
  cbn. intros Hl. apply andb_prop in Hl. destruct Hl as [Hev Hl].
  now rewrite (H _ Hev), IH.
Qed.

(** X7: [_init_container] asks the engine for a container only outside
    host-network mode and only when the version query has answered with
    an engine that is not Docker Desktop; in host-network mode, on Docker
    Desktop and on a failed query no creation request is ever made. *)
Theorem creation_request_needs_host_alias (E : environment) (cfg : config)
    (fuel : nat) (s : state) :
  existsb is_run (events_of (_init_container E cfg fuel s)) = true ->
  use_host_network cfg = false
  /\ exists components,
       version_reply E (n_version (made s)) = Returns components
       /\ is_docker_desktop components = false.
Proof.
  destruct fuel as [|fuel]; [discriminate|].
  destruct (snd (resolved_network E cfg s)) as [hosts|] eqn:Hnet.
  - intros _. unfold resolved_network in Hnet.
    destruct (use_host_network cfg); [discriminate Hnet|].
    split; [reflexivity|]. cbn [snd] in Hnet.
    destruct (version_reply E (n_version (made s))) as [components|e];
      [|discriminate Hnet].
    exists components. split; [reflexivity|].
    destruct (is_docker_desktop components); [discriminate Hnet | reflexivity].
  - destruct (init_container_unbound E cfg fuel s Hnet)
      as (s' & t & Hrun & _ & Hnone).
    rewrite Hrun. unfold events_of. cbn [snd].
    rewrite (none_of_existsb _ _ Hnone). discriminate.
Qed.

Lemma creation_request_needs_host_alias_witness :
  existsb is_run
    (events_of (_init_container sample_engine sample_config 1
                  (fresh_state sample_config))) = true
  /\ use_host_network sample_config = false
  /\ exists components,
       version_reply sample_engine
         (n_version (made (fresh_state sample_config))) = Returns components
       /\ is_docker_desktop components = false.
Proof.
  split; [vm_compute; reflexivity|].
  apply (creation_request_needs_host_alias sample_engine sample_config 1
           (fresh_state sample_config)).
  vm_compute; reflexivity.
Defined.

Lemma close_starts (cfg : config) (arg : option bool) (s : state) :
  exists t, close cfg arg s = (Ok tt, s, EvSuperClose :: t).
Proof.
  unfold close, bind, emit, get_self, stop_all_containers, ret.
  destruct (log_streamer (self s)); cbn;
    destruct (keep_runtime_alive cfg || attach_to_existing cfg)%bool;
    eexists; destruct s; reflexivity.
Qed.

Lemma prep_event_not_close (ev : event) :
  prep_event ev = true -> close_event ev = false.
Proof. now destruct ev. Qed.

(** X8: a creation request refused with anything but a name conflict is
    not repeated: the error leaves [_init_container] as it is after one
    request, and the runtime is closed first exactly when the error is
    not an engine API error. *)
Theorem creation_failure_not_retried (E : environment) (cfg : config)
    (fuel : nat) (s : state) (e : exn) (components : list string) :
  use_host_network cfg = false ->
  version_reply E (n_version (made s)) = Returns components ->
  is_docker_desktop components = false ->
  run_reply E (runs_made s) = Throws e ->
  (is_APIError e && contains "409" (exn_str e))%bool = false ->
  result_of (_init_container E cfg (S fuel) s) = Raise e
  /\ count_events is_run (events_of (_init_container E cfg (S fuel) s))
     = 1%nat
  /\ existsb close_event (events_of (_init_container E cfg (S fuel) s))
     = negb (is_APIError e).
Proof.
  intros Hhost Hver Hplain Hrun Hnot.
  enough (Hex : exists s' t,
             _init_container E cfg (S fuel) s = (Raise e, s', t)
             /\ count_events is_run t = 1%nat
             /\ existsb close_event t = negb (is_APIError e)).
  { destruct Hex as (s' & t & -> & H1 & H2).
    unfold result_of, events_of. cbn [fst snd]. auto. }
  destruct (prepare_container_spec E cfg s) as (s1 & t1 & Hprep & _ & _).
  pose proof (prepare_container_keeps_runs E cfg s) as Hruns.
  pose proof (prepare_container_emits E cfg s) as Hevs.
  rewrite Hprep in Hruns, Hevs. unfold state_of, events_of in Hruns, Hevs.
  cbn [fst snd] in Hruns, Hevs.
  assert (Hnet : resolved_network E cfg s
                 = ("bridge", Some [("host.docker.internal", "host-gateway")])).
  { unfold resolved_network. now rewrite Hhost, Hver, Hplain. }
  destruct (close_starts cfg None
              {| self := self s1; made := bump_run (made s1) |})
    as (tc & Hclose).
  destruct (close_spec cfg None
              {| self := self s1; made := bump_run (made s1) |})
    as (tc' & Hclose' & Htc).
  rewrite Hclose in Hclose'. injection Hclose' as <-.
  pose proof (count_events_none is_run close_event _
                (fun ev H => proj1 (negb_true_iff _)
                               (close_event_not_run ev H)) Htc) as Hc.
  cbn [_init_container]. unfold bind at 1. rewrite Hprep, Hnet.
  cbn [fst snd].
  unfold try_except, run_container, bind, get_self, read_local, ret,
    containers_run. unfold runs_made in *. rewrite Hruns, Hrun.
  cbn [fst snd].
  destruct (is_APIError e) eqn:Hapi.
  - cbn [andb] in Hnot. rewrite Hnot.
    unfold log, emit, raise. cbn [fst snd app negb].
    eexists; eexists; split; [reflexivity|].
    rewrite count_events_app, existsb_app.
    rewrite (count_events_none is_run prep_event t1 prep_event_is_run Hevs).
    rewrite (existsb_none close_event prep_event t1 prep_event_not_close Hevs).
    split; reflexivity.
  - unfold log, emit, raise. cbn [fst snd]. rewrite Hclose.
    cbn [fst snd app negb].
    eexists; eexists; split; [reflexivity|].
    rewrite count_events_app, existsb_app.
    rewrite (count_events_none is_run prep_event t1 prep_event_is_run Hevs).
    rewrite (existsb_none close_event prep_event t1 prep_event_not_close Hevs).
    split.
    + rewrite app_nil_r.
      change (count_events is_run
                (EvRun _ :: EvLog "error" :: EvLog "error"
                   :: EvSuperClose :: tc))
        with (S (count_events is_run (EvSuperClose :: tc))).
      now rewrite Hc.
    + reflexivity.
Qed.

Lemma creation_failure_not_retried_witness :
  use_host_network sample_config = false
  /\ version_reply (failing_engine (APIError "500 Server Error"))
       (n_version (made (fresh_state sample_config)))
     = Returns ["Engine"; "containerd"]
  /\ is_docker_desktop ["Engine"; "containerd"] = false
  /\ run_reply (failing_engine (APIError "500 Server Error"))
       (runs_made (fresh_state sample_config))
     = Throws (APIError "500 Server Error")
  /\ (is_APIError (APIError "500 Server Error")
      && contains "409" (exn_str (APIError "500 Server Error")))%bool = false
  /\ result_of (_init_container (failing_engine (APIError "500 Server Error"))
                  sample_config 1 (fresh_state sample_config))
     = Raise (APIError "500 Server Error")
  /\ count_events is_run
       (events_of (_init_container
                     (failing_engine (APIError "500 Server Error"))
                     sample_config 1 (fresh_state sample_config)))
     = 1%nat
  /\ existsb close_event
       (events_of (_init_container
                     (failing_engine (APIError "500 Server Error"))
                     sample_config 1 (fresh_state sample_config)))
     = negb (is_APIError (APIError "500 Server Error")).
Proof.
  do 5 (split; [reflexivity|]).
  apply (creation_failure_not_retried
           (failing_engine (APIError "500 Server Error")) sample_config 0
           (fresh_state sample_config) (APIError "500 Server Error")
           ["Engine"; "containerd"]); reflexivity.
Defined.

(** ** Ports of a new container (lines 308-363) *)

(** X9: with candidates drawn inside the ranges asked for, the ports
    [_init_container] allocates are pairwise different: control port,
    editor port and the two application ports; the container port is the
    host port. *)
Theorem allocation_gives_distinct_ports (E : environment) (s : state) :
  draws_in_range E ->
  _container_port (allocated E s) = _host_port (allocated E s)
  /\ List.length (_app_ports (allocated E s)) = 2%nat
  /\ NoDup (held_ports (allocated E s)).
Proof.
  intros Hdraws. unfold allocated.
  destruct (allocate_ports_spec E s)
    as (p & v & a1 & a2 & c' & t & -> & Hranges).
  destruct (Hranges Hdraws) as (R1 & R2 & R3 & R4).
  unfold in_range, EXECUTION_SERVER_PORT_RANGE, VSCODE_PORT_RANGE,
    APP_PORT_RANGE_1, APP_PORT_RANGE_2 in R1, R2, R3, R4.
  cbn [fst snd] in R1, R2, R3, R4.
  unfold state_of, held_ports. cbn.
  split; [reflexivity|]. split; [reflexivity|].
  repeat constructor; cbn; intuition lia.
Qed.

Lemma allocation_gives_distinct_ports_witness :
  draws_in_range sample_engine
  /\ _container_port (allocated sample_engine (fresh_state sample_config))
  = _host_port (allocated sample_engine (fresh_state sample_config))
  /\ List.length
       (_app_ports (allocated sample_engine (fresh_state sample_config)))
     = 2%nat
  /\ NoDup (held_ports (allocated sample_engine (fresh_state sample_config))).
Proof.
  split; [exact sample_engine_draws_in_range|].
  exact (allocation_gives_distinct_ports sample_engine
           (fresh_state sample_config) sample_engine_draws_in_range).
Defined.

(** Looking a key up after a run of assignments with keys that tell the
    ports apart. *)
Lemma fold_set_lookup {V} (key : Z -> string) (val : Z -> V)
    (l : list Z) (init : dict V) (port : Z) :
  (forall x y, String.eqb (key x) (key y) = (x =? y)) ->
  dict_get (key port)
    (fold_left (fun d q => dict_set (key q) (val q) d) l init)
  = if existsb (Z.eqb port) l then Some (val port)
    else dict_get (key port) init.
Proof.
  intros Hkey. revert init.
  induction l as [|q l IH]; intros init; cbn [fold_left existsb].
  - reflexivity.
  - rewrite IH, dict_get_set, Hkey.
    destruct (existsb (Z.eqb port) l); [now rewrite orb_true_r|].
    rewrite orb_false_r.
    destruct (Z.eqb_spec port q) as [->|_]; reflexivity.
Qed.

(** X10: the port map of a creation request.  In host-network mode there
    is none.  Otherwise every application port is published on itself,
    the editor port too when the editor is enabled, the container port
    is published on the host port, and nothing else has an entry; an
    application port equal to the container port takes its entry. *)
Theorem port_mapping_lookup (cfg : config) (r : runtime) :
  match build_port_mapping cfg r with
  | None => use_host_network cfg = true
  | Some port_mapping =>
      use_host_network cfg = false
      /\ forall port,
           dict_get (port_key port) port_mapping
           = if existsb (Z.eqb port) (_app_ports r)
             then Some (published_on cfg port)
             else if (vscode_enabled cfg && (port =? _vscode_port r))%bool
             then Some (published_on cfg port)
             else if port =? _container_port r
             then Some (published_on cfg (_host_port r))
             else None
  end.
Proof.
  unfold build_port_mapping.
  destruct (use_host_network cfg); cbn [negb]; [reflexivity|].
  split; [reflexivity|]. intros port. cbv zeta.
  pose proof (fun init =>
                fold_set_lookup port_key (published_on cfg) (_app_ports r)
                  init port port_key_eqb) as Hfold.
  unfold port_key, published_on in *. rewrite Hfold.
  destruct (existsb (Z.eqb port) (_app_ports r)); [reflexivity|].
  destruct (vscode_enabled cfg); cbn [andb];
    rewrite ?dict_get_set; cbn [dict_get]; rewrite !port_key_eqb.
  - destruct (Z.eqb_spec port (_vscode_port r)) as [->|_]; reflexivity.
  - reflexivity.
Qed.

(** ** Hosts of the applications (lines 550-557) *)

Lemma web_host_eqb (x y : Z) :
  String.eqb ("http://localhost:" ++ py_str_int x)
             ("http://localhost:" ++ py_str_int y) = (x =? y).
Proof.
  destruct (Z.eqb_spec x y) as [->|Hne].
  - apply String.eqb_refl.
  - apply String.eqb_neq. intros H. cbn in H. injection H as H.
    now apply py_str_int_inj in H.
Qed.

(** X11: [web_hosts] maps the local URL of a port to that port exactly
    for the application ports of the runtime, however often a port
    occurs among them. *)
Theorem web_hosts_lookup (r : runtime) (port : Z) :
  dict_get ("http://localhost:" ++ py_str_int port) (web_hosts r)
  = if existsb (Z.eqb port) (_app_ports r) then Some port else None.
Proof.
  unfold web_hosts.
  exact (fold_set_lookup (fun q => "http://localhost:" ++ py_str_int q)
           (fun q => q) (_app_ports r) [] port web_host_eqb).
Qed.

(** ** Attaching (lines 474-502) *)

Lemma attach_to_container_parts (E : environment) (cfg : config) :
  _attach_to_container E cfg
  = (c <- containers_get E (container_name cfg) ;;
     modify_self (set_container (Some c)) ;;
     (if String.eqb (c_status c) "exited"
      then emit (EvStart (c_name c)) else ret tt) ;;
     read_container_config cfg c).
Proof. reflexivity. Qed.

Lemma read_container_config_emits (cfg : config) (c : Container) :
  emits_only is_log (read_container_config cfg c).
Proof.
  unfold read_container_config, read_env_marker, read_exposed_port, int_of,
    log.
  repeat first [emits_step | collaborator].
Qed.

Lemma is_log_is_start (ev : event) : is_log ev = true -> is_start ev = false.
Proof. now destruct ev. Qed.

Lemma is_log_after_lookup (ev : event) :
  is_log ev = true -> after_lookup ev = true.
Proof. now destruct ev. Qed.

(** X12: an attachment asks the engine for the container once, by the
    name of the session; after that it starts the container when the
    engine shows it as exited, and otherwise only writes to the log. *)
Theorem attach_looks_up_once (E : environment) (cfg : config) (s : state) :
  exists rest,
    events_of (_attach_to_container E cfg s)
    = EvGet (container_name cfg) :: rest
    /\ forallb after_lookup rest = true
    /\ count_events is_start rest
       = match get_reply E (n_get (made s)) (container_name cfg) with
         | Returns c => if String.eqb (c_status c) "exited" then 1%nat
                        else 0%nat
         | Throws _ => 0%nat
         end.
Proof.
  rewrite attach_to_container_parts.
  unfold bind at 1. unfold containers_get at 1.
  destruct (get_reply E (n_get (made s)) (container_name cfg)) as [c|e];
    cbv beta iota zeta.
  2:{ exists []. repeat split. }
  unfold bind, modify_self, emit, ret.
  pose proof (read_container_config_emits cfg c) as Hem.
  destruct (String.eqb (c_status c) "exited"); cbv beta iota;
    match goal with
    | |- context [read_container_config cfg c ?st] =>
        specialize (Hem st);
        destruct (read_container_config cfg c st) as [[r s'] t]
    end;
    unfold events_of in *; cbn [fst snd app] in *.
  - exists (EvStart (c_name c) :: t). split; [reflexivity|].
    split; [cbn; exact (forallb_weaken _ _ _ is_log_after_lookup Hem)|].
    change (count_events is_start (EvStart (c_name c) :: t))
      with (S (count_events is_start t)).
    now rewrite (count_events_none is_start is_log t is_log_is_start Hem).
  - exists t. split; [reflexivity|].
    split; [exact (forallb_weaken _ _ _ is_log_after_lookup Hem)|].
    exact (count_events_none is_start is_log t is_log_is_start Hem).
Qed.

Section Invariants.

Variable I : state -> Prop.

Lemma preserves_bind {A B} (m : M A) (k : A -> M B) :
  preserves I m -> (forall a, preserves I (k a)) -> preserves I (bind m k).
Proof.
  intros Hm Hk s Hs. specialize (Hm s Hs). unfold bind.
  destruct (m s) as [[[a| e|] s1] t1]; unfold state_of in *; cbn in *;
    try exact Hm.
  specialize (Hk a s1 Hm). destruct (k a s1) as [[r s2] t2]. exact Hk.
Qed.

Lemma preserves_for_each {A} (l : list A) (body : A -> M unit) :
  (forall x, preserves I (body x)) -> preserves I (for_each l body).
Proof.
  intros Hb. induction l as [|x l IH]; cbn [for_each].
  - intros s Hs. exact Hs.
  - apply preserves_bind; [apply Hb | intros _; exact IH].
Qed.

Lemma establishes_bind {A B} (m : M A) (k : A -> M B) :
  (forall a, establishes I (k a)) -> establishes I (bind m k).
Proof.
  intros Hk s. unfold bind.
  destruct (m s) as [[[a| e|] s1] t1]; unfold result_of, state_of; cbn;
    try exact Logic.I.
  specialize (Hk a s1). unfold result_of, state_of in Hk.
  destruct (k a s1) as [[r s2] t2]. exact Hk.
Qed.

Lemma establishes_after {A} (f : runtime -> runtime) (post : M A) :
  (forall s, I {| self := f (self s); made := made s |}) ->
  preserves I post ->
  establishes I (modify_self f ;; post).
Proof.
  intros Hf Hpost s. unfold bind, modify_self.
  specialize (Hpost _ (Hf s)). unfold result_of, state_of in *.
  destruct (post _) as [[[a| e|] s2] t2]; cbn in *;
    [exact Hpost | exact Logic.I | exact Logic.I].
Qed.

End Invariants.

Lemma read_exposed_port_apart (exposed_port : string) :
  preserves (fun s => apart_from_named (self s) = true)
    (read_exposed_port exposed_port).
Proof.
  intros s Hs. unfold read_exposed_port, int_of, bind, get_self, state_of.
  destruct (py_index (py_split exposed_port "/tcp") 0) as [text|];
    [|exact Hs].
  destruct (py_int text) as [port|]; [|exact Hs]. cbn.
  destruct (negb (port =? _host_port (self s))
            && negb (port =? _vscode_port (self s)))%bool eqn:Hport;
    [|exact Hs].
  cbn. unfold apart_from_named in *. cbn.
  rewrite forallb_app, Hs. cbn. now rewrite Hport.
Qed.

(** X13: after an attachment that returns, no application port of the
    runtime is its control port or its editor port. *)
Theorem attach_app_ports_apart (E : environment) (cfg : config) (s : state) :
  match result_of (_attach_to_container E cfg s) with
  | Ok _ =>
      apart_from_named (self (state_of (_attach_to_container E cfg s))) = true
  | _ => True
  end.
Proof.
  revert s.
  change (establishes (fun s => apart_from_named (self s) = true)
            (_attach_to_container E cfg)).
  unfold _attach_to_container.
  do 4 (apply establishes_bind; intros ?).
  apply establishes_after; [reflexivity|].
  apply preserves_bind.
  - destruct (c_exposed_ports a) as [[|k ks]|];
      try (intros s Hs; exact Hs).
    apply preserves_for_each. exact read_exposed_port_apart.
  - intros _. intros s Hs. exact Hs.
Qed.

(** ** The attach loop of [connect] (lines 155-200) *)


Lemma attach_event_is_run (ev : event) :
  attach_event ev = true -> is_run ev = false.
Proof. now destruct ev. Qed.

Lemma not_run_is_run (ev : event) :
  not_run ev = true -> is_run ev = false.
Proof. unfold not_run. now destruct (is_run ev). Qed.

Lemma retry_wait_never_runs (E : environment) (cfg : config)
    (fuel attempt_number : nat) :
  emits_only not_run (retry_wait_until_alive E cfg fuel attempt_number).
Proof.
  revert attempt_number.
  induction fuel as [|fuel IH]; intros attempt_number;
    cbn [retry_wait_until_alive].
  - apply emits_out_of_fuel.
  - unfold wait_attempt, container_logs, log, sleep.
    repeat first [apply IH | emits_step | collaborator].
Qed.

Lemma finish_connect_never_runs (E : environment) (cfg : config)
    (fuel : nat) :
  emits_only not_run (finish_connect E cfg fuel).
Proof.
  unfold finish_connect, _wait_until_alive, log, send_status_message,
    setup_initial_env.
  repeat first [apply retry_wait_never_runs | emits_step].
Qed.

Lemma first_run_split (l : list event) :
  existsb is_run l = true ->
  exists pre spec post,
    l = (pre ++ EvRun spec :: post)%list /\ none_of is_run pre = true.
Proof.
  induction l as [|ev l IH]; [discriminate|].
  destruct (is_run ev) eqn:Hev.
  - intros _. destruct ev; try discriminate Hev.
    now exists [], spec, l.
  - cbn [existsb]. rewrite Hev. cbn [orb]. intros Hl.
    destruct (IH Hl) as (pre & spec & post & -> & Hpre).
    exists (ev :: pre), spec, post. split; [reflexivity|].
    unfold none_of in *. cbn [forallb]. now rewrite Hev, Hpre.
Qed.

Lemma filter_none (P Q : event -> bool) (l : list event) :
  (forall ev, Q ev = true -> P ev = false) ->
  forallb Q l = true -> filter P l = [].
Proof.
  intros H. induction l as [|ev l IH]; [reflexivity|].
  cbn. intros Hl. apply andb_prop in Hl. destruct Hl as [Hev Hl].
  now rewrite (H _ Hev), IH.
Qed.

Lemma attach_to_container_shape (E : environment) (cfg : config) (s : state) :
  exists rest,
    events_of (_attach_to_container E cfg s)
    = EvGet (container_name cfg) :: rest
    /\ forallb after_lookup rest = true.
Proof.
  rewrite attach_to_container_parts.
  unfold bind at 1. unfold containers_get at 1.
  destruct (get_reply E (n_get (made s)) (container_name cfg)) as [c|e];
    cbv beta iota zeta.
  2:{ exists []. split; reflexivity. }
  unfold bind, modify_self, emit, ret.
  pose proof (read_container_config_emits cfg c) as Hem.
  destruct (String.eqb (c_status c) "exited"); cbv beta iota;
    match goal with
    | |- context [read_container_config cfg c ?st] =>
        specialize (Hem st);
        destruct (read_container_config cfg c st) as [[r s'] t]
    end;
    unfold events_of in *; cbn [fst snd app] in *.
  - exists (EvStart (c_name c) :: t). split; [reflexivity|].
    cbn. exact (forallb_weaken _ _ _ is_log_after_lookup Hem).
  - exists t. split; [reflexivity|].
    exact (forallb_weaken _ _ _ is_log_after_lookup Hem).
Qed.

Lemma after_lookup_provisioning (ev : event) :
  after_lookup ev = true -> provisioning_event ev = true.
Proof. now destruct ev. Qed.

Lemma provisioning_is_get (ev : event) :
  provisioning_event ev = true -> is_get ev = false.
Proof. now destruct ev. Qed.

Lemma provisioning_is_sleep (ev : event) :
  provisioning_event ev = true -> is_sleep ev = false.
Proof. now destruct ev. Qed.

Lemma after_lookup_is_run (ev : event) :
  after_lookup ev = true -> is_run ev = false.
Proof. now destruct ev. Qed.

Lemma prep_event_provisioning (ev : event) :
  prep_event ev = true -> provisioning_event ev = true.
Proof. now destruct ev. Qed.

Lemma close_event_provisioning (ev : event) :
  close_event ev = true -> provisioning_event ev = true.
Proof. now destruct ev. Qed.

Lemma close_emits_provisioning (cfg : config) (arg : option bool) :
  emits_only provisioning_event (close cfg arg).
Proof.
  intros s. destruct (close_spec cfg arg s) as (t & Hrun & Ht).
  rewrite Hrun. unfold events_of. cbn [snd].
  exact (forallb_weaken _ _ _ close_event_provisioning Ht).
Qed.

Lemma init_container_provisioning (E : environment) (cfg : config)
    (fuel : nat) :
  emits_only provisioning_event (_init_container E cfg fuel).
Proof.
  induction fuel as [|fuel IH]; cbn [_init_container].
  - apply emits_out_of_fuel.
  - apply emits_bind.
    + exact (emits_weaken _ _ _ prep_event_provisioning
               (prepare_container_emits E cfg)).
    + intros [[[nm eh] pm] env].
      unfold run_container, read_local, log, send_status_message,
        stop_all_containers.
      repeat first [apply close_emits_provisioning | apply IH | emits_step
                   | collaborator].
Qed.

Lemma ensure_image_provisioning (E : environment) (cfg : config) :
  emits_only provisioning_event (ensure_image E cfg).
Proof.
  unfold ensure_image, send_status_message.
  repeat first [emits_step | collaborator].
Qed.

Lemma attach_loop_done (E : environment) (cfg : config) (rounds fuel : nat)
    (retry_count : Z) :
  max_retries <= retry_count ->
  attach_loop E cfg rounds fuel retry_count = ret tt.
Proof.
  intros Hdone. destruct rounds; cbn [attach_loop];
    replace (retry_count <? max_retries) with false
      by (symmetry; apply Z.ltb_ge; exact Hdone);
    reflexivity.
Qed.

(** A creation request in the attach loop comes after as many lookups as
    the loop had attempts left, with the sleeps of the passes between
    them and nothing else that looks up or sleeps. *)
Lemma attach_loop_creates_in_order (E : environment) (cfg : config)
    (rounds fuel : nat) (retry_count : Z) (s : state) :
  0 <= retry_count ->
  existsb is_run (events_of (attach_loop E cfg rounds fuel retry_count s))
  = true ->
  attach_to_existing cfg = false
  /\ exists pre spec post,
       events_of (attach_loop E cfg rounds fuel retry_count s)
       = (pre ++ EvRun spec :: post)%list
       /\ none_of is_run pre = true
       /\ count_events is_get pre = Z.to_nat (max_retries - retry_count)
       /\ filter is_sleep pre = backoff_sleeps retry_count.
Proof.
  revert retry_count s.
  induction rounds as [|rounds IH]; intros retry_count s Hpos;
    cbn [attach_loop]; destruct (retry_count <? max_retries) eqn:Hlt;
    try discriminate.
  apply Z.ltb_lt in Hlt.
  destruct (attach_to_container_shape E cfg s) as (rest & Hshape & Hrest).
  pose proof (forallb_weaken _ _ _ after_lookup_provisioning Hrest) as Hprov.
  assert (Hnorun : existsb is_run rest = false)
    by exact (existsb_none is_run after_lookup rest after_lookup_is_run Hrest).
  unfold try_except.
  destruct (_attach_to_container E cfg s) as [[[[]|e|] s1] t1];
    unfold events_of in Hshape |- *; cbn [fst snd] in Hshape |- *; subst t1;
    try (cbn [existsb is_run orb]; rewrite Hnorun; discriminate).
  destruct (is_NotFound e || is_ConnectTimeout e)%bool.
  2:{ unfold raise. cbn [snd]. rewrite app_nil_r.
      cbn [existsb is_run orb]. rewrite Hnorun. discriminate. }
  destruct (attach_to_existing cfg) eqn:Hattach.
  { rewrite orb_true_r. unfold bind, log, emit, raise. cbn [fst snd app].
    cbn [existsb is_run orb]. rewrite existsb_app, Hnorun.
    discriminate. }
  rewrite orb_false_r.
  destruct (retry_count + 1 >=? max_retries) eqn:Hlast.
  - rewrite Z.geb_leb in Hlast. apply Z.leb_le in Hlast.
    rewrite (attach_loop_done E cfg rounds fuel (retry_count + 1) Hlast).
    match goal with
    | |- context [@bind ?A ?B ?m ?k s1] =>
        assert (Hem : emits_only provisioning_event (@bind A B m k));
          [ unfold log;
            repeat first [apply ensure_image_provisioning
                         | apply init_container_provisioning | emits_step]
          | specialize (Hem s1);
            destruct (@bind A B m k s1) as [[r2 s2] t2] ]
    end.
    unfold events_of in Hem. cbn [fst snd] in Hem |- *.
    cbn [app existsb is_run orb]. rewrite existsb_app, Hnorun. cbn [orb].
    intros Hrun. split; [reflexivity|].
    destruct (first_run_split t2 Hrun) as (pre & spec & post & -> & Hpre).
    rewrite forallb_app in Hem. apply andb_prop in Hem.
    destruct Hem as [Hem _].
    exists (EvGet (container_name cfg) :: rest ++ pre)%list, spec, post.
    split; [cbn [app]; now rewrite <- app_assoc|].
    split.
    { unfold none_of in *. cbn [forallb is_run negb andb].
      rewrite forallb_app, Hpre, andb_true_r.
      clear - Hnorun. induction rest as [|ev rest IH]; [reflexivity|].
      cbn in Hnorun |- *. apply orb_false_iff in Hnorun.
      destruct Hnorun as [-> Hn]. cbn. now apply IH. }
    split.
    { change (count_events is_get
                (EvGet (container_name cfg) :: rest ++ pre)%list)
        with (S (count_events is_get (rest ++ pre)%list)).
      rewrite count_events_app.
      rewrite (count_events_none is_get provisioning_event rest
                 provisioning_is_get Hprov).
      rewrite (count_events_none is_get provisioning_event pre
                 provisioning_is_get Hem).
      unfold max_retries in *. lia. }
    cbn [filter is_sleep]. rewrite filter_app.
    rewrite (filter_none is_sleep provisioning_event rest
               provisioning_is_sleep Hprov).
    rewrite (filter_none is_sleep provisioning_event pre
               provisioning_is_sleep Hem).
    unfold backoff_sleeps, max_retries in *.
    replace (retry_count <? 1) with false by (symmetry; apply Z.ltb_ge; lia).
    replace (retry_count <? 2) with false by (symmetry; apply Z.ltb_ge; lia).
    reflexivity.
  - rewrite Z.geb_leb in Hlast. apply Z.leb_gt in Hlast.
    specialize (IH (retry_count + 1) s1 ltac:(lia)).
    assert (Hstep :
              (log "warning" ;; sleep (2 ^ (retry_count + 1)) ;;
               attach_loop E cfg rounds fuel (retry_count + 1)) s1
              = (result_of (attach_loop E cfg rounds fuel (retry_count + 1) s1),
                 state_of (attach_loop E cfg rounds fuel (retry_count + 1) s1),
                 EvLog "warning" :: EvSleep (2 ^ (retry_count + 1))
                   :: events_of
                        (attach_loop E cfg rounds fuel (retry_count + 1) s1))).
    { unfold bind, log, sleep, emit, result_of, state_of, events_of.
      destruct (attach_loop E cfg rounds fuel (retry_count + 1) s1)
        as [[r2 s2] t2]. reflexivity. }
    rewrite Hstep. clear Hstep.
    destruct (attach_loop E cfg rounds fuel (retry_count + 1) s1)
      as [[r2 s2] t2].
    unfold events_of, result_of, state_of in IH |- *.
    cbn [fst snd app] in IH |- *.
    cbn [existsb is_run orb]. rewrite existsb_app, Hnorun.
    cbn [existsb is_run orb]. intros Hrun.
    destruct (IH Hrun) as (_ & pre & spec & post & -> & Hpre & Hgets & Hsleeps).
    split; [reflexivity|].
    exists (EvGet (container_name cfg)
              :: rest ++ EvLog "warning" :: EvSleep (2 ^ (retry_count + 1))
              :: pre)%list, spec, post.
    split; [cbn [app]; rewrite <- app_assoc; reflexivity|].
    split.
    { unfold none_of in *. cbn [forallb is_run negb andb].
      rewrite forallb_app. cbn [forallb is_run negb andb]. rewrite Hpre.
      rewrite andb_true_r.
      clear - Hnorun. induction rest as [|ev rest IH]; [reflexivity|].
      cbn in Hnorun |- *. apply orb_false_iff in Hnorun.
      destruct Hnorun as [-> Hn]. cbn. now apply IH. }
    split.
    { change (count_events is_get
                (EvGet (container_name cfg)
                   :: rest ++ EvLog "warning"
                   :: EvSleep (2 ^ (retry_count + 1)) :: pre)%list)
        with (S (count_events is_get
                   (rest ++ EvLog "warning"
                      :: EvSleep (2 ^ (retry_count + 1)) :: pre)%list)).
      rewrite count_events_app.
      rewrite (count_events_none is_get provisioning_event rest
                 provisioning_is_get Hprov).
      change (count_events is_get
                (EvLog "warning" :: EvSleep (2 ^ (retry_count + 1)) :: pre))
        with (count_events is_get pre).
      rewrite Hgets. unfold max_retries in *. lia. }
    cbn [filter is_sleep]. rewrite filter_app.
    rewrite (filter_none is_sleep provisioning_event rest
               provisioning_is_sleep Hprov).
    cbn [filter is_sleep app]. rewrite Hsleeps.
    unfold backoff_sleeps, max_retries in *.
    assert (Hcase : retry_count = 0 \/ retry_count = 1) by lia.
    destruct Hcase as [-> | ->]; reflexivity.
Qed.

Lemma connect_events (E : environment) (cfg : config) (fuel : nat)
    (s : state) :
  exists tail,
    events_of (connect E cfg fuel s)
    = (EvStatus "STATUS$STARTING_RUNTIME"
         :: events_of (attach_loop E cfg 3 fuel 0 s) ++ tail)%list
    /\ existsb is_run tail = false.
Proof.
  unfold connect, send_status_message, bind, emit. cbv beta iota.
  destruct (attach_loop E cfg 3 fuel 0 s) as [[[[]|e|] s1] t1].
  - pose proof (existsb_none is_run not_run _ not_run_is_run
                  (finish_connect_never_runs E cfg fuel s1)) as Hfin.
    destruct (finish_connect E cfg fuel s1) as [[r2 s2] t2].
    exists t2. split; [reflexivity | exact Hfin].
  - exists []. unfold events_of. cbn [snd app]. now rewrite app_nil_r.
  - exists []. unfold events_of. cbn [snd app]. now rewrite app_nil_r.
Qed.

(** X14: a creation request of [connect] is made outside attach-only
    mode only, and the first one comes after exactly three lookups of
    the container, with sleeps of 2 and 4 seconds between them and no
    other sleep. *)
Theorem connect_creates_after_three_lookups (E : environment)
    (cfg : config) (fuel : nat) (s : state) :
  existsb is_run (events_of (connect E cfg fuel s)) = true ->
  attach_to_existing cfg = false
  /\ exists pre spec post,
       events_of (connect E cfg fuel s) = (pre ++ EvRun spec :: post)%list
       /\ none_of is_run pre = true
       /\ count_events is_get pre = 3%nat
       /\ filter is_sleep pre = [EvSleep 2; EvSleep 4].
Proof.
  destruct (connect_events E cfg fuel s) as (tail & -> & Htail).
  cbn [existsb is_run orb]. rewrite existsb_app, Htail, orb_false_r.
  intros Hrun.
  destruct (attach_loop_creates_in_order E cfg 3 fuel 0 s ltac:(lia) Hrun)
    as (Hattach & pre & spec & post & -> & Hpre & Hgets & Hsleeps).
  split; [exact Hattach|].
  exists (EvStatus "STATUS$STARTING_RUNTIME" :: pre), spec,
    (post ++ tail)%list.
  split; [cbn [app]; now rewrite <- app_assoc|].
  split; [exact Hpre|]. split; [exact Hgets | exact Hsleeps].
Qed.

Lemma connect_creates_after_three_lookups_witness :
  existsb is_run
    (events_of (connect sample_engine sample_config 5
                  (fresh_state sample_config))) = true
  /\ attach_to_existing sample_config = false
  /\ exists pre spec post,
       events_of (connect sample_engine sample_config 5
                    (fresh_state sample_config))
       = (pre ++ EvRun spec :: post)%list
       /\ none_of is_run pre = true
       /\ count_events is_get pre = 3%nat
       /\ filter is_sleep pre = [EvSleep 2; EvSleep 4].
Proof.
  split; [vm_compute; reflexivity|].
  apply (connect_creates_after_three_lookups sample_engine sample_config 5
           (fresh_state sample_config)).
  vm_compute; reflexivity.
Defined.

Lemma attach_fails_at_lookup (E : environment) (cfg : config) (s : state)
    (e : exn) :
  get_reply E (n_get (made s)) (container_name cfg) = Throws e ->
  _attach_to_container E cfg s
  = (Raise e, {| self := self s; made := bump_get (made s) |},
     [EvGet (container_name cfg)]).
Proof.
  intros Hget. rewrite attach_to_container_parts.
  unfold bind at 1. unfold containers_get at 1. now rewrite Hget.
Qed.

Lemma lookup_fails_inv (E : environment) (cfg : config) (i : nat) :
  lookup_fails E cfg i = true ->
  exists e, get_reply E i (container_name cfg) = Throws e
            /\ retried_by_connect e = true.
Proof.
  unfold lookup_fails.
  destruct (get_reply E i (container_name cfg)) as [c|e]; [discriminate|].
  intros H. now exists e.
Qed.

(** A pass of the attach loop whose lookup fails, with passes left: the
    loop logs, sleeps [2 ^ retry_count] seconds and goes on. *)
Lemma attach_loop_retry (E : environment) (cfg : config) (rounds fuel : nat)
    (retry_count : Z) (s : state) :
  attach_to_existing cfg = false ->
  lookup_fails E cfg (n_get (made s)) = true ->
  retry_count + 1 < max_retries ->
  attach_loop E cfg (S rounds) fuel retry_count s
  = (result_of (attach_loop E cfg rounds fuel (retry_count + 1)
                  {| self := self s; made := bump_get (made s) |}),
     state_of (attach_loop E cfg rounds fuel (retry_count + 1)
                 {| self := self s; made := bump_get (made s) |}),
     EvGet (container_name cfg) :: EvLog "warning"
       :: EvSleep (2 ^ (retry_count + 1))
       :: events_of (attach_loop E cfg rounds fuel (retry_count + 1)
                       {| self := self s; made := bump_get (made s) |})).
Proof.
  intros Hattach Hfails Hlt.
  destruct (lookup_fails_inv E cfg _ Hfails) as (e & Hget & Hretry).
  cbn [attach_loop].
  replace (retry_count <? max_retries) with true
    by (symmetry; apply Z.ltb_lt; lia).
  unfold try_except. rewrite (attach_fails_at_lookup E cfg s e Hget).
  fold (retried_by_connect e). rewrite Hretry, Hattach, orb_false_r.
  replace (retry_count + 1 >=? max_retries) with false
    by (symmetry; rewrite Z.geb_leb; apply Z.leb_gt; lia).
  unfold bind, log, sleep, emit, result_of, state_of, events_of.
  destruct (attach_loop E cfg rounds fuel (retry_count + 1)
              {| self := self s; made := bump_get (made s) |})
    as [[r2 s2] t2]. reflexivity.
Qed.

(** X15: with no runtime image and no base image, a [connect] that finds
    no container gives up with a [ValueError] after three lookups, having
    slept 2 and 4 seconds between them, built nothing and created
    nothing. *)
Theorem connect_without_image (E : environment) (cfg : config) (fuel : nat)
    (s : state) :
  attach_to_existing cfg = false ->
  runtime_container_image (self s) = None ->
  base_container_image cfg = None ->
  lookup_fails E cfg (n_get (made s)) = true ->
  lookup_fails E cfg (n_get (made s) + 1) = true ->
  lookup_fails E cfg (n_get (made s) + 2) = true ->
  result_of (connect E cfg fuel s)
  = Raise (ValueError
             "Neither runtime container image nor base container image is set")
  /\ events_of (connect E cfg fuel s)
     = [EvStatus "STATUS$STARTING_RUNTIME";
        EvGet (container_name cfg); EvLog "warning"; EvSleep 2;
        EvGet (container_name cfg); EvLog "warning"; EvSleep 4;
        EvGet (container_name cfg)].
Proof.
  intros Hattach Himage Hbase H0 H1 H2.
  enough (Hex : exists s',
             connect E cfg fuel s
             = (Raise (ValueError
                         "Neither runtime container image nor base container image is set"),
                s',
                [EvStatus "STATUS$STARTING_RUNTIME";
                 EvGet (container_name cfg); EvLog "warning"; EvSleep 2;
                 EvGet (container_name cfg); EvLog "warning"; EvSleep 4;
                 EvGet (container_name cfg)])).
  { destruct Hex as (s' & ->). split; reflexivity. }
  rewrite Nat.add_1_r in H1.
  replace (n_get (made s) + 2)%nat with (S (S (n_get (made s)))) in H2 by lia.
  destruct (lookup_fails_inv E cfg _ H2) as (e & Hget & Hretry).
  assert (Hlast : exists s',
             attach_loop E cfg 1 fuel (0 + 1 + 1)
               {| self := self s; made := bump_get (bump_get (made s)) |}
             = (Raise (ValueError
                         "Neither runtime container image nor base container image is set"),
                s', [EvGet (container_name cfg)])).
  { cbn [attach_loop]. change (0 + 1 + 1 <? max_retries) with true.
    cbv beta iota. unfold try_except.
    rewrite (attach_fails_at_lookup E cfg
               {| self := self s; made := bump_get (bump_get (made s)) |}
               e Hget).
    fold (retried_by_connect e). rewrite Hretry, Hattach.
    change (0 + 1 + 1 + 1 >=? max_retries) with true. cbn [orb].
    unfold ensure_image. unfold bind, get_self, ret. cbv beta iota.
    cbn [self made]. rewrite Himage, Hbase. eexists. reflexivity. }
  destruct Hlast as (s' & Hlast).
  exists s'.
  unfold connect, send_status_message, bind, emit. cbv beta iota.
  rewrite (attach_loop_retry E cfg 2 fuel 0 s Hattach H0)
    by (unfold max_retries; lia).
  rewrite (attach_loop_retry E cfg 1 fuel (0 + 1)
             {| self := self s; made := bump_get (made s) |} Hattach H1)
    by (unfold max_retries; lia).
  cbn [self made]. rewrite Hlast. reflexivity.
Qed.

Lemma connect_without_image_witness :
  attach_to_existing imageless_config = false
  /\ runtime_container_image (self imageless_state) = None
  /\ base_container_image imageless_config = None
  /\ lookup_fails sample_engine imageless_config
       (n_get (made imageless_state)) = true
  /\ lookup_fails sample_engine imageless_config
       (n_get (made imageless_state) + 1) = true
  /\ lookup_fails sample_engine imageless_config
       (n_get (made imageless_state) + 2) = true
  /\ result_of (connect sample_engine imageless_config 5 imageless_state)
     = Raise (ValueError
                "Neither runtime container image nor base container image is set")
  /\ events_of (connect sample_engine imageless_config 5 imageless_state)
     = [EvStatus "STATUS$STARTING_RUNTIME";
        EvGet (container_name imageless_config); EvLog "warning"; EvSleep 2;
        EvGet (container_name imageless_config); EvLog "warning"; EvSleep 4;
        EvGet (container_name imageless_config)].
Proof.
  do 6 (split; [reflexivity|]).
  apply (connect_without_image sample_engine imageless_config 5
           imageless_state); reflexivity.
Defined.

(** ** The initialization flag (line 225) *)

Lemma find_port_loop_keeps_flag (E : environment) (n : nat)
    (port_range : Z * Z) (port : Z) :
  keeps initialized (find_port_loop E n port_range port).
Proof.
  revert port. induction n as [|n IH]; intros port; simpl.
  - apply keeps_ret.
  - unfold _is_port_in_use_docker.
    repeat first [apply IH | keeps_step | collaborator].
Qed.

Lemma close_keeps_flag (cfg : config) (arg : option bool) :
  keeps initialized (close cfg arg).
Proof.
  intros s. destruct (close_spec cfg arg s) as (t & -> & _). reflexivity.
Qed.

Lemma init_container_keeps_flag (E : environment) (cfg : config)
    (fuel : nat) :
  keeps initialized (_init_container E cfg fuel).
Proof.
  induction fuel as [|fuel IH]; cbn [_init_container].
  - apply keeps_out_of_fuel.
  - unfold prepare_container, resolve_network, allocate_ports,
      choose_api_url, _find_available_port, run_container, read_local, log,
      send_status_message.
    repeat first [apply find_port_loop_keeps_flag | apply close_keeps_flag
                 | apply IH | keeps_step | collaborator].
Qed.

Lemma attach_to_container_keeps_flag (E : environment) (cfg : config) :
  keeps initialized (_attach_to_container E cfg).
Proof.
  unfold _attach_to_container, read_env_marker, read_exposed_port, int_of, log.
  repeat first [keeps_step | collaborator].
Qed.

Lemma attach_loop_keeps_flag (E : environment) (cfg : config)
    (rounds fuel : nat) (retry_count : Z) :
  keeps initialized (attach_loop E cfg rounds fuel retry_count).
Proof.
  revert retry_count. induction rounds as [|rounds IH]; intros retry_count;
    cbn [attach_loop]; destruct (retry_count <? max_retries).
  - apply keeps_out_of_fuel.
  - apply keeps_ret.
  - unfold ensure_image, log, sleep, send_status_message.
    repeat first [apply attach_to_container_keeps_flag
                 | apply init_container_keeps_flag | apply IH
                 | keeps_step | collaborator].
  - apply keeps_ret.
Qed.

Lemma retry_wait_keeps_flag (E : environment) (cfg : config)
    (fuel attempt_number : nat) :
  keeps initialized (retry_wait_until_alive E cfg fuel attempt_number).
Proof.
  revert attempt_number.
  induction fuel as [|fuel IH]; intros attempt_number;
    cbn [retry_wait_until_alive].
  - apply keeps_out_of_fuel.
  - unfold wait_attempt, container_logs, log, sleep.
    repeat first [apply IH | keeps_step | collaborator].
Qed.

Lemma sets_flag_bind {A B} (m : M A) (k : A -> M B) :
  keeps initialized m -> (forall a, sets_flag_on_return (k a)) ->
  sets_flag_on_return (bind m k).
Proof.
  intros Hm Hk s. specialize (Hm s). unfold bind.
  destruct (m s) as [[[a| e|] s1] t1]; unfold state_of, result_of in *;
    cbn [fst snd] in *; try exact Hm.
  specialize (Hk a s1). unfold state_of, result_of in Hk.
  destruct (k a s1) as [[r s2] t2]. cbn [fst snd] in *.
  rewrite Hk. now rewrite Hm.
Qed.

(** X16: [connect] sets [_runtime_initialized] exactly when it returns;
    a [connect] that raises leaves the flag as it found it. *)
Theorem connect_sets_flag_on_return (E : environment) (cfg : config)
    (fuel : nat) (s : state) :
  initialized (state_of (connect E cfg fuel s))
  = match result_of (connect E cfg fuel s) with
    | Ok _ => true
    | _ => initialized s
    end.
Proof.
  revert s. change (sets_flag_on_return (connect E cfg fuel)).
  unfold connect, finish_connect, _wait_until_alive, send_status_message,
    log, setup_initial_env.
  repeat first
    [ apply sets_flag_bind; [|intro]
    | apply attach_loop_keeps_flag
    | apply retry_wait_keeps_flag
    | keeps_step
    | (intros ?; reflexivity) ].
Qed.

(** ** The docker client of the process, further (lines 227-236, 585-597) *)

Lemma init_docker_client_one_client (H : docker_host) (p : process) :
  one_client p -> one_client (snd (_init_docker_client H p)).
Proof.
  unfold one_client, _init_docker_client.
  destruct (cached_client p) as [c|] eqn:Hc; cbn [snd]; [now rewrite Hc|].
  intros Hmade.
  destruct (from_env_reply H (from_env_calls p)); cbn; [exact Hmade|].
  rewrite Hmade. split; reflexivity.
Qed.

Lemma delete_one_client (H : docker_host) (conversation_id : string)
    (p : process) :
  one_client p -> one_client (snd (delete H conversation_id p)).
Proof.
  intros Hp. pose proof (init_docker_client_one_client H p Hp) as Hinit.
  unfold delete.
  destruct (_init_docker_client H p) as [[c|ex] p1]; cbn [snd] in *;
    [|exact Hinit].
  destruct (lookup_reply H (engine_calls p1)); exact Hinit.
Qed.

(** X17: whatever runtimes a process constructs and whatever it deletes,
    from its start on, it makes at most one docker client, and the client
    it holds is that first one. *)
Theorem one_client_per_process (H : docker_host) (ops : list process_op) :
  match cached_client (run_ops H ops new_process) with
  | Some c => c = 0%nat /\ clients_made (run_ops H ops new_process) = 1%nat
  | None => clients_made (run_ops H ops new_process) = 0%nat
  end.
Proof.
  change (one_client (run_ops H ops new_process)).
  assert (Hstart : one_client new_process) by reflexivity.
  revert Hstart. generalize new_process as p.
  unfold run_ops. induction ops as [|op ops IH]; intros p Hp; [exact Hp|].
  cbn [fold_left]. apply IH.
  destruct op as [|conversation_id]; cbn [run_op].
  - now apply init_docker_client_one_client.
  - now apply delete_one_client.
Qed.

(** X18: with a client at hand [delete] never lets an engine API error
    out, not-found included, whether the lookup or the removal raised
    it, and it asks for the removal only after a lookup that succeeded;
    without a client the error of [docker.from_env] leaves [delete] and
    nothing is closed. *)
Theorem delete_swallows_engine_errors (H : docker_host)
    (conversation_id : string) (p : process) :
  match _init_docker_client H p with
  | (Returns _, p1) =>
      match fst (delete H conversation_id p) with
      | Some e => is_APIError e = false
      | None => True
      end
      /\ engine_calls (snd (delete H conversation_id p))
         = match lookup_reply H (engine_calls p1) with
           | Some _ => S (engine_calls p1)
           | None => S (S (engine_calls p1))
           end
  | (Throws ex, p1) =>
      fst (delete H conversation_id p) = Some ex
      /\ closed_clients (snd (delete H conversation_id p)) = closed_clients p
      /\ engine_calls (snd (delete H conversation_id p)) = engine_calls p
  end.
Proof.
  unfold delete.
  destruct (_init_docker_client H p) as [[c|ex] p1] eqn:Hinit.
  - destruct (lookup_reply H (engine_calls p1)) as [e|]; cbn.
    + split; [|reflexivity]. destruct (is_APIError e) eqn:He; [exact I|exact He].
    + split; [|reflexivity].
      destruct (remove_reply H (S (engine_calls p1))) as [e|]; [|exact I].
      destruct (is_APIError e) eqn:He; [exact I|exact He].
  - cbn. split; [reflexivity|].
    revert Hinit. unfold _init_docker_client.
    destruct (cached_client p); [discriminate|].
    destruct (from_env_reply H (from_env_calls p)); intros [= <- <-];
      split; reflexivity.
Qed.

(** ** The shutdown listener (lines 86-89) *)

(** X19: however many runtimes are constructed, the shutdown listener is
    registered by the first construction only. *)
Theorem shutdown_listener_registered_once (n : nat) (k : runtime_class) :
  Nat.iter (S n) register_shutdown_listener k = register_shutdown_listener k
  /\ List.length
       (shutdown_listeners (Nat.iter n register_shutdown_listener new_class))
     = Nat.min n 1.
Proof.
  assert (Hfix : forall k0,
             register_shutdown_listener (register_shutdown_listener k0)
             = register_shutdown_listener k0).
  { intros k0. unfold register_shutdown_listener.
    destruct (_shutdown_listener_id k0) eqn:Hid; cbn;
      [now rewrite Hid | reflexivity]. }
  assert (Hiter : forall m k0,
             Nat.iter (S m) register_shutdown_listener k0
             = register_shutdown_listener k0).
  { induction m as [|m IH]; intros k0; [reflexivity|].
    change (Nat.iter (S (S m)) register_shutdown_listener k0)
      with (register_shutdown_listener
              (Nat.iter (S m) register_shutdown_listener k0)).
    now rewrite IH, Hfix. }
  split; [apply Hiter|].
  destruct n as [|n]; [reflexivity|]. rewrite Hiter.
  destruct n; reflexivity.
Qed.

(** ** Resuming (lines 572-583) *)

(** X20: without a container handle [resume] raises at once and asks the
    engine for nothing; with a handle it starts that container first,
    and when it returns a liveness probe has succeeded after the start. *)
Theorem resume_starts_then_probes (E : environment) (cfg : config)
    (fuel : nat) (s : state) :
  match container (self s) with
  | None =>
      resume E cfg fuel s
      = (Raise (RuntimeError "Container not initialized"), s, [])
  | Some c =>
      exists rest,
        events_of (resume E cfg fuel s) = EvStart (c_name c) :: rest
        /\ match result_of (resume E cfg fuel s) with
           | Ok _ => In (EvProbe true) rest
           | _ => True
           end
  end.
Proof.
  destruct (container (self s)) as [c|] eqn:Hc.
  2:{ unfold resume, bind, get_self. cbv beta iota. now rewrite Hc. }
  assert (Hrun : resume E cfg fuel s
                 = (result_of (retry_wait_until_alive E cfg fuel 1 s),
                    state_of (retry_wait_until_alive E cfg fuel 1 s),
                    EvStart (c_name c) :: EvLog "debug"
                      :: events_of (retry_wait_until_alive E cfg fuel 1 s))).
  { unfold resume, bind, get_self. cbv beta iota. rewrite Hc.
    unfold emit, log, emit, _wait_until_alive, result_of, state_of, events_of.
    destruct (retry_wait_until_alive E cfg fuel 1 s) as [[r s1] t1].
    reflexivity. }
  rewrite Hrun. unfold result_of at 1. unfold events_of at 1. cbn [fst snd].
  eexists. split; [reflexivity|].
  pose proof (retry_wait_ok E cfg fuel 1 s) as Hok.
  destruct (result_of (retry_wait_until_alive E cfg fuel 1 s)) as [[]| |];
    [|exact I|exact I].
  right. now apply Hok.
Qed.

(** ** The port check (lines 524-530) *)

Lemma prefix_split (a s : string) :
  String.prefix a s = true -> exists post, s = a ++ post.
Proof.
  revert s. induction a as [|c a IH]; intros s Hp.
  - now exists s.
  - destruct s as [|d s]; simpl in Hp; [discriminate|].
    destruct (ascii_dec c d) as [->|]; [|discriminate].
    destruct (IH s Hp) as [post ->]. now exists post.
Qed.

Lemma contains_split (sub s : string) :
  contains sub s = true -> exists pre post, s = pre ++ sub ++ post.
Proof.
  induction s as [|c s IH]; rewrite contains_unfold.
  - destruct (String.prefix sub "") eqn:Hp; [|discriminate].
    intros _. destruct (prefix_split _ _ Hp) as [post Hpost].
    now exists "", post.
  - destruct (String.prefix sub (String c s)) eqn:Hp.
    + intros _. destruct (prefix_split _ _ Hp) as [post Hpost].
      now exists "", post.
    + intros H. destruct (IH H) as (pre & post & ->).
      now exists (String c pre), post.
Qed.

Lemma contains_trans (a b s : string) :
  contains a b = true -> contains b s = true -> contains a s = true.
Proof.
  intros Hab Hbs. destruct (contains_split _ _ Hbs) as (pre & post & ->).
  apply contains_skip, contains_keep. exact Hab.
Qed.

(** X21: the port check answers that a port is in use whenever a listed
    container publishes a host port whose decimal text contains the text
    of the port asked about: the port itself, or a longer number around
    it. *)
Theorem port_check_matches_text (E : environment) (port other : Z)
    (c : Container) (s : state) :
  In c (list_reply E (n_list (made s))) ->
  publishes c other = true ->
  contains (py_str_int port) (py_str_int other) = true ->
  result_of (_is_port_in_use_docker E port s) = Ok true.
Proof.
  intros Hin Hpub Htext.
  unfold _is_port_in_use_docker, bind, containers_list, ret, result_of.
  cbn [fst snd]. f_equal. unfold shown_by_some.
  apply existsb_exists. exists c. split; [exact Hin|].
  exact (contains_trans _ _ _ Htext (publishes_shown c other Hpub)).
Qed.

Lemma port_check_matches_text_witness :
  In busy_container
     (list_reply busy_engine (n_list (made (fresh_state sample_config))))
  /\ publishes busy_container 39999 = true
  /\ contains (py_str_int 3999) (py_str_int 39999) = true
  /\ result_of (_is_port_in_use_docker busy_engine 3999
                  (fresh_state sample_config)) = Ok true.
Proof.
  split; [left; reflexivity|]. split; [reflexivity|]. split; [reflexivity|].
  apply (port_check_matches_text busy_engine 3999 39999 busy_container
           (fresh_state sample_config));
    [left; reflexivity | reflexivity | reflexivity].
Defined.

(** ** Attach-only mode (lines 155-225) *)







(** ** The creation request (lines 419-438) *)

Lemma prep_event_request (cfg : config) (ev : event) :
  prep_event ev = true -> request_for cfg ev = true.
Proof. now destruct ev. Qed.

Lemma close_event_request (cfg : config) (ev : event) :
  close_event ev = true -> request_for cfg ev = true.
Proof. now destruct ev. Qed.

Lemma close_emits_requests (cfg : config) (arg : option bool) :
  emits_only (request_for cfg) (close cfg arg).
Proof.
  intros s. destruct (close_spec cfg arg s) as (t & Hrun & Ht).
  rewrite Hrun. unfold events_of. cbn [snd].
  exact (forallb_weaken _ _ _ (close_event_request cfg) Ht).
Qed.

Lemma run_container_requests (E : environment) (cfg : config)
    (r : runtime) (environment : dict string) :
  use_host_network cfg = false ->
  emits_only (request_for cfg)
    (run_container E cfg "bridge"
       (Some [("host.docker.internal", "host-gateway")])
       (build_port_mapping cfg r) environment).
Proof.
  intros Hhost s.
  unfold run_container, bind, get_self, read_local, ret, containers_run,
    modify_self, log, send_status_message, emit, events_of.
  change (String.eqb "bridge" "host") with false. cbn [negb].
  unfold build_port_mapping. rewrite Hhost. cbn [negb].
  destruct (run_reply E (n_run (made s))); cbv beta iota;
    cbn [fst snd app forallb request_for r_name r_network_mode r_ports
         r_extra_hosts];
    rewrite String.eqb_refl; reflexivity.
Qed.

(** X23: every creation request [_init_container] makes, the repeated
    ones after a name conflict included, is for the container named
    after the session, in bridge mode, with a port map and with
    [host.docker.internal] pointing at the host gateway; no request in
    host-network mode reaches the engine. *)
Theorem creation_requests_are_bridged (E : environment) (cfg : config)
    (fuel : nat) (s : state) :
  forallb (request_for cfg) (events_of (_init_container E cfg fuel s)) = true.
Proof.
  revert s. induction fuel as [|fuel IH]; intros s; [reflexivity|].
  destruct (prepare_container_spec E cfg s) as (s1 & t1 & Hprep & _ & _).
  pose proof (prepare_container_emits E cfg s) as Hevs.
  rewrite Hprep in Hevs. unfold events_of in Hevs. cbn [snd] in Hevs.
  apply (forallb_weaken _ _ _ (prep_event_request cfg)) in Hevs.
  cbn [_init_container]. unfold bind at 1. rewrite Hprep.
  match goal with
  | |- context [try_except ?m ?h s1] =>
      assert (Hrest : emits_only (request_for cfg) (try_except m h))
  end.
  { apply emits_try_except.
    - unfold resolved_network.
      destruct (use_host_network cfg) eqn:Hhost; cbn [fst snd];
        [intros s0; reflexivity|].
      destruct (version_reply E (n_version (made s))) as [components|e];
        [|intros s0; reflexivity].
      destruct (is_docker_desktop components); [intros s0; reflexivity|].
      now apply run_container_requests.
    - intros e. unfold log, stop_all_containers.
      repeat first [apply close_emits_requests | exact IH | emits_step]. }
  specialize (Hrest s1). unfold events_of in *.
  destruct (try_except _ _ s1) as [[r2 s2] t2]. cbn [snd] in *.
  now rewrite forallb_app, Hevs, Hrest.
Qed.

(** ** What an attachment leaves (lines 474-502) *)

Lemma preserves_of_keeps {A X} (g : state -> X) (v : X) (m : M A) :
  keeps g m -> preserves (fun s => g s = v) m.
Proof. intros Hk s Hs. now rewrite Hk. Qed.

Lemma read_container_config_keeps_handle (cfg : config) (c : Container) :
  keeps (fun s => container (self s)) (read_container_config cfg c).
Proof.
  unfold read_container_config, read_env_marker, read_exposed_port, int_of,
    log.
  repeat first [keeps_step | collaborator].
Qed.

Lemma read_container_config_sets_url (cfg : config) (c : Container) :
  establishes
    (fun s =>
       api_url (self s)
       = local_runtime_url cfg ++ ":" ++ py_str_int (_container_port (self s)))
    (read_container_config cfg c).
Proof.
  unfold read_container_config.
  do 3 (apply establishes_bind; intros ?).
  apply establishes_after; [reflexivity|].
  intros s Hs. exact Hs.
Qed.

(** X24: after an attachment that returns, the runtime holds the
    container the engine showed at the lookup, and its [api_url] is the
    configured local URL with the container port it then holds. *)
Theorem attach_sets_handle_and_url (E : environment) (cfg : config)
    (s : state) :
  match result_of (_attach_to_container E cfg s) with
  | Ok _ => attached_to E cfg s (self (state_of (_attach_to_container E cfg s)))
  | _ => True
  end.
Proof.
  destruct (_attach_to_container E cfg s) as [[r s'] t] eqn:Hrun.
  unfold result_of, state_of. cbn [fst snd].
  destruct r as [[]| |]; [|exact I|exact I].
  rewrite attach_to_container_parts in Hrun.
  unfold bind at 1 in Hrun. unfold containers_get at 1 in Hrun.
  destruct (get_reply E (n_get (made s)) (container_name cfg)) as [c|e] eqn:Hget;
    [|discriminate Hrun].
  cbv beta iota zeta in Hrun.
  unfold bind at 1 in Hrun. unfold modify_self at 1 in Hrun.
  cbv beta iota in Hrun. unfold bind at 1 in Hrun.
  pose proof (read_container_config_keeps_handle cfg c) as Hkeep.
  pose proof (read_container_config_sets_url cfg c) as Hurl.
  destruct (String.eqb (c_status c) "exited");
    unfold emit, ret in Hrun; cbv beta iota in Hrun;
    match type of Hrun with
    | context [read_container_config cfg c ?st] =>
        specialize (Hkeep st); specialize (Hurl st);
        destruct (read_container_config cfg c st) as [[r2 s2] t2]
    end;
    unfold state_of, result_of in Hkeep, Hurl; cbn [fst snd self] in *;
    injection Hrun as -> -> _;
    unfold attached_to; cbn [self made]; rewrite Hkeep;
    cbn [container set_container]; (split; [exact Hget | exact Hurl]).
Qed.
